(** * The NGSim lane-change scenario

    A shallow embedding of
    [carla_real_traffic_scenarios/ngsim/scenario.py]
    (class [NGSimLaneChangeScenario]) and the properties of its episode
    arbiter, alignment detector, progress scorer, maneuver selector and
    dataset partitioner.

    Conventions of the embedding.
    - Python [float] values are modelled as exact rationals ([Q]); rounding
      is not modelled.  Python [int] is [Z].  The one float test with
      finitely many inputs, the split threshold, is also evaluated in
      binary64 and shown to agree.
    - The object [self] is a record; an attribute that is unset or [None]
      is [None], and reading through it raises [AttributeError].
    - Methods run in a small monad threading [self], an exception result
      and the list of calls made to the external collaborators (simulator,
      trajectory recording, early-stop monitor, background traffic).
    - What the collaborators answer is an input of the method
      ([ResetInput], [StepInput]) or a field of [Collaborators]. *)

From Stdlib Require Import ZArith QArith Qabs Qround Lqa Lia List String Bool.
From Stdlib Require PrimFloat Uint63.
Import ListNotations.

Set Implicit Arguments.

(** ** Python numbers *)

Module Py.

(** [a < b] on floats. *)
Definition lt (a b : Q) : bool := negb (Qle_bool b a).

(** [int(x)] on a float: truncation toward zero. *)
Definition int (x : Q) : Z := Z.quot (Qnum x) (Zpos (Qden x)).

(** [int(b)] on a bool. *)
Definition of_bool (b : bool) : Q := if b then 1 else 0.

(** The double nearest to pi, as numpy's [np.pi]. *)
Definition pi : Q := 884279719003555 # 281474976710656.

(** [np.deg2rad(x)]. *)
Definition deg2rad (x : Q) : Q := x * (pi / 180).

Import PrimFloat.

(** The test [k / 100 < 0.8] of a residue [k] in binary64 arithmetic, as
    Python evaluates it; the literal is the double nearest to 0.8. *)
Definition binary64_below_split (k : Z) : bool :=
  PrimFloat.ltb
    (PrimFloat.div (PrimFloat.of_uint63 (Uint63.of_Z k))
                   (PrimFloat.of_uint63 (Uint63.of_Z 100)))
    0x1.999999999999ap-1%float.

End Py.

(** ** Exceptions and the method monad *)

Inductive PyErr : Type :=
| AttributeError
| KeyError
| IndexError
| ZeroDivisionError
| TypeError
| StopIteration.

Inductive outcome (A : Type) : Type :=
| Ret (a : A)
| Raise (e : PyErr).
Arguments Ret {A} a.
Arguments Raise {A} e.

(** ** carla data *)

Record Location := { loc_x : Q; loc_y : Q; loc_z : Q }.
Record Rotation := { pitch : Q; yaw : Q; roll : Q }.
Record Transform := { location : Location; rotation : Rotation }.
Record Vector3D := { vx : Q; vy : Q; vz : Q }.

(** [carla.Waypoint]: the attributes the scenario reads. *)
Record Waypoint := { lane_id : Z; transform : Transform }.

(** [carla.Vehicle]: [get_transform()] of the current frame. *)
Record Vehicle := { get_transform : Transform }.

(** ** Scenario data *)

Inductive ChauffeurCommand : Type :=
| LANE_FOLLOW
| CHANGE_LANE_LEFT
| CHANGE_LANE_RIGHT.

Inductive DatasetMode : Type := TRAIN | VALIDATION.

(** [RewardType]: the source names [DENSE] only; [SPARSE] stands for any
    other member. *)
Inductive RewardType : Type := DENSE | SPARSE.

Record NGSimDataset := { dataset_name : string }.
Record NGSimTimeslot := { file_suffix : string }.

Record LaneChangeInstant := {
  timeslot : NGSimTimeslot;
  frame_start : Z;
  vehicle_id : Z;
  chauffeur_command : ChauffeurCommand
}.

(** Planar vector and transform of the recording's own geometry. *)
Record Vector2 := { v2_x : Q; v2_y : Q }.
Record NGSimTransform := { position : Vector2; orientation : Vector2 }.
Record NGSimVehicle := { id : Z; ngsim_transform : NGSimTransform; speed : Q }.

(** [NGSimRecording]: [lane_change_instants] is the attribute
    [__init__] reads. *)
Record NGSimRecording := { lane_change_instants : list LaneChangeInstant }.

Record EarlyStopMonitor := { timeout_s : Q }.

(** Handle of [RealTrafficVehiclesInCarla]. *)
Inductive RealTrafficVehiclesInCarla : Type := VehiclesInCarla.

(** Calls to the external collaborators, in program order. *)
Inductive Call : Type :=
| setup_carla_settings (synchronous : bool) (time_delta_s : Q)
| NGSimRecording_new
| NGSimRecording_reset (ts : NGSimTimeslot) (frame : Z)
| NGSimRecording_step
| VehiclesInCarla_new
| VehiclesInCarla_step (vehicles : list NGSimVehicle)
| VehiclesInCarla_close
| EarlyStopMonitor_new (timeout : Q)
| EarlyStopMonitor_call (ego_transform : Transform)
| EarlyStopMonitor_close
| Vehicle_set_transform (t : Transform)
| Vehicle_set_velocity (v : Vector3D)
| LOGGER_info (count : nat) (road : string) (mode : DatasetMode).

(** ** The object *)

Record Self := {
  _ngsim_recording : option NGSimRecording;
  _ngsim_dataset : NGSimDataset;
  _ngsim_vehicles_in_carla : option RealTrafficVehiclesInCarla;
  _target_alignment_counter : option Z;
  _dataset_mode : DatasetMode;
  _early_stop_monitor : option EarlyStopMonitor;
  _lane_change_instants : list LaneChangeInstant;
  _reward_type : RewardType;
  _lane_change : option LaneChangeInstant;
  _previous_chauffeur_command : option ChauffeurCommand;
  _previous_progress : option Q;
  _total_distance_m : option Q;
  _checkpoints_distance_m : option Q;
  _start_lane_waypoint : option Waypoint;
  _target_lane_waypoint : option Waypoint
}.

Definition set_ngsim_recording (v : option NGSimRecording) (s : Self) : Self :=
  {| _ngsim_recording := v; _ngsim_dataset := _ngsim_dataset s;
     _ngsim_vehicles_in_carla := _ngsim_vehicles_in_carla s;
     _target_alignment_counter := _target_alignment_counter s;
     _dataset_mode := _dataset_mode s; _early_stop_monitor := _early_stop_monitor s;
     _lane_change_instants := _lane_change_instants s; _reward_type := _reward_type s;
     _lane_change := _lane_change s;
     _previous_chauffeur_command := _previous_chauffeur_command s;
     _previous_progress := _previous_progress s;
     _total_distance_m := _total_distance_m s;
     _checkpoints_distance_m := _checkpoints_distance_m s;
     _start_lane_waypoint := _start_lane_waypoint s;
     _target_lane_waypoint := _target_lane_waypoint s |}.

Definition set_ngsim_vehicles_in_carla (v : option RealTrafficVehiclesInCarla)
    (s : Self) : Self :=
  {| _ngsim_recording := _ngsim_recording s; _ngsim_dataset := _ngsim_dataset s;
     _ngsim_vehicles_in_carla := v;
     _target_alignment_counter := _target_alignment_counter s;
     _dataset_mode := _dataset_mode s; _early_stop_monitor := _early_stop_monitor s;
     _lane_change_instants := _lane_change_instants s; _reward_type := _reward_type s;
     _lane_change := _lane_change s;
     _previous_chauffeur_command := _previous_chauffeur_command s;
     _previous_progress := _previous_progress s;
     _total_distance_m := _total_distance_m s;
     _checkpoints_distance_m := _checkpoints_distance_m s;
     _start_lane_waypoint := _start_lane_waypoint s;
     _target_lane_waypoint := _target_lane_waypoint s |}.

Definition set_target_alignment_counter (v : Z) (s : Self) : Self :=
  {| _ngsim_recording := _ngsim_recording s; _ngsim_dataset := _ngsim_dataset s;
     _ngsim_vehicles_in_carla := _ngsim_vehicles_in_carla s;
     _target_alignment_counter := Some v;
     _dataset_mode := _dataset_mode s; _early_stop_monitor := _early_stop_monitor s;
     _lane_change_instants := _lane_change_instants s; _reward_type := _reward_type s;
     _lane_change := _lane_change s;
     _previous_chauffeur_command := _previous_chauffeur_command s;
     _previous_progress := _previous_progress s;
     _total_distance_m := _total_distance_m s;
     _checkpoints_distance_m := _checkpoints_distance_m s;
     _start_lane_waypoint := _start_lane_waypoint s;
     _target_lane_waypoint := _target_lane_waypoint s |}.

Definition set_early_stop_monitor (v : option EarlyStopMonitor) (s : Self) : Self :=
  {| _ngsim_recording := _ngsim_recording s; _ngsim_dataset := _ngsim_dataset s;
     _ngsim_vehicles_in_carla := _ngsim_vehicles_in_carla s;
     _target_alignment_counter := _target_alignment_counter s;
     _dataset_mode := _dataset_mode s; _early_stop_monitor := v;
     _lane_change_instants := _lane_change_instants s; _reward_type := _reward_type s;
     _lane_change := _lane_change s;
     _previous_chauffeur_command := _previous_chauffeur_command s;
     _previous_progress := _previous_progress s;
     _total_distance_m := _total_distance_m s;
     _checkpoints_distance_m := _checkpoints_distance_m s;
     _start_lane_waypoint := _start_lane_waypoint s;
     _target_lane_waypoint := _target_lane_waypoint s |}.

Definition set_lane_change_instants (v : list LaneChangeInstant) (s : Self) : Self :=
  {| _ngsim_recording := _ngsim_recording s; _ngsim_dataset := _ngsim_dataset s;
     _ngsim_vehicles_in_carla := _ngsim_vehicles_in_carla s;
     _target_alignment_counter := _target_alignment_counter s;
     _dataset_mode := _dataset_mode s; _early_stop_monitor := _early_stop_monitor s;
     _lane_change_instants := v; _reward_type := _reward_type s;
     _lane_change := _lane_change s;
     _previous_chauffeur_command := _previous_chauffeur_command s;
     _previous_progress := _previous_progress s;
     _total_distance_m := _total_distance_m s;
     _checkpoints_distance_m := _checkpoints_distance_m s;
     _start_lane_waypoint := _start_lane_waypoint s;
     _target_lane_waypoint := _target_lane_waypoint s |}.

Definition set_lane_change (v : option LaneChangeInstant) (s : Self) : Self :=
  {| _ngsim_recording := _ngsim_recording s; _ngsim_dataset := _ngsim_dataset s;
     _ngsim_vehicles_in_carla := _ngsim_vehicles_in_carla s;
     _target_alignment_counter := _target_alignment_counter s;
     _dataset_mode := _dataset_mode s; _early_stop_monitor := _early_stop_monitor s;
     _lane_change_instants := _lane_change_instants s; _reward_type := _reward_type s;
     _lane_change := v;
     _previous_chauffeur_command := _previous_chauffeur_command s;
     _previous_progress := _previous_progress s;
     _total_distance_m := _total_distance_m s;
     _checkpoints_distance_m := _checkpoints_distance_m s;
     _start_lane_waypoint := _start_lane_waypoint s;
     _target_lane_waypoint := _target_lane_waypoint s |}.

Definition set_previous_chauffeur_command (v : ChauffeurCommand) (s : Self) : Self :=
  {| _ngsim_recording := _ngsim_recording s; _ngsim_dataset := _ngsim_dataset s;
     _ngsim_vehicles_in_carla := _ngsim_vehicles_in_carla s;
     _target_alignment_counter := _target_alignment_counter s;
     _dataset_mode := _dataset_mode s; _early_stop_monitor := _early_stop_monitor s;
     _lane_change_instants := _lane_change_instants s; _reward_type := _reward_type s;
     _lane_change := _lane_change s;
     _previous_chauffeur_command := Some v;
     _previous_progress := _previous_progress s;
     _total_distance_m := _total_distance_m s;
     _checkpoints_distance_m := _checkpoints_distance_m s;
     _start_lane_waypoint := _start_lane_waypoint s;
     _target_lane_waypoint := _target_lane_waypoint s |}.

Definition set_previous_progress (v : Q) (s : Self) : Self :=
  {| _ngsim_recording := _ngsim_recording s; _ngsim_dataset := _ngsim_dataset s;
     _ngsim_vehicles_in_carla := _ngsim_vehicles_in_carla s;
     _target_alignment_counter := _target_alignment_counter s;
     _dataset_mode := _dataset_mode s; _early_stop_monitor := _early_stop_monitor s;
     _lane_change_instants := _lane_change_instants s; _reward_type := _reward_type s;
     _lane_change := _lane_change s;
     _previous_chauffeur_command := _previous_chauffeur_command s;
     _previous_progress := Some v;
     _total_distance_m := _total_distance_m s;
     _checkpoints_distance_m := _checkpoints_distance_m s;
     _start_lane_waypoint := _start_lane_waypoint s;
     _target_lane_waypoint := _target_lane_waypoint s |}.

Definition set_total_distance_m (v : option Q) (s : Self) : Self :=
  {| _ngsim_recording := _ngsim_recording s; _ngsim_dataset := _ngsim_dataset s;
     _ngsim_vehicles_in_carla := _ngsim_vehicles_in_carla s;
     _target_alignment_counter := _target_alignment_counter s;
     _dataset_mode := _dataset_mode s; _early_stop_monitor := _early_stop_monitor s;
     _lane_change_instants := _lane_change_instants s; _reward_type := _reward_type s;
     _lane_change := _lane_change s;
     _previous_chauffeur_command := _previous_chauffeur_command s;
     _previous_progress := _previous_progress s;
     _total_distance_m := v;
     _checkpoints_distance_m := _checkpoints_distance_m s;
     _start_lane_waypoint := _start_lane_waypoint s;
     _target_lane_waypoint := _target_lane_waypoint s |}.

Definition set_checkpoints_distance_m (v : option Q) (s : Self) : Self :=
  {| _ngsim_recording := _ngsim_recording s; _ngsim_dataset := _ngsim_dataset s;
     _ngsim_vehicles_in_carla := _ngsim_vehicles_in_carla s;
     _target_alignment_counter := _target_alignment_counter s;
     _dataset_mode := _dataset_mode s; _early_stop_monitor := _early_stop_monitor s;
     _lane_change_instants := _lane_change_instants s; _reward_type := _reward_type s;
     _lane_change := _lane_change s;
     _previous_chauffeur_command := _previous_chauffeur_command s;
     _previous_progress := _previous_progress s;
     _total_distance_m := _total_distance_m s;
     _checkpoints_distance_m := v;
     _start_lane_waypoint := _start_lane_waypoint s;
     _target_lane_waypoint := _target_lane_waypoint s |}.

Definition set_start_lane_waypoint (v : Waypoint) (s : Self) : Self :=
  {| _ngsim_recording := _ngsim_recording s; _ngsim_dataset := _ngsim_dataset s;
     _ngsim_vehicles_in_carla := _ngsim_vehicles_in_carla s;
     _target_alignment_counter := _target_alignment_counter s;
     _dataset_mode := _dataset_mode s; _early_stop_monitor := _early_stop_monitor s;
     _lane_change_instants := _lane_change_instants s; _reward_type := _reward_type s;
     _lane_change := _lane_change s;
     _previous_chauffeur_command := _previous_chauffeur_command s;
     _previous_progress := _previous_progress s;
     _total_distance_m := _total_distance_m s;
     _checkpoints_distance_m := _checkpoints_distance_m s;
     _start_lane_waypoint := Some v;
     _target_lane_waypoint := _target_lane_waypoint s |}.

Definition set_target_lane_waypoint (v : option Waypoint) (s : Self) : Self :=
  {| _ngsim_recording := _ngsim_recording s; _ngsim_dataset := _ngsim_dataset s;
     _ngsim_vehicles_in_carla := _ngsim_vehicles_in_carla s;
     _target_alignment_counter := _target_alignment_counter s;
     _dataset_mode := _dataset_mode s; _early_stop_monitor := _early_stop_monitor s;
     _lane_change_instants := _lane_change_instants s; _reward_type := _reward_type s;
     _lane_change := _lane_change s;
     _previous_chauffeur_command := _previous_chauffeur_command s;
     _previous_progress := _previous_progress s;
     _total_distance_m := _total_distance_m s;
     _checkpoints_distance_m := _checkpoints_distance_m s;
     _start_lane_waypoint := _start_lane_waypoint s;
     _target_lane_waypoint := v |}.

(** A method body: from [self] to an outcome, the updated [self] (also when
    an exception is raised: assignments made before it persist) and the
    collaborator calls made. *)
Definition M (A : Type) : Type := Self -> outcome A * Self * list Call.

Definition ret {A} (a : A) : M A := fun s => (Ret a, s, []).

Definition raise {A} (e : PyErr) : M A := fun s => (Raise e, s, []).

Definition bind {A B} (m : M A) (f : A -> M B) : M B :=
  fun s =>
    match m s with
    | (Ret a, s1, t1) =>
        match f a s1 with
        | (o, s2, t2) => (o, s2, t1 ++ t2)
        end
    | (Raise e, s1, t1) => (Raise e, s1, t1)
    end.

Declare Scope py_scope.
Delimit Scope py_scope with py.
Notation "x <- m ;; k" := (bind m (fun x => k))
  (at level 61, m at next level, right associativity) : py_scope.
Notation "m ;; k" := (bind m (fun _ => k))
  (at level 61, right associativity) : py_scope.
Open Scope py_scope.

(** [self.f] where the code goes on to use the value. *)
Definition attr {A} (f : Self -> option A) : M A :=
  fun s => match f s with
           | Some a => (Ret a, s, [])
           | None => (Raise AttributeError, s, [])
           end.

(** [self.f] as a plain read. *)
Definition read {A} (f : Self -> A) : M A := fun s => (Ret (f s), s, []).

(** [self.f = v]. *)
Definition assign (upd : Self -> Self) : M unit := fun s => (Ret tt, upd s, []).

(** A call to a collaborator. *)
Definition call (c : Call) : M unit := fun s => (Ret tt, s, [c]).

(** [a / b] on floats. *)
Definition truediv (a b : Q) : M Q :=
  if Qeq_bool b 0 then raise ZeroDivisionError else ret (a / b).

Definition result_of {A} (r : outcome A * Self * list Call) : outcome A := fst (fst r).
Definition self_of {A} (r : outcome A * Self * list Call) : Self := snd (fst r).
Definition calls_of {A} (r : outcome A * Self * list Call) : list Call := snd r.

(** The run [r] preceded by the calls [t]. *)
Definition after_calls {A} (t : list Call) (r : outcome A * Self * list Call)
    : outcome A * Self * list Call :=
  (result_of r, self_of r, t ++ calls_of r).

(** ** External collaborators

    Everything the scenario imports and calls but does not define: the
    package constants, the simulator's map and geometry, the helpers of
    [utils], and [hashlib]. *)

Class Collaborators := {
  (** [carla_real_traffic_scenarios.DT] and the constants of [.ngsim] *)
  DT : Q;
  FRAMES_BEFORE_MANUVEUR : Z;
  FRAMES_AFTER_MANUVEUR : Z;
  PIXELS_TO_METERS : Q;
  (** [carla.Map.get_waypoint] (called with its defaults, which project the
      location onto the nearest driving lane), [carla.Waypoint.get_left_lane]
      / [get_right_lane] ([None] where the road has no such lane) and
      [carla.Location.distance] *)
  get_waypoint : Location -> Waypoint;
  get_left_lane : Waypoint -> option Waypoint;
  get_right_lane : Waypoint -> option Waypoint;
  distance : Location -> Location -> Q;
  (** [utils.transforms.distance_between_on_plane],
      [utils.geometry.normalize_angle],
      [utils.collections.find_first_matching] and the recording's
      [Transform.as_carla_transform] *)
  distance_between_on_plane : Location -> Location -> Q;
  normalize_angle : Q -> Q;
  find_first_matching :
    list NGSimVehicle -> (NGSimVehicle -> bool) -> outcome NGSimVehicle;
  as_carla_transform : NGSimTransform -> Transform;
  (** [str(lane_change_instant)] and
      [int(hashlib.sha1(s.encode('utf-8')).hexdigest(), 16)] *)
  str : LaneChangeInstant -> string;
  sha1_hexdigest_int : string -> Z
}.

Definition CROSSTRACK_ERROR_TOLERANCE : Q := 3 # 10.
Definition YAW_DEG_ERRORS_TOLERANCE : Q := 10.
Definition TARGET_LANE_ALIGNMENT_FRAMES : Z := 10.

Definition DatasetMode_eqb (a b : DatasetMode) : bool :=
  match a, b with
  | TRAIN, TRAIN | VALIDATION, VALIDATION => true
  | _, _ => false
  end.

Definition RewardType_eqb (a b : RewardType) : bool :=
  match a, b with
  | DENSE, DENSE | SPARSE, SPARSE => true
  | _, _ => false
  end.

(** What the collaborators hand to [reset]: the index [random.choice]
    draws and the vehicles [self._ngsim_recording.step()] returns. *)
Record ResetInput := {
  choice_index : nat;
  reset_vehicles : list NGSimVehicle
}.

(** What the collaborators hand to [step]: the vehicles
    [self._ngsim_recording.step()] returns, [self._ngsim_recording.frame]
    after it, and what [self._early_stop_monitor(ego_transform)] answers
    if it is called. *)
Record StepInput := {
  step_vehicles : list NGSimVehicle;
  recording_frame : Z;
  early_stop_monitor_says : bool
}.

(** The [info] dictionary of a step result. *)
Record Info := {
  info_road : string;
  info_timeslice : string;
  info_frame : Z;
  info_dataset_mode : DatasetMode;
  info_reward_type : RewardType;
  info_target_alignment_counter : Z
}.

(** [ScenarioStepResult(chauffeur_command, reward, done, info)]. *)
Record ScenarioStepResult := {
  result_chauffeur_command : ChauffeurCommand;
  reward : Q;
  done : bool;
  info : Info
}.

(** The locals of [step] at line 125, before the result is packaged. *)
Record StepLocals := {
  local_chauffeur_command : ChauffeurCommand;
  scenario_finished_with_success : bool;
  early_stop : bool;
  local_done : bool;
  local_reward : Q
}.

(** [random.choice(seq)] given the index it draws below [len(seq)]. *)
Definition random_choice {A} (i : nat) (seq : list A) : M A :=
  match nth_error seq (i mod List.length seq) with
  | Some a => ret a
  | None => raise IndexError
  end.

(** [x.attribute] on a value that may be [None]. *)
Definition deref {A} (x : option A) : M A :=
  match x with
  | Some a => ret a
  | None => raise AttributeError
  end.

(** An operand or callee that must not be [None]. *)
Definition operand {A} (f : Self -> option A) : M A :=
  fun s => match f s with
           | Some a => (Ret a, s, [])
           | None => (Raise TypeError, s, [])
           end.

Definition lift {A} (o : outcome A) : M A := fun s => (o, s, []).

Definition scale (v : Vector2) (k : Q) : Vector2 :=
  {| v2_x := v2_x v * k; v2_y := v2_y v * k |}.

Section Scenario.

Context {W : Collaborators}.

(** *** Dataset partitioner (lines 48-54) *)

Definition determine_split (lane_change_instant : LaneChangeInstant) : DatasetMode :=
  let split_frac : Q := 8 # 10 in
  let hash_num := sha1_hexdigest_int (str lane_change_instant) in
  if Py.lt (inject_Z (hash_num mod 100) / 100) split_frac
  then TRAIN
  else VALIDATION.

(** The label as a function of the identity string alone, with the
    threshold as an integer: what [determine_split] is compared with. *)
Definition label_of_identity (identity : string) : DatasetMode :=
  if Z.ltb (sha1_hexdigest_int identity mod 100) 80 then TRAIN else VALIDATION.

(** *** Construction (lines 33-62) *)

Definition __init__ (ngsim_dataset : NGSimDataset) (dataset_mode : DatasetMode)
    (reward_type : RewardType) (recording : NGSimRecording) : Self * list Call :=
  let instants :=
    filter (fun lci => DatasetMode_eqb (determine_split lci) dataset_mode)
           (lane_change_instants recording) in
  ({| _ngsim_recording := Some recording;
      _ngsim_dataset := ngsim_dataset;
      _ngsim_vehicles_in_carla := None;
      _target_alignment_counter := None;
      _dataset_mode := dataset_mode;
      _early_stop_monitor := None;
      _lane_change_instants := instants;
      _reward_type := reward_type;
      _lane_change := None;
      _previous_chauffeur_command := None;
      _previous_progress := None;
      _total_distance_m := None;
      _checkpoints_distance_m := None;
      _start_lane_waypoint := None;
      _target_lane_waypoint := None |},
   [ setup_carla_settings true DT;
     NGSimRecording_new;
     LOGGER_info (List.length instants) (dataset_name ngsim_dataset) dataset_mode ]).

(** The dictionary
    [{CHANGE_LANE_LEFT: w.on_left, CHANGE_LANE_RIGHT: w.on_right}[command]()]:
    a [KeyError] on any other command. *)
Definition by_command (on_left on_right : Waypoint -> option Waypoint)
    (w : Waypoint) (command : ChauffeurCommand) : M (option Waypoint) :=
  match command with
  | CHANGE_LANE_LEFT => ret (on_left w)
  | CHANGE_LANE_RIGHT => ret (on_right w)
  | LANE_FOLLOW => raise KeyError
  end.

(** *** Maneuver selector: [reset] (lines 64-102) *)

Definition frame_manuveur_start (lane_change : LaneChangeInstant) : Z :=
  Z.max (frame_start lane_change - FRAMES_BEFORE_MANUVEUR) 0.

Definition reset (vehicle : Vehicle) (inp : ResetInput) : M unit :=
  old_vehicles <- read _ngsim_vehicles_in_carla ;;
  match old_vehicles with
  | Some _ => call VehiclesInCarla_close
  | None => ret tt
  end ;;
  call VehiclesInCarla_new ;;
  assign (set_ngsim_vehicles_in_carla (Some VehiclesInCarla)) ;;
  old_monitor <- read _early_stop_monitor ;;
  match old_monitor with
  | Some _ => call EarlyStopMonitor_close
  | None => ret tt
  end ;;
  let timeout := inject_Z (FRAMES_BEFORE_MANUVEUR + FRAMES_AFTER_MANUVEUR) * DT in
  call (EarlyStopMonitor_new timeout) ;;
  assign (set_early_stop_monitor (Some {| timeout_s := timeout |})) ;;
  instants <- read _lane_change_instants ;;
  lane_change <- random_choice (choice_index inp) instants ;;
  assign (set_lane_change (Some lane_change)) ;;
  assign (set_target_alignment_counter 0) ;;
  assign (set_previous_chauffeur_command (chauffeur_command lane_change)) ;;
  assign (set_previous_progress 0) ;;
  assign (set_total_distance_m None) ;;
  assign (set_checkpoints_distance_m None) ;;
  _ <- attr _ngsim_recording ;;
  call (NGSimRecording_reset (timeslot lane_change)
                             (frame_manuveur_start lane_change - 1)) ;;
  call NGSimRecording_step ;;
  let ngsim_vehicles := reset_vehicles inp in
  agent_ngsim_vehicle <-
    lift (find_first_matching ngsim_vehicles
            (fun v => Z.eqb (id v) (vehicle_id lane_change))) ;;
  let other_ngsim_vehicles :=
    filter (fun v => negb (Z.eqb (id v) (vehicle_id lane_change))) ngsim_vehicles in
  let t := ngsim_transform agent_ngsim_vehicle in
  call (Vehicle_set_transform (as_carla_transform t)) ;;
  let v := scale (scale (orientation t) (speed agent_ngsim_vehicle)) PIXELS_TO_METERS in
  call (Vehicle_set_velocity {| vx := v2_x v; vy := v2_y v; vz := 0 |}) ;;
  let start_lane_waypoint := get_waypoint (location (as_carla_transform t)) in
  assign (set_start_lane_waypoint start_lane_waypoint) ;;
  target_lane_waypoint <-
    by_command get_left_lane get_right_lane start_lane_waypoint
               (chauffeur_command lane_change) ;;
  assign (set_target_lane_waypoint target_lane_waypoint) ;;
  call (VehiclesInCarla_step other_ngsim_vehicles).

(** *** Alignment detector (lines 140-149) *)

Definition crosstrack_error (ego_transform : Transform) (waypoint : Waypoint) : Q :=
  distance_between_on_plane (location ego_transform) (location (transform waypoint)).

Definition yaw_error (ego_transform : Transform) (waypoint : Waypoint) : Q :=
  normalize_angle
    (Py.deg2rad (yaw (rotation ego_transform) - yaw (rotation (transform waypoint)))).

Definition aligned_with_target_lane (ego_transform : Transform) (waypoint : Waypoint)
    : bool :=
  Py.lt (crosstrack_error ego_transform waypoint) CROSSTRACK_ERROR_TOLERANCE
  && Py.lt (yaw_error ego_transform waypoint) (Py.deg2rad YAW_DEG_ERRORS_TOLERANCE).

Definition _is_lane_aligned (ego_transform : Transform) (waypoint : Waypoint) : M bool :=
  (if aligned_with_target_lane ego_transform waypoint
   then
     counter <- attr _target_alignment_counter ;;
     assign (set_target_alignment_counter (counter + 1))
   else
     assign (set_target_alignment_counter 0)) ;;
  counter <- attr _target_alignment_counter ;;
  ret (Z.eqb counter TARGET_LANE_ALIGNMENT_FRAMES).

(** *** Progress scorer (lines 166-213) *)

Definition checkpoints_number : Q := 10.

(** Line 189: the overshoot test of [_calc_progress_change]. *)
Definition passed_target_centerline (total_distance_m : Q)
    (start_waypoint target_waypoint : Waypoint) (current_location : Location) : bool :=
  let distance_from_start :=
    distance current_location (location (transform start_waypoint)) in
  let distance_from_target :=
    distance current_location (location (transform target_waypoint)) in
  Py.lt total_distance_m distance_from_start
  && Py.lt distance_from_target distance_from_start.

Definition _calc_progress_change (start_waypoint target_waypoint : option Waypoint)
    (current_location : Location) : M Q :=
  start_waypoint <- deref start_waypoint ;;
  target_waypoint <- deref target_waypoint ;;
  let target_location := location (transform target_waypoint) in
  let distance_from_target := distance current_location target_location in
  total_distance_m <- operand _total_distance_m ;;
  let distance_traveled_m := total_distance_m - distance_from_target in
  checkpoints_distance_m <- operand _checkpoints_distance_m ;;
  quotient <- truediv distance_traveled_m checkpoints_distance_m ;;
  let checkpoints_passed_number := Py.int quotient in
  let passed :=
    passed_target_centerline total_distance_m start_waypoint target_waypoint
                             current_location in
  let progress :=
    Py.of_bool (negb passed)
    * (inject_Z checkpoints_passed_number / checkpoints_number) in
  previous_progress <- attr _previous_progress ;;
  let progress_change := progress - previous_progress in
  assign (set_previous_progress progress) ;;
  ret progress_change.

Definition _get_progress_change (ego_transform : Transform) : M Q :=
  let current_location := location ego_transform in
  let current_waypoint := get_waypoint current_location in
  start_lane_waypoint <- attr _start_lane_waypoint ;;
  let on_start_lane := Z.eqb (lane_id current_waypoint) (lane_id start_lane_waypoint) in
  target_lane_waypoint <- attr _target_lane_waypoint ;;
  let on_target_lane := Z.eqb (lane_id current_waypoint) (lane_id target_lane_waypoint) in
  total_distance_m <- read _total_distance_m ;;
  match total_distance_m with
  | None =>
      let target_lane_location := location (transform target_lane_waypoint) in
      let total := distance current_location target_lane_location in
      assign (set_total_distance_m (Some total)) ;;
      assign (set_checkpoints_distance_m (Some (total / checkpoints_number)))
  | Some _ => ret tt
  end ;;
  if on_start_lane then
    let start_waypoint := current_waypoint in
    lane_change <- attr _lane_change ;;
    target_waypoint <-
      by_command get_left_lane get_right_lane start_waypoint
                 (chauffeur_command lane_change) ;;
    _calc_progress_change (Some start_waypoint) target_waypoint current_location
  else if on_target_lane then
    let target_waypoint := current_waypoint in
    lane_change <- attr _lane_change ;;
    start_waypoint <-
      by_command get_right_lane get_left_lane target_waypoint
                 (chauffeur_command lane_change) ;;
    _calc_progress_change start_waypoint (Some target_waypoint) current_location
  else
    ret 0.

(** *** Episode arbiter: [step] (lines 104-138) *)

(** Lines 105-125. *)
Definition step_locals (ego_vehicle : Vehicle) (inp : StepInput) : M StepLocals :=
  _ <- attr _ngsim_recording ;;
  call NGSimRecording_step ;;
  let ngsim_vehicles := step_vehicles inp in
  other_ngsim_vehicles <-
    match ngsim_vehicles with
    | [] => ret []
    | _ :: _ =>
        lane_change <- attr _lane_change ;;
        ret (filter (fun v => negb (Z.eqb (id v) (vehicle_id lane_change)))
                    ngsim_vehicles)
    end ;;
  _ <- attr _ngsim_vehicles_in_carla ;;
  call (VehiclesInCarla_step other_ngsim_vehicles) ;;
  let ego_transform := get_transform ego_vehicle in
  let waypoint := get_waypoint (location ego_transform) in
  start_lane_waypoint <- attr _start_lane_waypoint ;;
  let on_start_lane := Z.eqb (lane_id waypoint) (lane_id start_lane_waypoint) in
  target_lane_waypoint <- attr _target_lane_waypoint ;;
  let on_target_lane := Z.eqb (lane_id waypoint) (lane_id target_lane_waypoint) in
  let not_on_expected_lanes := negb (on_start_lane || on_target_lane) in
  chauffeur_command <-
    (if on_start_lane
     then lane_change <- attr _lane_change ;; ret (chauffeur_command lane_change)
     else ret LANE_FOLLOW) ;;
  aligned <- _is_lane_aligned ego_transform waypoint ;;
  let scenario_finished_with_success := on_target_lane && aligned in
  early_stop <-
    (if negb scenario_finished_with_success
     then
       _ <- operand _early_stop_monitor ;;
       call (EarlyStopMonitor_call ego_transform) ;;
       ret (early_stop_monitor_says inp || not_on_expected_lanes)
     else ret false) ;;
  let done := scenario_finished_with_success || early_stop in
  reward_type <- read _reward_type ;;
  progress_change <- _get_progress_change ego_transform ;;
  let reward := Py.of_bool (RewardType_eqb reward_type DENSE) * progress_change in
  let reward := reward + Py.of_bool scenario_finished_with_success in
  let reward := reward + Py.of_bool early_stop * (-1) in
  ret {| local_chauffeur_command := chauffeur_command;
         scenario_finished_with_success := scenario_finished_with_success;
         early_stop := early_stop;
         local_done := done;
         local_reward := reward |}.

(** Lines 127-138 after [step_locals]. *)
Definition step (ego_vehicle : Vehicle) (inp : StepInput) : M ScenarioStepResult :=
  locals <- step_locals ego_vehicle inp ;;
  assign (set_previous_chauffeur_command (local_chauffeur_command locals)) ;;
  ngsim_dataset <- read _ngsim_dataset ;;
  lane_change <- attr _lane_change ;;
  dataset_mode <- read _dataset_mode ;;
  reward_type <- read _reward_type ;;
  counter <- attr _target_alignment_counter ;;
  ret {| result_chauffeur_command := local_chauffeur_command locals;
         reward := local_reward locals;
         done := local_done locals;
         info := {| info_road := dataset_name ngsim_dataset;
                    info_timeslice := file_suffix (timeslot lane_change);
                    info_frame := recording_frame inp;
                    info_dataset_mode := dataset_mode;
                    info_reward_type := reward_type;
                    info_target_alignment_counter := counter |} |}.

(** *** [close] (lines 151-164) *)

Definition close : M unit :=
  monitor <- read _early_stop_monitor ;;
  match monitor with
  | Some _ => call EarlyStopMonitor_close ;; assign (set_early_stop_monitor None)
  | None => ret tt
  end ;;
  vehicles <- read _ngsim_vehicles_in_carla ;;
  match vehicles with
  | Some _ => call VehiclesInCarla_close ;; assign (set_ngsim_vehicles_in_carla None)
  | None => ret tt
  end ;;
  assign (set_lane_change_instants []) ;;
  assign (set_lane_change None) ;;
  assign (set_ngsim_recording None).

(** *** Vocabulary of the properties of the alignment detector *)

(** A frame the detector counts as aligned. *)
Definition aligned_frame (f : Transform * Waypoint) : Prop :=
  aligned_with_target_lane (fst f) (snd f) = true.

(** *** Vocabulary of the properties of the progress scorer *)

(** The value of the local [progress] (line 191). *)
Definition progress_at (total_distance_m checkpoints_distance_m : Q)
    (start_waypoint target_waypoint : Waypoint) (current_location : Location) : Q :=
  let distance_from_target :=
    distance current_location (location (transform target_waypoint)) in
  Py.of_bool (negb (passed_target_centerline total_distance_m start_waypoint
                                             target_waypoint current_location))
  * (inject_Z (Py.int ((total_distance_m - distance_from_target)
                       / checkpoints_distance_m))
     / checkpoints_number).

(** The pair (start_waypoint, target_waypoint) that lines 198-211 hand to
    [_calc_progress_change] on a frame, when both exist. *)
Definition resolved_waypoints (command : ChauffeurCommand)
    (start_lane target_lane : Waypoint) (ego_transform : Transform)
    : option (Waypoint * Waypoint) :=
  let current_waypoint := get_waypoint (location ego_transform) in
  if Z.eqb (lane_id current_waypoint) (lane_id start_lane) then
    match command with
    | CHANGE_LANE_LEFT =>
        option_map (fun w => (current_waypoint, w)) (get_left_lane current_waypoint)
    | CHANGE_LANE_RIGHT =>
        option_map (fun w => (current_waypoint, w)) (get_right_lane current_waypoint)
    | LANE_FOLLOW => None
    end
  else if Z.eqb (lane_id current_waypoint) (lane_id target_lane) then
    match command with
    | CHANGE_LANE_LEFT =>
        option_map (fun w => (w, current_waypoint)) (get_right_lane current_waypoint)
    | CHANGE_LANE_RIGHT =>
        option_map (fun w => (w, current_waypoint)) (get_left_lane current_waypoint)
    | LANE_FOLLOW => None
    end
  else None.

(** The frame is on neither the start nor the target lane. *)
Definition off_lanes (start_lane target_lane : Waypoint) (ego_transform : Transform)
    : Prop :=
  let current_waypoint := get_waypoint (location ego_transform) in
  Z.eqb (lane_id current_waypoint) (lane_id start_lane) = false
  /\ Z.eqb (lane_id current_waypoint) (lane_id target_lane) = false.

(** The frame is one on which [passed_target_centerline] holds. *)
Definition overshoot_frame (total_distance_m : Q) (command : ChauffeurCommand)
    (start_lane target_lane : Waypoint) (ego_transform : Transform) : Prop :=
  exists start_waypoint target_waypoint,
    resolved_waypoints command start_lane target_lane ego_transform
    = Some (start_waypoint, target_waypoint)
    /\ passed_target_centerline total_distance_m start_waypoint target_waypoint
                                (location ego_transform) = true.

(** The object after lines 174-177 of a progress query: the total distance
    is measured on the first query of an episode and kept afterwards. *)
Definition with_total_distance (s : Self) (target_lane : Waypoint)
    (ego_transform : Transform) : Self :=
  match _total_distance_m s with
  | Some _ => s
  | None =>
      let total :=
        distance (location ego_transform) (location (transform target_lane)) in
      set_checkpoints_distance_m (Some (total / checkpoints_number))
        (set_total_distance_m (Some total) s)
  end.

(** The object during an episode whose total distance has been fixed. *)
Definition scoring (s : Self) (start_lane target_lane : Waypoint)
    (lane_change : LaneChangeInstant) (total_distance_m checkpoints_distance_m : Q)
    : Prop :=
  _start_lane_waypoint s = Some start_lane
  /\ _target_lane_waypoint s = Some target_lane
  /\ _lane_change s = Some lane_change
  /\ _total_distance_m s = Some total_distance_m
  /\ _checkpoints_distance_m s = Some checkpoints_distance_m
  /\ ~ checkpoints_distance_m == 0.

(** *** Vocabulary of the properties of [step] *)

(** The object with the three attributes of the progress scorer erased:
    what [_get_progress_change] leaves untouched. *)
Definition progress_erased (s : Self) : Self :=
  {| _ngsim_recording := _ngsim_recording s; _ngsim_dataset := _ngsim_dataset s;
     _ngsim_vehicles_in_carla := _ngsim_vehicles_in_carla s;
     _target_alignment_counter := _target_alignment_counter s;
     _dataset_mode := _dataset_mode s; _early_stop_monitor := _early_stop_monitor s;
     _lane_change_instants := _lane_change_instants s; _reward_type := _reward_type s;
     _lane_change := _lane_change s;
     _previous_chauffeur_command := _previous_chauffeur_command s;
     _previous_progress := None;
     _total_distance_m := None;
     _checkpoints_distance_m := None;
     _start_lane_waypoint := _start_lane_waypoint s;
     _target_lane_waypoint := _target_lane_waypoint s |}.

(** The calls of a step that returns: the recording and the background
    traffic are stepped, and the monitor is asked unless the step
    succeeded. *)
Definition step_calls (others : list NGSimVehicle) (ego_transform : Transform)
    (success : bool) : list Call :=
  NGSimRecording_step :: VehiclesInCarla_step others
  :: (if success then [] else [EarlyStopMonitor_call ego_transform]).

(** *** Runs over several frames *)

(** The alignment detector over consecutive frames. *)
Fixpoint detector_run (frames : list (Transform * Waypoint)) : M (list bool) :=
  match frames with
  | [] => ret []
  | (ego_transform, waypoint) :: rest =>
      b <- _is_lane_aligned ego_transform waypoint ;;
      bs <- detector_run rest ;;
      ret (b :: bs)
  end.

(** The progress scorer over consecutive frames. *)
Fixpoint progress_run (frames : list Transform) : M (list Q) :=
  match frames with
  | [] => ret []
  | ego_transform :: rest =>
      d <- _get_progress_change ego_transform ;;
      ds <- progress_run rest ;;
      ret (d :: ds)
  end.

End Scenario.

(** ** A concrete world

    A straight road along the x axis with three lanes 3.5 m wide, lane ids
    1, 2 and 3 from right to left, centre lines at y = 0, 3.5 and 7.  It
    instantiates [Collaborators] so that the scenario can be run. *)

Module Demo.

Definition lane_width : Q := 35 # 10.

Definition lane_of (y : Q) : Z :=
  if Py.lt y (175 # 100) then 1%Z
  else if Py.lt y (525 # 100) then 2%Z
  else 3%Z.

Definition waypoint_at (lane : Z) (x : Q) : Waypoint :=
  {| lane_id := lane;
     transform :=
       {| location := {| loc_x := x; loc_y := inject_Z (lane - 1) * lane_width;
                         loc_z := 0 |};
          rotation := {| pitch := 0; yaw := 0; roll := 0 |} |} |}.

Definition lane_at (l : Location) : Waypoint :=
  waypoint_at (lane_of (loc_y l)) (loc_x l).

Definition left_of (w : Waypoint) : option Waypoint :=
  if (lane_id w <? 3)%Z
  then Some (waypoint_at (lane_id w + 1) (loc_x (location (transform w))))
  else None.

Definition right_of (w : Waypoint) : option Waypoint :=
  if (1 <? lane_id w)%Z
  then Some (waypoint_at (lane_id w - 1) (loc_x (location (transform w))))
  else None.

(** Sum of the coordinate differences: the Euclidean distance of two
    points that differ in one coordinate only, as all pairs measured in
    the runs below do. *)
Definition offset (a b : Location) : Q :=
  Qabs (loc_x a - loc_x b) + Qabs (loc_y a - loc_y b) + Qabs (loc_z a - loc_z b).

Definition planar_offset (a b : Location) : Q :=
  Qabs (loc_x a - loc_x b) + Qabs (loc_y a - loc_y b).

(** Modelled from the spec: [utils.geometry.normalize_angle] is not among
    the sources; the spec has the angular difference "wrapped to
    (-pi, pi]". *)
Definition wrap_angle (a : Q) : Q :=
  a - inject_Z (Qceiling ((a - Py.pi) / (2 * Py.pi))) * (2 * Py.pi).

Definition first_match (l : list NGSimVehicle) (p : NGSimVehicle -> bool)
    : outcome NGSimVehicle :=
  match find p l with
  | Some v => Ret v
  | None => Raise StopIteration
  end.

Definition to_carla (t : NGSimTransform) : Transform :=
  {| location := {| loc_x := v2_x (position t); loc_y := v2_y (position t);
                    loc_z := 0 |};
     rotation := {| pitch := 0; yaw := 0; roll := 0 |} |}.

Definition identity (lci : LaneChangeInstant) : string :=
  file_suffix (timeslot lci).

(** A stand-in for the SHA-1 digest: the sum of the character codes. *)
Fixpoint digest (s : string) : Z :=
  match s with
  | EmptyString => 0%Z
  | String c rest => (Z.of_nat (Ascii.nat_of_ascii c) + digest rest)%Z
  end.

#[local] Instance world : Collaborators := {|
  DT := 1 # 10;
  FRAMES_BEFORE_MANUVEUR := 20;
  FRAMES_AFTER_MANUVEUR := 30;
  PIXELS_TO_METERS := 1;
  get_waypoint := lane_at;
  get_left_lane := left_of;
  get_right_lane := right_of;
  distance := offset;
  distance_between_on_plane := planar_offset;
  normalize_angle := wrap_angle;
  find_first_matching := first_match;
  as_carla_transform := to_carla;
  str := identity;
  sha1_hexdigest_int := digest
|}.

(** The ego pose at lateral offset [y] and heading [yaw_deg]. *)
Definition pose (y yaw_deg : Q) : Transform :=
  {| location := {| loc_x := 0; loc_y := y; loc_z := 0 |};
     rotation := {| pitch := 0; yaw := yaw_deg; roll := 0 |} |}.

Definition ego (y yaw_deg : Q) : Vehicle := {| get_transform := pose y yaw_deg |}.

Definition instant (suffix : string) (start : Z) : LaneChangeInstant :=
  {| timeslot := {| file_suffix := suffix |};
     frame_start := start;
     vehicle_id := 7;
     chauffeur_command := CHANGE_LANE_LEFT |}.

(** The recorded agent, at lateral offset [y] of the start lane. *)
Definition agent (y : Q) : NGSimVehicle :=
  {| id := 7;
     ngsim_transform := {| position := {| v2_x := 0; v2_y := y |};
                           orientation := {| v2_x := 1; v2_y := 0 |} |};
     speed := 10 |}.

Definition other : NGSimVehicle :=
  {| id := 8;
     ngsim_transform := {| position := {| v2_x := 30; v2_y := 35 # 10 |};
                           orientation := {| v2_x := 1; v2_y := 0 |} |};
     speed := 12 |}.

Definition recording : NGSimRecording :=
  {| lane_change_instants := [instant "F" 100; instant "a" 300; instant "2" 5] |}.

Definition fresh (mode : DatasetMode) (reward_type : RewardType) : Self :=
  fst (__init__ {| dataset_name := "I80" |} mode reward_type recording).

(** The object after [__init__] and one [reset] that draws index [i] and
    finds the agent at lateral offset [y]. *)
Definition after_reset (reward_type : RewardType) (i : nat) (y : Q) : Self :=
  self_of (reset (ego y 0) {| choice_index := i; reset_vehicles := [other; agent y] |}
                 (fresh TRAIN reward_type)).

Definition frame (says : bool) : StepInput :=
  {| step_vehicles := [other; agent 0]; recording_frame := 81;
     early_stop_monitor_says := says |}.

(** The object after [__init__], a [reset] that finds the agent at
    lateral offset [y] and a first step with the ego still there: the
    total distance is fixed. *)
Definition scored (reward_type : RewardType) (y : Q) : Self :=
  self_of (step (ego y 0) (frame false) (after_reset reward_type 0 y)).

(** The object after stepping through the poses at lateral offsets [ys],
    the monitor silent. *)
Definition run_steps (ys : list Q) (s : Self) : Self :=
  fold_left (fun s y => self_of (step (ego y 0) (frame false) s)) ys s.

(** An episode that starts 0.5 m off the centre of lane 1 and has held
    the centre line of lane 2 for nine frames. *)
Definition nearly_done (reward_type : RewardType) : Self :=
  run_steps ((5 # 10) :: repeat (35 # 10) 9) (after_reset reward_type 0 (5 # 10)).

(** A frame of the alignment detector: the pose and the waypoint of the
    lane it is in. *)
Definition detector_frame (y yaw_deg : Q) : Transform * Waypoint :=
  (pose y yaw_deg, lane_at (location (pose y yaw_deg))).

(** A recording all of whose instants fall in TRAIN. *)
Definition train_only_recording : NGSimRecording :=
  {| lane_change_instants := [instant "F" 100; instant "2" 5] |}.

(** What the collaborators hand to a [reset] that finds the agent at
    lateral offset [y]. *)
Definition reset_input (y : Q) : ResetInput :=
  {| choice_index := 0; reset_vehicles := [other; agent y] |}.

(** A recording whose only instant is not a lane change. *)
Definition follow_recording : NGSimRecording :=
  {| lane_change_instants :=
       [{| timeslot := {| file_suffix := "F" |}; frame_start := 100;
           vehicle_id := 7; chauffeur_command := LANE_FOLLOW |}] |}.

End Demo.

Definition is_recording_reset (c : Call) : bool :=
  match c with
  | NGSimRecording_reset _ _ => true
  | _ => false
  end.

(** ** Vocabulary of the further properties *)

(** [m] keeps [P], whether it returns or raises. *)
Definition preserves {A} (P : Self -> Prop) (m : M A) : Prop :=
  forall s, P s -> P (self_of (m s)).

(** What [__init__] and [reset] configure an episode with: every attribute
    but the alignment counter, the previous command and the three
    attributes of the progress scorer. *)
Definition episode_configuration (s : Self) :=
  (_ngsim_recording s, _ngsim_dataset s, _ngsim_vehicles_in_carla s,
   _dataset_mode s, _early_stop_monitor s, _lane_change_instants s,
   _reward_type s, _lane_change s, _start_lane_waypoint s,
   _target_lane_waypoint s).

(** The progress of the last of the [frames] that lines 198-211 score,
    or [p] if they score none. *)
Definition last_progress {W : Collaborators} (total_distance_m checkpoints_distance_m : Q)
    (command : ChauffeurCommand) (start_lane target_lane : Waypoint)
    (frames : list Transform) (p : Q) : Q :=
  fold_left
    (fun q e =>
       match resolved_waypoints command start_lane target_lane e with
       | Some (sw, tw) =>
           progress_at total_distance_m checkpoints_distance_m sw tw (location e)
       | None => q
       end)
    frames p.

(** The recorded vehicles other than the one the ego replaces. *)
Definition others_than (lane_change : LaneChangeInstant)
    (vehicles : list NGSimVehicle) : list NGSimVehicle :=
  filter (fun v => negb (Z.eqb (id v) (vehicle_id lane_change))) vehicles.

(** The calls that release the handles an object holds. *)
Definition release_monitor (s : Self) : list Call :=
  match _early_stop_monitor s with
  | Some _ => [EarlyStopMonitor_close]
  | None => []
  end.

Definition release_vehicles (s : Self) : list Call :=
  match _ngsim_vehicles_in_carla s with
  | Some _ => [VehiclesInCarla_close]
  | None => []
  end.

(** The total distance and the checkpoint distance are fixed at [T], [c]. *)
Definition total_fixed (T c : Q) (s : Self) : Prop :=
  _total_distance_m s = Some T /\ _checkpoints_distance_m s = Some c.

(** The alignment counter is set and not negative. *)
Definition counter_nonneg (s : Self) : Prop :=
  exists c, _target_alignment_counter s = Some c /\ (0 <= c)%Z.

(** [m] makes only calls that satisfy [Q], whether it returns or raises. *)
Definition emits {A} (Q : Call -> Prop) (m : M A) : Prop :=
  forall s, Forall Q (calls_of (m s)).

(** The calls of a frame: stepping the recording and the background
    traffic, asking the monitor. *)
Definition frame_call (c : Call) : Prop :=
  match c with
  | NGSimRecording_step | VehiclesInCarla_step _ | EarlyStopMonitor_call _ => True
  | _ => False
  end.

(** The checkpoint distance is a tenth of the total distance, both unset
    or both set. *)
Definition checkpoints_consistent (s : Self) : Prop :=
  match _total_distance_m s, _checkpoints_distance_m s with
  | None, None => True
  | Some T, Some c => c = T / checkpoints_number
  | _, _ => False
  end.

(** * Properties *)

Unset Implicit Arguments.

(** ** Numbers *)

Lemma lt_iff (a b : Q) : Py.lt a b = true <-> a < b.
Proof.
  unfold Py.lt. rewrite negb_true_iff. split; intro E.
  - apply Qnot_le_lt. intro L. apply Qle_bool_iff in L. congruence.
  - destruct (Qle_bool b a) eqn:L; [|reflexivity].
    apply Qle_bool_iff in L. exfalso. apply (Qlt_not_le _ _ E L).
Qed.

Lemma lt_false_iff (a b : Q) : Py.lt a b = false <-> b <= a.
Proof.
  unfold Py.lt. rewrite negb_false_iff. apply Qle_bool_iff.
Qed.

Lemma deg2rad_pos (x : Q) : 0 < x -> 0 < Py.deg2rad x.
Proof.
  intro P. unfold Py.deg2rad.
  apply Qmult_lt_0_compat; [exact P | reflexivity].
Qed.

(** ** The method monad *)

Lemma bind_Ret_inv {A B} (m : M A) (f : A -> M B) s b s' t :
  bind m f s = (Ret b, s', t) ->
  exists a s1 t1 t2,
    m s = (Ret a, s1, t1) /\ f a s1 = (Ret b, s', t2) /\ t = t1 ++ t2.
Proof.
  unfold bind. destruct (m s) as [[[a|e] s1] t1]; [|discriminate].
  destruct (f a s1) as [[o s2] t2] eqn:F. intro E. inversion E; subst.
  exists a, s1, t1, t2. auto.
Qed.

Lemma bind_run {A B} (m : M A) (f : A -> M B) s a s1 t1 :
  m s = (Ret a, s1, t1) ->
  bind m f s = (result_of (f a s1), self_of (f a s1), t1 ++ calls_of (f a s1)).
Proof.
  intro E. unfold bind. rewrite E. destruct (f a s1) as [[o s2] t2]. reflexivity.
Qed.

Lemma bind_raise {A B} (m : M A) (f : A -> M B) s e s1 t1 :
  m s = (Raise e, s1, t1) -> bind m f s = (Raise e, s1, t1).
Proof. intro E. unfold bind. rewrite E. reflexivity. Qed.

Lemma attr_Ret_inv {A} (f : Self -> option A) s a s' t :
  attr f s = (Ret a, s', t) -> f s = Some a /\ s' = s /\ t = [].
Proof. unfold attr. destruct (f s); intro E; inversion E; auto. Qed.

Lemma operand_Ret_inv {A} (f : Self -> option A) s a s' t :
  operand f s = (Ret a, s', t) -> f s = Some a /\ s' = s /\ t = [].
Proof. unfold operand. destruct (f s); intro E; inversion E; auto. Qed.

Lemma deref_Ret_inv {A} (x : option A) s a s' t :
  deref x s = (Ret a, s', t) -> x = Some a /\ s' = s /\ t = [].
Proof. unfold deref, ret, raise. destruct x; intro E; inversion E; auto. Qed.

Lemma read_inv {A} (f : Self -> A) s (o : outcome A) s' t :
  read f s = (o, s', t) -> o = Ret (f s) /\ s' = s /\ t = [].
Proof. unfold read. intro E; inversion E; auto. Qed.

Lemma ret_inv {A} (a : A) s (o : outcome A) s' t :
  ret a s = (o, s', t) -> o = Ret a /\ s' = s /\ t = [].
Proof. unfold ret. intro E; inversion E; auto. Qed.

Lemma assign_inv upd s (o : outcome unit) s' t :
  assign upd s = (o, s', t) -> o = Ret tt /\ s' = upd s /\ t = [].
Proof. unfold assign. intro E; inversion E; auto. Qed.

Lemma call_inv c s (o : outcome unit) s' t :
  call c s = (o, s', t) -> o = Ret tt /\ s' = s /\ t = [c].
Proof. unfold call. intro E; inversion E; auto. Qed.

Lemma truediv_Ret_inv a b s q s' t :
  truediv a b s = (Ret q, s', t) -> ~ b == 0 /\ q = a / b /\ s' = s /\ t = [].
Proof.
  unfold truediv, raise, ret. destruct (Qeq_bool b 0) eqn:Z; intro E; inversion E.
  repeat split; auto. intro Z'. apply Qeq_bool_iff in Z'. congruence.
Qed.

(** Forward execution: one equation per monadic operation. *)

Lemma after_calls_nil {A} (r : outcome A * Self * list Call) : after_calls [] r = r.
Proof. destruct r as [[o s] t]. reflexivity. Qed.

Lemma bind_eq {A B} (m : M A) (f : A -> M B) s :
  bind m f s
  = match result_of (m s) with
    | Ret a => after_calls (calls_of (m s)) (f a (self_of (m s)))
    | Raise e => (Raise e, self_of (m s), calls_of (m s))
    end.
Proof.
  unfold bind, after_calls, result_of, self_of, calls_of.
  destruct (m s) as [[[a|e] s1] t1]; cbn [fst snd]; [|reflexivity].
  destruct (f a s1) as [[o s2] t2]. reflexivity.
Qed.

Lemma bind_bind {A B C} (m : M A) (f : A -> M B) (g : B -> M C) s :
  bind (bind m f) g s = bind m (fun a => bind (f a) g) s.
Proof.
  unfold bind. destruct (m s) as [[[a|e] s1] t1]; [|reflexivity].
  destruct (f a s1) as [[[b|e] s2] t2]; [|reflexivity].
  destruct (g b s2) as [[o s3] t3]. rewrite app_assoc. reflexivity.
Qed.

Lemma bind_ret {A B} (a : A) (f : A -> M B) s : bind (ret a) f s = f a s.
Proof. rewrite bind_eq. apply after_calls_nil. Qed.

Lemma bind_read {A B} (g : Self -> A) (f : A -> M B) s : bind (read g) f s = f (g s) s.
Proof. rewrite bind_eq. apply after_calls_nil. Qed.

Lemma bind_assign {B} upd (f : unit -> M B) s : bind (assign upd) f s = f tt (upd s).
Proof. rewrite bind_eq. apply after_calls_nil. Qed.

Lemma bind_call {B} c (f : unit -> M B) s :
  bind (call c) f s = after_calls [c] (f tt s).
Proof. rewrite bind_eq. reflexivity. Qed.

Lemma bind_raise_now {A B} e (f : A -> M B) s : bind (raise e) f s = (Raise e, s, []).
Proof. reflexivity. Qed.

Lemma bind_attr {A B} (g : Self -> option A) (f : A -> M B) s :
  bind (attr g) f s
  = match g s with
    | Some a => f a s
    | None => (Raise AttributeError, s, [])
    end.
Proof.
  rewrite bind_eq. unfold attr. destruct (g s); [apply after_calls_nil|reflexivity].
Qed.

Lemma bind_operand {A B} (g : Self -> option A) (f : A -> M B) s :
  bind (operand g) f s
  = match g s with
    | Some a => f a s
    | None => (Raise TypeError, s, [])
    end.
Proof.
  rewrite bind_eq. unfold operand. destruct (g s); [apply after_calls_nil|reflexivity].
Qed.

Lemma bind_deref {A B} (x : option A) (f : A -> M B) s :
  bind (deref x) f s
  = match x with
    | Some a => f a s
    | None => (Raise AttributeError, s, [])
    end.
Proof. destruct x; [apply bind_ret|reflexivity]. Qed.

Lemma bind_lift {A B} (o : outcome A) (f : A -> M B) s :
  bind (lift o) f s
  = match o with
    | Ret a => f a s
    | Raise e => (Raise e, s, [])
    end.
Proof.
  rewrite bind_eq. unfold lift. destruct o; [apply after_calls_nil|reflexivity].
Qed.

Lemma bind_truediv {B} a b (f : Q -> M B) s :
  bind (truediv a b) f s
  = if Qeq_bool b 0 then (Raise ZeroDivisionError, s, []) else f (a / b) s.
Proof.
  unfold truediv. destruct (Qeq_bool b 0); [reflexivity|apply bind_ret].
Qed.

Lemma result_after_calls {A} t (r : outcome A * Self * list Call) :
  result_of (after_calls t r) = result_of r.
Proof. reflexivity. Qed.

Lemma self_after_calls {A} t (r : outcome A * Self * list Call) :
  self_of (after_calls t r) = self_of r.
Proof. reflexivity. Qed.

Lemma calls_after_calls {A} t (r : outcome A * Self * list Call) :
  calls_of (after_calls t r) = t ++ calls_of r.
Proof. reflexivity. Qed.

Ltac run :=
  repeat (cbv beta zeta;
          first [ rewrite bind_bind | rewrite bind_ret | rewrite bind_read
                | rewrite bind_assign | rewrite bind_call | rewrite bind_raise_now
                | rewrite bind_attr | rewrite bind_operand | rewrite bind_deref
                | rewrite bind_lift | rewrite bind_truediv
                | rewrite result_after_calls | rewrite self_after_calls
                | rewrite calls_after_calls ]).

(** Inversion of a run that returned: one step per monadic operation. *)
Ltac inv_ret H :=
  let a := fresh "a" in
  let s1 := fresh "s" in
  let t1 := fresh "t" in
  let t2 := fresh "t" in
  let H1 := fresh "R" in
  let H2 := fresh "R" in
  let E := fresh "E" in
  cbv beta zeta in H;
  lazymatch type of H with
  | bind _ _ _ = (Ret _, _, _) =>
      apply bind_Ret_inv in H;
      destruct H as (a & s1 & t1 & t2 & H1 & H2 & E);
      inv_ret H1; inv_ret H2
  | attr _ _ = (Ret _, _, _) =>
      apply attr_Ret_inv in H; destruct H as (H & H1 & H2)
  | operand _ _ = (Ret _, _, _) =>
      apply operand_Ret_inv in H; destruct H as (H & H1 & H2)
  | deref _ _ = (Ret _, _, _) =>
      apply deref_Ret_inv in H; destruct H as (H & H1 & H2)
  | read _ _ = _ =>
      apply read_inv in H; destruct H as (H & H1 & H2); try (injection H as H)
  | ret _ _ = _ =>
      apply ret_inv in H; destruct H as (H & H1 & H2); try (injection H as H)
  | assign _ _ = _ =>
      apply assign_inv in H; destruct H as (H & H1 & H2); try (injection H as H)
  | call _ _ = _ =>
      apply call_inv in H; destruct H as (H & H1 & H2); try (injection H as H)
  | truediv _ _ _ = (Ret _, _, _) =>
      apply truediv_Ret_inv in H; destruct H as (H & H1 & H2 & E)
  | raise _ _ = (Ret _, _, _) => discriminate H
  | _ => idtac
  end.

(** ** Alignment detector *)

Section Alignment.

Context {W : Collaborators}.

Lemma is_lane_aligned_hit ego_transform waypoint s c :
  aligned_with_target_lane ego_transform waypoint = true ->
  _target_alignment_counter s = Some c ->
  _is_lane_aligned ego_transform waypoint s
  = (Ret (Z.eqb (c + 1) TARGET_LANE_ALIGNMENT_FRAMES),
     set_target_alignment_counter (c + 1) s, []).
Proof.
  intros A C. unfold _is_lane_aligned. rewrite A.
  unfold bind, attr, assign, ret. rewrite C. reflexivity.
Qed.

Lemma is_lane_aligned_miss ego_transform waypoint s :
  aligned_with_target_lane ego_transform waypoint = false ->
  _is_lane_aligned ego_transform waypoint s
  = (Ret false, set_target_alignment_counter 0 s, []).
Proof.
  intros A. unfold _is_lane_aligned. rewrite A. reflexivity.
Qed.

(** A returned check has updated the counter and nothing else, and made
    no call. *)
Lemma is_lane_aligned_inv ego_transform waypoint s b s' t :
  _is_lane_aligned ego_transform waypoint s = (Ret b, s', t) ->
  exists c',
    s' = set_target_alignment_counter c' s /\ t = []
    /\ b = Z.eqb c' TARGET_LANE_ALIGNMENT_FRAMES
    /\ _target_alignment_counter s'
       = (if aligned_with_target_lane ego_transform waypoint
          then option_map Z.succ (_target_alignment_counter s)
          else Some 0%Z).
Proof.
  intro R. destruct (aligned_with_target_lane ego_transform waypoint) eqn:A.
  - destruct (_target_alignment_counter s) as [c|] eqn:C.
    + rewrite (is_lane_aligned_hit _ _ _ _ A C) in R. inversion R; subst.
      exists (c + 1)%Z. repeat split; reflexivity.
    + unfold _is_lane_aligned in R. rewrite A in R.
      unfold bind, attr in R. rewrite C in R. discriminate.
  - rewrite (is_lane_aligned_miss _ _ _ A) in R. inversion R; subst.
    exists 0%Z. repeat split; reflexivity.
Qed.

(** A streak of aligned frames entered with counter [c]: frame [k]
    (from 0) reports whether [c + k + 1] is the threshold. *)
Lemma detector_run_streak (frames : list (Transform * Waypoint)) :
  Forall aligned_frame frames ->
  forall s c,
    _target_alignment_counter s = Some c ->
    result_of (detector_run frames s)
    = Ret (map (fun k => Z.eqb (c + Z.of_nat k + 1) TARGET_LANE_ALIGNMENT_FRAMES)
               (seq 0 (List.length frames)))
    /\ _target_alignment_counter (self_of (detector_run frames s))
       = Some (c + Z.of_nat (List.length frames))%Z
    /\ calls_of (detector_run frames s) = [].
Proof.
  induction 1 as [|[e w] rest A _ IH]; intros s c C.
  - cbn. rewrite Z.add_0_r. auto.
  - unfold aligned_frame in A. cbn [fst snd] in A. cbn [detector_run].
    rewrite (bind_run _ _ _ _ _ _ (is_lane_aligned_hit _ _ _ _ A C)).
    assert (C' : _target_alignment_counter (set_target_alignment_counter (c + 1) s)
                 = Some (c + 1)%Z) by reflexivity.
    destruct (IH _ _ C') as (I1 & I2 & I3).
    unfold result_of, self_of, calls_of, bind, ret in *. cbv beta.
    destruct (detector_run rest (set_target_alignment_counter (c + 1) s))
      as [[o s2] t2].
    cbn [fst snd] in *. subst o t2. cbn [fst snd app List.length seq map].
    repeat split.
    + rewrite Z.add_0_r. f_equal. f_equal.
      rewrite <- seq_shift, map_map. apply map_ext. intro k.
      f_equal. lia.
    + rewrite I2. f_equal. lia.
Qed.

Lemma streak_reports (n : nat) :
  map (fun k => Z.eqb (0 + Z.of_nat k + 1) TARGET_LANE_ALIGNMENT_FRAMES) (seq 0 n)
  = map (fun k => Nat.eqb k 9) (seq 0 n).
Proof.
  apply map_ext. intro k. unfold TARGET_LANE_ALIGNMENT_FRAMES.
  destruct (Nat.eqb_spec k 9) as [E|N].
  - subst. reflexivity.
  - apply Z.eqb_neq. lia.
Qed.

Lemma detector_run_app (xs ys : list (Transform * Waypoint)) :
  forall s bs s1 t1 cs s2 t2,
    detector_run xs s = (Ret bs, s1, t1) ->
    detector_run ys s1 = (Ret cs, s2, t2) ->
    detector_run (xs ++ ys) s = (Ret (bs ++ cs), s2, t1 ++ t2).
Proof.
  induction xs as [|[e w] xs IH]; intros s bs s1 t1 cs s2 t2 X Y.
  - cbn in X. inversion X; subst. exact Y.
  - cbn [app detector_run] in *. inv_ret X. subst.
    rewrite (bind_run _ _ _ _ _ _ R).
    rewrite (bind_run _ _ _ _ _ _ (IH _ _ _ _ _ _ _ R1 Y)).
    unfold result_of, self_of, calls_of, ret. cbn [fst snd app].
    rewrite !app_nil_r, app_assoc. reflexivity.
Qed.

(** C2 -- alignment debounce.  From a counter of 0 (as [reset] or any
    non-aligned frame leaves it), along a streak of consecutive aligned
    frames the detector reports completion on the 10th frame and on no
    other frame of the streak, and counts the frames; the first
    non-aligned frame after the streak reports no completion and resets
    the counter to exactly 0; so 9 aligned frames followed by a
    non-aligned one report completion on none of the 10 frames. *)
Theorem alignment_debounce (s : Self) (streak : list (Transform * Waypoint))
    (miss : Transform * Waypoint) :
  _target_alignment_counter s = Some 0%Z ->
  Forall aligned_frame streak ->
  aligned_with_target_lane (fst miss) (snd miss) = false ->
  result_of (detector_run streak s)
  = Ret (map (fun k => Nat.eqb k 9) (seq 0 (List.length streak)))
  /\ _target_alignment_counter (self_of (detector_run streak s))
     = Some (Z.of_nat (List.length streak))
  /\ result_of (detector_run (streak ++ [miss]) s)
     = Ret (map (fun k => Nat.eqb k 9) (seq 0 (List.length streak)) ++ [false])
  /\ _target_alignment_counter (self_of (detector_run (streak ++ [miss]) s))
     = Some 0%Z
  /\ (List.length streak = 9%nat ->
      result_of (detector_run (streak ++ [miss]) s) = Ret (repeat false 10)).
Proof.
  intros C A N.
  destruct (detector_run_streak streak A s 0%Z C) as (R1 & R2 & R3).
  rewrite streak_reports in R1.
  destruct (detector_run streak s) as [[o s1] t1] eqn:D.
  unfold result_of, self_of, calls_of in R1, R2, R3. cbn [fst snd] in R1, R2, R3.
  subst o t1.
  assert (Y : detector_run [miss] s1 = (Ret [false], set_target_alignment_counter 0 s1, [])).
  { destruct miss as [e w]. cbn [detector_run fst snd] in *.
    rewrite (bind_run _ _ _ _ _ _ (is_lane_aligned_miss e w s1 N)). reflexivity. }
  rewrite (detector_run_app _ _ _ _ _ _ _ _ _ D Y).
  unfold result_of, self_of. cbn [fst snd].
  repeat split; auto.
  intro L. rewrite L. reflexivity.
Qed.

(** C10 -- the yaw comparison is signed.  Whenever the normalized heading
    difference is negative, whatever its magnitude, the yaw condition
    holds: the aligned verdict is the crosstrack test alone, and the
    counter is incremented exactly when the crosstrack error is below
    0.3 and reset to 0 otherwise. *)
Theorem yaw_error_signed (ego_transform : Transform) (waypoint : Waypoint)
    (s : Self) (c : Z) :
  yaw_error ego_transform waypoint < 0 ->
  _target_alignment_counter s = Some c ->
  Py.lt (yaw_error ego_transform waypoint) (Py.deg2rad YAW_DEG_ERRORS_TOLERANCE) = true
  /\ aligned_with_target_lane ego_transform waypoint
     = Py.lt (crosstrack_error ego_transform waypoint) (3 # 10)
  /\ _target_alignment_counter (self_of (_is_lane_aligned ego_transform waypoint s))
     = Some (if Py.lt (crosstrack_error ego_transform waypoint) (3 # 10)
             then (c + 1)%Z else 0%Z).
Proof.
  intros Neg C.
  assert (Y : Py.lt (yaw_error ego_transform waypoint)
                    (Py.deg2rad YAW_DEG_ERRORS_TOLERANCE) = true).
  { apply lt_iff. apply Qlt_trans with 0; [exact Neg|].
    apply deg2rad_pos. reflexivity. }
  assert (A : aligned_with_target_lane ego_transform waypoint
              = Py.lt (crosstrack_error ego_transform waypoint) (3 # 10)).
  { unfold aligned_with_target_lane. rewrite Y. apply andb_true_r. }
  repeat split; auto.
  destruct (aligned_with_target_lane ego_transform waypoint) eqn:V; rewrite <- A.
  - rewrite (is_lane_aligned_hit _ _ _ _ V C). reflexivity.
  - rewrite (is_lane_aligned_miss _ _ _ V). reflexivity.
Qed.

End Alignment.

(** Twelve aligned frames on the centre line of lane 2, then a frame
    0.4 m off it: completion on the 10th frame only, counter back at 0. *)
Lemma alignment_debounce_witness :
  result_of
    (detector_run (W := Demo.world)
       (repeat (Demo.detector_frame (35 # 10) 0) 12 ++ [Demo.detector_frame (39 # 10) 0])
       (Demo.after_reset DENSE 0 0))
  = Ret [false; false; false; false; false; false; false; false; false; true;
         false; false; false].
Proof.
  apply (alignment_debounce (W := Demo.world)
           (Demo.after_reset DENSE 0 0)
           (repeat (Demo.detector_frame (35 # 10) 0) 12)
           (Demo.detector_frame (39 # 10) 0)).
  - reflexivity.
  - repeat constructor.
  - reflexivity.
Defined.

(** A pose on the centre line of lane 2 whose heading differs from the
    lane's by -90 degrees: the frame counts as aligned. *)
Lemma yaw_error_signed_witness :
  aligned_with_target_lane (W := Demo.world)
    (fst (Demo.detector_frame (35 # 10) (-90))) (snd (Demo.detector_frame (35 # 10) (-90)))
  = Py.lt (crosstrack_error (W := Demo.world)
             (fst (Demo.detector_frame (35 # 10) (-90)))
             (snd (Demo.detector_frame (35 # 10) (-90)))) (3 # 10).
Proof.
  apply (yaw_error_signed (W := Demo.world)
           (fst (Demo.detector_frame (35 # 10) (-90)))
           (snd (Demo.detector_frame (35 # 10) (-90)))
           (Demo.after_reset DENSE 0 0) 0%Z).
  - reflexivity.
  - reflexivity.
Defined.

(** ** Dataset partitioner and maneuver selector *)

Section Selection.

Context {W : Collaborators}.

Lemma split_threshold (h : Z) :
  Py.lt (inject_Z (h mod 100) / 100) (8 # 10) = Z.ltb (h mod 100) 80.
Proof.
  destruct (Z.ltb_spec (h mod 100) 80) as [L|G].
  - apply lt_iff. apply Qlt_shift_div_r; [reflexivity|].
    setoid_replace ((8 # 10) * 100) with (inject_Z 80) by reflexivity.
    rewrite <- Zlt_Qlt. exact L.
  - apply lt_false_iff. apply Qle_shift_div_l; [reflexivity|].
    setoid_replace ((8 # 10) * 100) with (inject_Z 80) by reflexivity.
    rewrite <- Zle_Qle. exact G.
Qed.

(** On the residues the rational test and its binary64 evaluation agree. *)
Lemma split_threshold_binary64 (h : Z) :
  Py.binary64_below_split (h mod 100) = Py.lt (inject_Z (h mod 100) / 100) (8 # 10).
Proof.
  rewrite split_threshold.
  assert (A : forallb (fun n => Bool.eqb (Py.binary64_below_split (Z.of_nat n))
                                         (Z.ltb (Z.of_nat n) 80))
                      (seq 0 100) = true) by (vm_compute; reflexivity).
  rewrite forallb_forall in A.
  pose proof (Z.mod_pos_bound h 100 eq_refl) as B.
  specialize (A (Z.to_nat (h mod 100))).
  rewrite Z2Nat.id in A by lia.
  apply Bool.eqb_prop. apply A. apply in_seq. lia.
Qed.

Lemma DatasetMode_eqb_eq (a b : DatasetMode) : DatasetMode_eqb a b = true <-> a = b.
Proof. destruct a, b; cbn; split; congruence. Qed.

(** C6 -- partition assignment.  The label of an instant is a function
    of its identity string alone (the same under the rational and the
    binary64 reading of the test); it is TRAIN exactly when the digest of
    the identity mod 100 is below split fraction * 100 with split
    fraction 0.8, and VALIDATION otherwise; and the list [__init__]
    keeps for a mode holds exactly the instants of the recording with
    that label, whatever the other instants, their order, the reward
    type or the dataset object. *)
Theorem determine_split_pure (x : LaneChangeInstant) :
  determine_split x = label_of_identity (str x)
  /\ determine_split x
     = (if Py.binary64_below_split (sha1_hexdigest_int (str x) mod 100)
        then TRAIN else VALIDATION)
  /\ (determine_split x = TRAIN
      <-> inject_Z (sha1_hexdigest_int (str x) mod 100) < (8 # 10) * 100)
  /\ (determine_split x = VALIDATION
      <-> (8 # 10) * 100 <= inject_Z (sha1_hexdigest_int (str x) mod 100))
  /\ (forall ngsim_dataset mode reward_type recording,
        In x (_lane_change_instants
                (fst (__init__ ngsim_dataset mode reward_type recording)))
        <-> In x (lane_change_instants recording) /\ determine_split x = mode).
Proof.
  assert (E : determine_split x = label_of_identity (str x)).
  { unfold determine_split, label_of_identity. rewrite split_threshold. reflexivity. }
  assert (Q80 : (8 # 10) * 100 == inject_Z 80) by reflexivity.
  split; [exact E|].
  split; [unfold determine_split; rewrite split_threshold_binary64; reflexivity|].
  rewrite E. unfold label_of_identity.
  split; [|split].
  - rewrite Q80, <- Zlt_Qlt.
    destruct (Z.ltb_spec (sha1_hexdigest_int (str x) mod 100) 80);
      split; intro; (assumption || discriminate || reflexivity || lia).
  - rewrite Q80, <- Zle_Qle.
    destruct (Z.ltb_spec (sha1_hexdigest_int (str x) mod 100) 80);
      split; intro; (assumption || discriminate || reflexivity || lia).
  - intros ngsim_dataset mode reward_type recording.
    cbn [__init__ fst _lane_change_instants].
    rewrite filter_In, DatasetMode_eqb_eq, E. reflexivity.
Qed.

Lemma random_choice_nil {A} (i : nat) (s : Self) :
  random_choice i (@nil A) s = (Raise IndexError, s, []).
Proof. unfold random_choice. destruct i; reflexivity. Qed.

Lemma random_choice_In {A} (i : nat) (l : list A) s a s' t :
  random_choice i l s = (Ret a, s', t) ->
  nth_error l (i mod List.length l) = Some a /\ In a l /\ s' = s /\ t = [].
Proof.
  unfold random_choice, ret, raise.
  destruct (nth_error l (i mod List.length l)) eqn:N; intro E; inversion E; subst.
  repeat split; auto. eapply nth_error_In; eauto.
Qed.

Lemma random_choice_total {A} (i : nat) (l : list A) s :
  l <> [] -> exists a, random_choice i l s = (Ret a, s, []) /\ In a l.
Proof.
  intro N. unfold random_choice.
  destruct (nth_error l (i mod List.length l)) eqn:E.
  - exists a. split; [reflexivity|]. eapply nth_error_In; eauto.
  - apply nth_error_None in E. destruct l as [|x l]; [congruence|].
    pose proof (Nat.mod_upper_bound i (List.length (x :: l))) as U.
    cbn [List.length] in *. lia.
Qed.

(** [reset] on an object whose list of instants is empty. *)
Lemma reset_empty (vehicle : Vehicle) (inp : ResetInput) (s : Self) :
  _lane_change_instants s = [] ->
  result_of (reset vehicle inp s) = Raise IndexError
  /\ _lane_change (self_of (reset vehicle inp s)) = _lane_change s
  /\ ~ In NGSimRecording_step (calls_of (reset vehicle inp s)).
Proof.
  intro E. unfold reset. run.
  destruct (_ngsim_vehicles_in_carla s); run;
    cbn [_early_stop_monitor set_ngsim_vehicles_in_carla];
    destruct (_early_stop_monitor s); run;
    cbn [_lane_change_instants set_early_stop_monitor set_ngsim_vehicles_in_carla];
    rewrite E, bind_eq, random_choice_nil;
    unfold result_of, self_of, calls_of; cbn;
    (split; [reflexivity | split; [reflexivity | intuition discriminate]]).
Qed.

(** C7 -- empty partition (as the code has it).  When no instant of the
    recording falls in the requested mode, construction still completes:
    the object holds an empty list and the count 0 is logged.  Every
    [reset] of that object then raises [IndexError] at [random.choice],
    before the recording is stepped or an instant is selected. *)
Theorem empty_partition_fails_at_reset (ngsim_dataset : NGSimDataset)
    (mode : DatasetMode) (reward_type : RewardType) (recording : NGSimRecording) :
  (forall lci, In lci (lane_change_instants recording) -> determine_split lci <> mode) ->
  _lane_change_instants (fst (__init__ ngsim_dataset mode reward_type recording)) = []
  /\ In (LOGGER_info 0 (dataset_name ngsim_dataset) mode)
        (snd (__init__ ngsim_dataset mode reward_type recording))
  /\ (forall vehicle inp,
        result_of (reset vehicle inp
                     (fst (__init__ ngsim_dataset mode reward_type recording)))
        = Raise IndexError
        /\ _lane_change
             (self_of (reset vehicle inp
                         (fst (__init__ ngsim_dataset mode reward_type recording))))
           = None).
Proof.
  intro Hnone.
  assert (E : filter (fun lci => DatasetMode_eqb (determine_split lci) mode)
                     (lane_change_instants recording) = []).
  { induction (lane_change_instants recording) as [|x l IH]; [reflexivity|].
    cbn [filter]. destruct (DatasetMode_eqb (determine_split x) mode) eqn:D.
    - apply DatasetMode_eqb_eq in D. exfalso. apply (Hnone x); [left; reflexivity|exact D].
    - apply IH. intros lci I. apply Hnone. right. exact I. }
  cbn [__init__ fst snd _lane_change_instants]. rewrite E.
  split; [reflexivity|]. split; [cbn; auto|].
  intros vehicle inp.
  match goal with |- context [reset vehicle inp ?s] =>
    destruct (reset_empty vehicle inp s eq_refl) as (R1 & R2 & _) end.
  split; [exact R1|exact R2].
Qed.

(** C8 -- start frame.  On an object with a recording and a non-empty
    list of instants, [reset] selects the instant at the drawn index,
    computes the start frame max(frame_start - FRAMES_BEFORE_MANUVEUR, 0)
    and resets the recording exactly once, to one frame before it; for
    frame_start = 100 and FRAMES_BEFORE_MANUVEUR = 20 that is frame 79. *)
Theorem reset_replay_frame (vehicle : Vehicle) (inp : ResetInput) (s : Self)
    (recording : NGSimRecording) :
  _lane_change_instants s <> [] ->
  _ngsim_recording s = Some recording ->
  exists lane_change,
    nth_error (_lane_change_instants s)
              (choice_index inp mod List.length (_lane_change_instants s))
    = Some lane_change
    /\ _lane_change (self_of (reset vehicle inp s)) = Some lane_change
    /\ frame_manuveur_start lane_change
       = Z.max (frame_start lane_change - FRAMES_BEFORE_MANUVEUR) 0
    /\ filter is_recording_reset (calls_of (reset vehicle inp s))
       = [NGSimRecording_reset (timeslot lane_change)
                               (frame_manuveur_start lane_change - 1)]
    /\ (frame_start lane_change = 100%Z -> FRAMES_BEFORE_MANUVEUR = 20%Z ->
        filter is_recording_reset (calls_of (reset vehicle inp s))
        = [NGSimRecording_reset (timeslot lane_change) 79]).
Proof.
  intros N R.
  assert (X : exists lane_change,
    nth_error (_lane_change_instants s)
              (choice_index inp mod List.length (_lane_change_instants s))
    = Some lane_change
    /\ _lane_change (self_of (reset vehicle inp s)) = Some lane_change
    /\ filter is_recording_reset (calls_of (reset vehicle inp s))
       = [NGSimRecording_reset (timeslot lane_change)
                               (frame_manuveur_start lane_change - 1)]).
  { unfold reset. run.
    destruct (_ngsim_vehicles_in_carla s); run;
      cbn [_early_stop_monitor set_ngsim_vehicles_in_carla];
      destruct (_early_stop_monitor s); run;
      cbn [_lane_change_instants set_early_stop_monitor set_ngsim_vehicles_in_carla];
      match goal with |- context [bind (random_choice ?i ?l) _ ?s0] =>
        destruct (random_choice_total i l s0 N) as (lc & C & _);
        pose proof (random_choice_In _ _ _ _ _ _ C) as (Nth & _)
      end;
      exists lc; (split; [exact Nth|]);
      rewrite bind_eq, C; cbn [result_of self_of calls_of fst snd];
      rewrite after_calls_nil; run;
      cbn [_ngsim_recording set_checkpoints_distance_m set_total_distance_m
           set_previous_progress set_previous_chauffeur_command
           set_target_alignment_counter set_lane_change set_early_stop_monitor
           set_ngsim_vehicles_in_carla];
      rewrite R; run;
      destruct (find_first_matching _ _); run;
      try (unfold by_command; destruct (chauffeur_command lc); run);
      split; reflexivity. }
  destruct X as (lc & X1 & X2 & X3). exists lc.
  repeat split; auto.
  intros F B. rewrite X3. unfold frame_manuveur_start. rewrite F, B. reflexivity.
Qed.

End Selection.

(** A recording whose instants all fall in TRAIN, opened for VALIDATION:
    construction completes with an empty list. *)
Lemma construction_with_empty_partition :
  exists s,
    __init__ (W := Demo.world) {| dataset_name := "I80" |} VALIDATION DENSE
             Demo.train_only_recording
    = (s, [setup_carla_settings true (1 # 10); NGSimRecording_new;
           LOGGER_info 0 "I80" VALIDATION])
    /\ _lane_change_instants s = [].
Proof. eexists. split; reflexivity. Qed.

Lemma empty_partition_fails_at_reset_witness :
  result_of (reset (W := Demo.world) (Demo.ego 0 0)
               {| choice_index := 0; reset_vehicles := [Demo.other; Demo.agent 0] |}
               (fst (__init__ (W := Demo.world) {| dataset_name := "I80" |} VALIDATION
                              DENSE Demo.train_only_recording)))
  = Raise IndexError.
Proof.
  apply (empty_partition_fails_at_reset (W := Demo.world) {| dataset_name := "I80" |}
           VALIDATION DENSE Demo.train_only_recording).
  intros lci [E|[E|[]]]; subst; discriminate.
Defined.

(** The instant with frame_start = 100 in a world with
    FRAMES_BEFORE_MANUVEUR = 20: the recording is reset to frame 79. *)
Lemma reset_replay_frame_witness :
  filter is_recording_reset
    (calls_of (reset (W := Demo.world) (Demo.ego 0 0)
                 {| choice_index := 0; reset_vehicles := [Demo.other; Demo.agent 0] |}
                 (Demo.fresh TRAIN DENSE)))
  = [NGSimRecording_reset {| file_suffix := "F" |} 79].
Proof.
  destruct (reset_replay_frame (W := Demo.world) (Demo.ego 0 0)
              {| choice_index := 0; reset_vehicles := [Demo.other; Demo.agent 0] |}
              (Demo.fresh TRAIN DENSE) Demo.recording)
    as (lc & Nth & _ & _ & _ & F).
  - discriminate.
  - reflexivity.
  - injection Nth as <-. apply F; reflexivity.
Defined.

(** ** Progress scorer *)

Section Progress.

Context {W : Collaborators}.

Lemma Qeq_bool_false (c : Q) : ~ c == 0 -> Qeq_bool c 0 = false.
Proof.
  intro N. destruct (Qeq_bool c 0) eqn:E; [|reflexivity].
  apply Qeq_bool_iff in E. contradiction.
Qed.

(** The scorer makes no call to a collaborator. *)
Lemma calc_progress_change_calls sw tw loc s :
  calls_of (_calc_progress_change sw tw loc s) = [].
Proof.
  unfold _calc_progress_change. run.
  destruct sw; [|reflexivity]. run. destruct tw; [|reflexivity]. run.
  destruct (_total_distance_m s); [|reflexivity]. run.
  destruct (_checkpoints_distance_m s); [|reflexivity]. run.
  destruct (Qeq_bool _ 0); [reflexivity|]. run.
  destruct (_previous_progress s); [|reflexivity]. run. reflexivity.
Qed.

Lemma calc_progress_change_eq sw tw loc s T c p :
  _total_distance_m s = Some T ->
  _checkpoints_distance_m s = Some c ->
  ~ c == 0 ->
  _previous_progress s = Some p ->
  _calc_progress_change (Some sw) (Some tw) loc s
  = (Ret (progress_at T c sw tw loc - p),
     set_previous_progress (progress_at T c sw tw loc) s, []).
Proof.
  intros HT Hc Nz Hp. unfold _calc_progress_change. run.
  rewrite HT. run. rewrite Hc. run. rewrite (Qeq_bool_false _ Nz). run.
  rewrite Hp. run. reflexivity.
Qed.

Lemma scoring_set_previous_progress s sl tl lc T c q :
  scoring s sl tl lc T c -> scoring (set_previous_progress q s) sl tl lc T c.
Proof. intro S. exact S. Qed.

Lemma get_progress_change_on_lanes s sl tl lc T c p ego sw tw :
  scoring s sl tl lc T c ->
  _previous_progress s = Some p ->
  resolved_waypoints (chauffeur_command lc) sl tl ego = Some (sw, tw) ->
  _get_progress_change ego s
  = (Ret (progress_at T c sw tw (location ego) - p),
     set_previous_progress (progress_at T c sw tw (location ego)) s, []).
Proof.
  intros (Hs & Ht & Hl & HT & Hc & Nz) Hp R.
  unfold _get_progress_change. run. rewrite Hs. run. rewrite Ht. run.
  rewrite HT. run. unfold resolved_waypoints in R. cbv zeta in R.
  destruct (Z.eqb (lane_id (get_waypoint (location ego))) (lane_id sl)).
  - run. rewrite Hl. run. unfold by_command.
    destruct (chauffeur_command lc); try discriminate; run;
      match type of R with option_map _ ?x = _ => destruct x; [|discriminate] end;
      cbn [option_map] in R; injection R as <- <-;
      apply calc_progress_change_eq; assumption.
  - destruct (Z.eqb (lane_id (get_waypoint (location ego))) (lane_id tl));
      [|discriminate].
    run. rewrite Hl. run. unfold by_command.
    destruct (chauffeur_command lc); try discriminate; run;
      match type of R with option_map _ ?x = _ => destruct x; [|discriminate] end;
      cbn [option_map] in R; injection R as <- <-;
      apply calc_progress_change_eq; assumption.
Qed.

Lemma get_progress_change_off_lanes s sl tl lc T c ego :
  scoring s sl tl lc T c ->
  off_lanes sl tl ego ->
  _get_progress_change ego s = (Ret 0, s, []).
Proof.
  intros (Hs & Ht & Hl & HT & Hc & Nz) [O1 O2]. cbv zeta in O1, O2.
  unfold _get_progress_change. run. rewrite Hs. run. rewrite Ht. run.
  rewrite HT. run. rewrite O1, O2. reflexivity.
Qed.

Lemma get_progress_change_settled s sl tl ego :
  _start_lane_waypoint s = Some sl ->
  _target_lane_waypoint s = Some tl ->
  _get_progress_change ego s = _get_progress_change ego (with_total_distance s tl ego).
Proof.
  intros Hs Ht. unfold with_total_distance.
  destruct (_total_distance_m s) eqn:HT; [reflexivity|].
  unfold _get_progress_change. cbv zeta.
  rewrite !bind_attr.
  cbn [_start_lane_waypoint _target_lane_waypoint _total_distance_m
       set_checkpoints_distance_m set_total_distance_m].
  rewrite Hs. rewrite !bind_attr.
  cbn [_start_lane_waypoint _target_lane_waypoint _total_distance_m
       set_checkpoints_distance_m set_total_distance_m].
  rewrite Ht. rewrite !bind_read.
  cbn [_start_lane_waypoint _target_lane_waypoint _total_distance_m
       set_checkpoints_distance_m set_total_distance_m].
  rewrite HT. rewrite bind_bind, bind_assign, bind_assign, bind_ret.
  reflexivity.
Qed.

Lemma scoring_settled s sl tl lc T c ego :
  scoring (with_total_distance s tl ego) sl tl lc T c ->
  _start_lane_waypoint s = Some sl /\ _target_lane_waypoint s = Some tl
  /\ _previous_progress (with_total_distance s tl ego) = _previous_progress s.
Proof.
  unfold with_total_distance. intros (Hs & Ht & _).
  destruct (_total_distance_m s); repeat split; assumption || reflexivity.
Qed.

Lemma progress_at_passed T c sw tw loc :
  passed_target_centerline T sw tw loc = true -> progress_at T c sw tw loc == 0.
Proof.
  intro P. unfold progress_at. rewrite P. cbn [negb Py.of_bool]. apply Qmult_0_l.
Qed.

Lemma int_floor (x : Q) : 0 <= x -> Py.int x = Qfloor x.
Proof.
  destruct x as [n d]. unfold Qle, Py.int, Qfloor. cbn [Qnum Qden]. intro P.
  apply Z.quot_div_nonneg; lia.
Qed.

Lemma int_range (x : Q) (n : Z) :
  0 <= x -> x <= inject_Z n -> (0 <= Py.int x <= n)%Z.
Proof.
  intros L U. rewrite (int_floor x L). split.
  - change 0%Z with (Qfloor (inject_Z 0)). apply Qfloor_resp_le. exact L.
  - rewrite <- (Qfloor_Z n). apply Qfloor_resp_le. exact U.
Qed.


Lemma progress_run_overshoot sl tl lc T c (later : list Transform) :
  Forall (fun e => overshoot_frame T (chauffeur_command lc) sl tl e
                   \/ off_lanes sl tl e) later ->
  forall s q,
    scoring s sl tl lc T c ->
    _previous_progress s = Some q -> q == 0 ->
    exists ds s2 q2,
      progress_run later s = (Ret ds, s2, [])
      /\ List.length ds = List.length later
      /\ Forall (fun d => d == 0) ds
      /\ scoring s2 sl tl lc T c
      /\ _previous_progress s2 = Some q2 /\ q2 == 0.
Proof.
  induction 1 as [|e rest [(sw & tw & R & P)|O] _ IH]; intros s q S Hq Zq.
  - exists [], s, q. repeat split; try constructor; assumption || apply S.
  - pose proof (get_progress_change_on_lanes s sl tl lc T c q e sw tw S Hq R) as G.
    destruct (IH (set_previous_progress (progress_at T c sw tw (location e)) s)
                 (progress_at T c sw tw (location e))
                 (scoring_set_previous_progress _ _ _ _ _ _ _ S) eq_refl
                 (progress_at_passed _ _ _ _ _ P))
      as (ds & s2 & q2 & Rn & L & F & S2 & Hq2 & Zq2).
    exists ((progress_at T c sw tw (location e) - q) :: ds), s2, q2.
    cbn [progress_run]. rewrite (bind_run _ _ _ _ _ _ G), (bind_run _ _ _ _ _ _ Rn).
    split; [reflexivity|]. split; [cbn [List.length]; rewrite L; reflexivity|].
    split; [|split; [exact S2|split; [exact Hq2|exact Zq2]]].
    constructor; [|exact F].
    rewrite (progress_at_passed _ _ _ _ _ P), Zq. reflexivity.
  - pose proof (get_progress_change_off_lanes s sl tl lc T c e S O) as G.
    destruct (IH s q S Hq Zq) as (ds & s2 & q2 & Rn & L & F & S2 & Hq2 & Zq2).
    exists (0 :: ds), s2, q2.
    cbn [progress_run]. rewrite (bind_run _ _ _ _ _ _ G), (bind_run _ _ _ _ _ _ Rn).
    split; [reflexivity|]. split; [cbn [List.length]; rewrite L; reflexivity|].
    split; [|split; [exact S2|split; [exact Hq2|exact Zq2]]].
    constructor; [reflexivity|exact F].
Qed.

(** C4 -- overshoot and the progress change (as the code has it).  On
    every progress query of an episode (the first, which fixes the total
    distance, included) in which [passed_target_centerline] holds, the
    computed progress (stored as the previous progress) is 0 and the
    returned delta is minus the previous progress.  The delta is then 0
    on the following frames for as long as each is again one where
    [passed_target_centerline] holds or one off both expected lanes, and
    no longer: the code keeps no latch, and the next frame on the
    expected lanes is scored as any other, its delta being its own
    progress. *)
Theorem overshoot_clamp (s : Self) (sl tl : Waypoint) (lc : LaneChangeInstant)
    (T c p : Q) (ego : Transform) (later : list Transform) (back : Transform)
    (bsw btw : Waypoint) :
  scoring (with_total_distance s tl ego) sl tl lc T c ->
  _previous_progress s = Some p ->
  overshoot_frame T (chauffeur_command lc) sl tl ego ->
  Forall (fun e => overshoot_frame T (chauffeur_command lc) sl tl e
                   \/ off_lanes sl tl e) later ->
  resolved_waypoints (chauffeur_command lc) sl tl back = Some (bsw, btw) ->
  exists d q s1 ds s2 d' s3,
    _get_progress_change ego s = (Ret d, s1, [])
    /\ _previous_progress s1 = Some q /\ q == 0 /\ d == - p
    /\ progress_run later s1 = (Ret ds, s2, [])
    /\ List.length ds = List.length later
    /\ Forall (fun d' => d' == 0) ds
    /\ _get_progress_change back s2 = (Ret d', s3, [])
    /\ d' == progress_at T c bsw btw (location back)
    /\ _previous_progress s3 = Some (progress_at T c bsw btw (location back)).
Proof.
  intros S Hp (sw & tw & R & P) L B.
  destruct (scoring_settled _ _ _ _ _ _ _ S) as (Hs & Ht & Hq).
  rewrite <- Hq in Hp.
  rewrite (get_progress_change_settled s sl tl ego Hs Ht).
  set (s0 := with_total_distance s tl ego) in *.
  pose proof (get_progress_change_on_lanes s0 sl tl lc T c p ego sw tw S Hp R) as G.
  destruct (progress_run_overshoot sl tl lc T c later L
              (set_previous_progress (progress_at T c sw tw (location ego)) s0)
              (progress_at T c sw tw (location ego))
              (scoring_set_previous_progress _ _ _ _ _ _ _ S) eq_refl
              (progress_at_passed _ _ _ _ _ P))
    as (ds & s2 & q2 & Rn & Ln & F & S2 & Hq2 & Zq2).
  pose proof (get_progress_change_on_lanes s2 sl tl lc T c q2 back bsw btw S2 Hq2 B)
    as Gb.
  exists (progress_at T c sw tw (location ego) - p),
         (progress_at T c sw tw (location ego)),
         (set_previous_progress (progress_at T c sw tw (location ego)) s0), ds, s2,
         (progress_at T c bsw btw (location back) - q2),
         (set_previous_progress (progress_at T c bsw btw (location back)) s2).
  split; [exact G|]. split; [reflexivity|].
  split; [apply progress_at_passed; exact P|].
  split; [rewrite (progress_at_passed _ _ _ _ _ P); lra|].
  split; [exact Rn|]. split; [exact Ln|]. split; [exact F|].
  split; [exact Gb|]. split; [rewrite Zq2; ring|reflexivity].
Qed.


End Progress.

(** The agent starts 1.5 m left of the centre of lane 1, so the total
    distance is 2 m and a checkpoint 0.2 m; at y = 2.5 m, in lane 2, it is
    2.5 m from the start centreline and 1 m from the target:
    [passed_target_centerline] holds.  Back at y = 2 m it is 2 m from the
    start centreline, which is not more than the total distance, and
    0.5 m, two checkpoints, nearer the target than at the start: that
    frame's delta is 1/5, and the delta of the next frame, past the
    centreline again, is -1/5. *)
Lemma overshoot_not_latched :
  exists T c d0 d1 d2 s',
    scoring (Demo.scored DENSE (3 # 2))
      (Demo.waypoint_at 1 0) (Demo.waypoint_at 2 0) (Demo.instant "F" 100) T c
    /\ T == 2
    /\ overshoot_frame (W := Demo.world) T CHANGE_LANE_LEFT
         (Demo.waypoint_at 1 0) (Demo.waypoint_at 2 0) (Demo.pose (25 # 10) 0)
    /\ progress_run (W := Demo.world)
         [Demo.pose (25 # 10) 0; Demo.pose 2 0; Demo.pose (25 # 10) 0]
         (Demo.scored DENSE (3 # 2))
       = (Ret [d0; d1; d2], s', [])
    /\ d0 == 0 /\ d1 == 1 # 5 /\ d2 == - (1 # 5)
    /\ ~ d1 == 0 /\ ~ d2 == 0.
Proof.
  do 6 eexists.
  split; [repeat split; try reflexivity; intro E; vm_compute in E; discriminate E|].
  split; [reflexivity|].
  split; [eexists; eexists; split; reflexivity|].
  split; [vm_compute; reflexivity|].
  repeat split; try reflexivity; intro E; vm_compute in E; discriminate E.
Qed.

(** The same episode: y = 3 and y = 3.5 are past the centreline as well
    and y = 6 is off both lanes, so these frames return 0; the frame back
    at y = 2 m then returns 1/5. *)
Lemma overshoot_clamp_witness :
  exists d s1 ds s2 d' s3,
    _get_progress_change (W := Demo.world) (Demo.pose (25 # 10) 0) (Demo.scored DENSE (3 # 2))
    = (Ret d, s1, [])
    /\ d == 0
    /\ progress_run (W := Demo.world)
         [Demo.pose 3 0; Demo.pose (35 # 10) 0; Demo.pose 6 0] s1
       = (Ret ds, s2, [])
    /\ Forall (fun d' => d' == 0) ds
    /\ _get_progress_change (W := Demo.world) (Demo.pose 2 0) s2 = (Ret d', s3, [])
    /\ d' == 1 # 5.
Proof.
  edestruct (overshoot_clamp (W := Demo.world) (Demo.scored DENSE (3 # 2)))
    with (ego := Demo.pose (25 # 10) 0)
         (later := [Demo.pose 3 0; Demo.pose (35 # 10) 0; Demo.pose 6 0])
         (back := Demo.pose 2 0)
    as (d & q & s1 & ds & s2 & d' & s3 & R & _ & _ & D & Rn & _ & F & Rb & Db & _).
  - repeat split; try reflexivity. intro E. vm_compute in E. discriminate.
  - reflexivity.
  - eexists. eexists. split; reflexivity.
  - apply Forall_cons; [left; eexists; eexists; split; reflexivity|].
    apply Forall_cons; [left; eexists; eexists; split; reflexivity|].
    apply Forall_cons; [right; split; reflexivity|]. apply Forall_nil.
  - reflexivity.
  - exists d, s1, ds, s2, d', s3.
    split; [exact R|]. split; [rewrite D; reflexivity|].
    split; [exact Rn|]. split; [exact F|]. split; [exact Rb|].
    rewrite Db. reflexivity.
Defined.



(** ** Episode arbiter *)

Section Arbiter.

Context {W : Collaborators}.

Lemma calc_progress_change_erased sw tw loc s :
  progress_erased (self_of (_calc_progress_change sw tw loc s)) = progress_erased s.
Proof.
  unfold _calc_progress_change. run.
  destruct sw; [|reflexivity]. run. destruct tw; [|reflexivity]. run.
  destruct (_total_distance_m s); [|reflexivity]. run.
  destruct (_checkpoints_distance_m s); [|reflexivity]. run.
  destruct (Qeq_bool _ 0); [reflexivity|]. run.
  destruct (_previous_progress s); [|reflexivity]. run. reflexivity.
Qed.

(** The scorer touches its own three attributes only and makes no call. *)
Lemma get_progress_change_frame ego s :
  progress_erased (self_of (_get_progress_change ego s)) = progress_erased s
  /\ calls_of (_get_progress_change ego s) = [].
Proof.
  unfold _get_progress_change. run.
  destruct (_start_lane_waypoint s) as [sl|]; [|split; reflexivity]. run.
  destruct (_target_lane_waypoint s) as [tl|]; [|split; reflexivity]. run.
  match goal with |- context [bind _ ?k0 s] => set (k := k0) end.
  assert (K : forall s0, progress_erased (self_of (k tt s0)) = progress_erased s0
                         /\ calls_of (k tt s0) = []).
  { intro s0. unfold k.
    destruct (Z.eqb (lane_id (get_waypoint (location ego))) (lane_id sl)).
    - run. destruct (_lane_change s0) as [lc|]; [|split; reflexivity].
      unfold by_command. destruct (chauffeur_command lc); run;
        try (split; reflexivity);
        (split; [apply calc_progress_change_erased|apply calc_progress_change_calls]).
    - destruct (Z.eqb (lane_id (get_waypoint (location ego))) (lane_id tl));
        [|split; reflexivity].
      run. destruct (_lane_change s0) as [lc|]; [|split; reflexivity].
      unfold by_command. destruct (chauffeur_command lc); run;
        try (split; reflexivity);
        (split; [apply calc_progress_change_erased|apply calc_progress_change_calls]). }
  destruct (_total_distance_m s); run.
  - apply K.
  - destruct (K (set_checkpoints_distance_m
                   (Some (distance (location ego) (location (transform tl))
                          / checkpoints_number))
                   (set_total_distance_m
                      (Some (distance (location ego) (location (transform tl)))) s)))
      as [K1 K2].
    split; [rewrite K1; reflexivity|exact K2].
Qed.

(** What a returned [step_locals] has done. *)
Lemma step_locals_inv ego_vehicle inp s locals s' t :
  step_locals ego_vehicle inp s = (Ret locals, s', t) ->
  exists sl tl aligned s1 pc others,
    let ego_transform := get_transform ego_vehicle in
    let waypoint := get_waypoint (location ego_transform) in
    let on_start_lane := Z.eqb (lane_id waypoint) (lane_id sl) in
    let on_target_lane := Z.eqb (lane_id waypoint) (lane_id tl) in
    let success := on_target_lane && aligned in
    let stop :=
      negb success
      && (early_stop_monitor_says inp || negb (on_start_lane || on_target_lane)) in
    _start_lane_waypoint s = Some sl
    /\ _target_lane_waypoint s = Some tl
    /\ _ngsim_recording s <> None
    /\ _ngsim_vehicles_in_carla s <> None
    /\ _is_lane_aligned ego_transform waypoint s = (Ret aligned, s1, [])
    /\ _get_progress_change ego_transform s1 = (Ret pc, s', [])
    /\ scenario_finished_with_success locals = success
    /\ early_stop locals = stop
    /\ local_done locals = success || stop
    /\ local_reward locals
       = Py.of_bool (RewardType_eqb (_reward_type s) DENSE) * pc
         + Py.of_bool success + Py.of_bool stop * (-1)
    /\ (if on_start_lane
        then exists lc, _lane_change s = Some lc
                        /\ local_chauffeur_command locals = chauffeur_command lc
        else local_chauffeur_command locals = LANE_FOLLOW)
    /\ (step_vehicles inp <> [] -> _lane_change s <> None)
    /\ (success = false -> _early_stop_monitor s <> None)
    /\ t = step_calls others ego_transform success.
Proof.
  intro R. unfold step_locals in R. inv_ret R. subst.
  assert (V : s2 = s /\ t4 = []
              /\ (step_vehicles inp <> [] -> _lane_change s <> None)).
  { destruct (step_vehicles inp) as [|v vs]; inv_ret R6; subst.
    - repeat split; auto; congruence.
    - repeat split; auto; congruence. }
  destruct V as (-> & -> & V).
  assert (C : s7 = s /\ t14 = []
              /\ (if Z.eqb (lane_id (get_waypoint (location (get_transform ego_vehicle))))
                           (lane_id a4)
                  then exists lc, _lane_change s = Some lc /\ a6 = chauffeur_command lc
                  else a6 = LANE_FOLLOW)).
  { destruct (Z.eqb (lane_id (get_waypoint (location (get_transform ego_vehicle))))
                    (lane_id a4)); inv_ret R19; subst.
    - repeat split; eauto.
    - repeat split; auto. }
  destruct C as (-> & -> & C).
  destruct (is_lane_aligned_inv _ _ _ _ _ _ R17) as (c' & -> & -> & _ & _).
  assert (E : s9 = set_target_alignment_counter c' s
              /\ a8 = negb (Z.eqb (lane_id (get_waypoint (location (get_transform ego_vehicle))))
                                  (lane_id a5) && a7)
                      && (early_stop_monitor_says inp
                          || negb (Z.eqb (lane_id (get_waypoint (location (get_transform ego_vehicle))))
                                         (lane_id a4)
                                   || Z.eqb (lane_id (get_waypoint (location (get_transform ego_vehicle))))
                                            (lane_id a5)))
              /\ t18 = (if Z.eqb (lane_id (get_waypoint (location (get_transform ego_vehicle))))
                                (lane_id a5) && a7
                        then [] else [EarlyStopMonitor_call (get_transform ego_vehicle)])
              /\ (Z.eqb (lane_id (get_waypoint (location (get_transform ego_vehicle))))
                        (lane_id a5) && a7 = false ->
                  _early_stop_monitor s <> None)).
  { destruct (Z.eqb (lane_id (get_waypoint (location (get_transform ego_vehicle))))
                    (lane_id a5) && a7); cbn [negb] in R20; inv_ret R20; subst.
    - repeat split; auto; discriminate.
    - cbn [_early_stop_monitor set_target_alignment_counter] in *.
      repeat split; auto; congruence. }
  destruct E as (-> & -> & -> & E).
  destruct (get_progress_change_frame (get_transform ego_vehicle)
              (set_target_alignment_counter c' s)) as [_ G].
  rewrite R25 in G. unfold calls_of in G. cbn [snd] in G. subst t22.
  exists a4, a5, a7, (set_target_alignment_counter c' s), a10, a1.
  cbv zeta. cbn [scenario_finished_with_success early_stop local_done local_reward
                 local_chauffeur_command].
  repeat split; auto; try congruence.
  unfold step_calls. cbn [app]. rewrite !app_nil_r. reflexivity.
Qed.

Lemma get_progress_change_off_lanes_run s sl tl T ego :
_start_lane_waypoint s = Some sl ->
_target_lane_waypoint s = Some tl ->
_total_distance_m s = Some T ->
off_lanes sl tl ego ->
_get_progress_change ego s = (Ret 0, s, []).
Proof.
intros Hs Ht HT [O1 O2]. cbv zeta in O1, O2.
unfold _get_progress_change. run. rewrite Hs. run. rewrite Ht. run.
rewrite HT. run. rewrite O1, O2. reflexivity.
Qed.

Ltac inv_calc :=
  match goal with
  | R : by_command _ _ _ ?c _ = (Ret _, _, _) |- _ =>
      unfold by_command in R; destruct c eqn:?; inv_ret R; subst
  end;
  match goal with
  | R : _calc_progress_change _ _ _ _ = (Ret _, _, _) |- _ =>
      unfold _calc_progress_change in R; inv_ret R; subst
  end.

(** What a returned progress query leaves behind: the geometry of the
    episode is fixed, and the frame was either off both lanes or scored
    against a resolved pair of waypoints. *)
Lemma get_progress_change_inv ego s1 pc s' t :
_get_progress_change ego s1 = (Ret pc, s', t) ->
exists sl tl T,
  _start_lane_waypoint s' = Some sl
  /\ _target_lane_waypoint s' = Some tl
  /\ _total_distance_m s' = Some T
  /\ (off_lanes sl tl ego
      \/ exists lc c p sw tw,
           _lane_change s' = Some lc
           /\ _checkpoints_distance_m s' = Some c /\ ~ c == 0
           /\ _previous_progress s' = Some p
           /\ resolved_waypoints (chauffeur_command lc) sl tl ego = Some (sw, tw)).
Proof.
intro R. unfold _get_progress_change in R. inv_ret R. subst.
match goal with
| R9 : match _total_distance_m s1 with _ => _ end s1 = (Ret _, ?s3, _) |- _ =>
    assert (F : exists T, _total_distance_m s3 = Some T
                          /\ _start_lane_waypoint s3 = Some a
                          /\ _target_lane_waypoint s3 = Some a0);
    [ destruct (_total_distance_m s1) as [T0|] eqn:ET; inv_ret R9; subst;
      eexists; repeat split; eauto
    | clear R9 ]
end.
destruct F as (T & FT & Fs & Ft).
exists a, a0, T. unfold off_lanes, resolved_waypoints. cbv zeta.
destruct (Z.eqb (lane_id (get_waypoint (location ego))) (lane_id a)).
- match goal with R10 : _ = (Ret pc, s', _) |- _ => inv_ret R10; subst end.
  inv_calc;
    cbn [_start_lane_waypoint _target_lane_waypoint _total_distance_m _lane_change
         _checkpoints_distance_m _previous_progress set_previous_progress] in *;
    (repeat split; auto; right;
     do 5 eexists; repeat split; eauto;
     match goal with E : chauffeur_command _ = _ |- _ => rewrite E end;
     match goal with E : _ = Some _ |- option_map _ _ = _ => rewrite E end;
     reflexivity).
- destruct (Z.eqb (lane_id (get_waypoint (location ego))) (lane_id a0)).
  + match goal with R10 : _ = (Ret pc, s', _) |- _ => inv_ret R10; subst end.
    inv_calc;
      cbn [_start_lane_waypoint _target_lane_waypoint _total_distance_m _lane_change
           _checkpoints_distance_m _previous_progress set_previous_progress] in *;
      (repeat split; auto; right;
       do 5 eexists; repeat split; eauto;
       match goal with E : chauffeur_command _ = _ |- _ => rewrite E end;
       match goal with E : _ = Some _ |- option_map _ _ = _ => rewrite E end;
       reflexivity).
  + match goal with R10 : _ = (Ret pc, s', _) |- _ => inv_ret R10; subst end.
    repeat split; auto.
Qed.

Lemma step_inv ego_vehicle inp s r s2 t :
  step ego_vehicle inp s = (Ret r, s2, t) ->
  exists locals s' lc c,
    step_locals ego_vehicle inp s = (Ret locals, s', t)
    /\ s2 = set_previous_chauffeur_command (local_chauffeur_command locals) s'
    /\ _lane_change s' = Some lc
    /\ _target_alignment_counter s' = Some c
    /\ result_chauffeur_command r = local_chauffeur_command locals
    /\ reward r = local_reward locals
    /\ done r = local_done locals
    /\ info_target_alignment_counter (info r) = c.
Proof.
  intro R. unfold step in R. inv_ret R. subst.
  cbn [_lane_change _target_alignment_counter set_previous_chauffeur_command] in *.
  exists a, s0, a2, a5. rewrite !app_nil_r.
  repeat split; auto.
Qed.

Lemma step_run ego_vehicle inp s locals s' t lc c :
  step_locals ego_vehicle inp s = (Ret locals, s', t) ->
  _lane_change s' = Some lc ->
  _target_alignment_counter s' = Some c ->
  exists r,
    step ego_vehicle inp s
    = (Ret r, set_previous_chauffeur_command (local_chauffeur_command locals) s', t)
    /\ done r = local_done locals.
Proof.
  intros R L C. unfold step. rewrite bind_eq, R.
  cbn [result_of self_of calls_of fst snd]. run.
  cbn [_lane_change _target_alignment_counter set_previous_chauffeur_command].
  rewrite L. run.
  cbn [_lane_change _target_alignment_counter set_previous_chauffeur_command].
  rewrite C. run. eexists. unfold after_calls, ret, result_of, self_of, calls_of.
  cbn [fst snd]. rewrite app_nil_r. split; reflexivity.
Qed.

Lemma counter_after_step_locals ego_vehicle inp s locals s' t :
  step_locals ego_vehicle inp s = (Ret locals, s', t) ->
  _target_alignment_counter s'
  = (if aligned_with_target_lane (get_transform ego_vehicle)
                                 (get_waypoint (location (get_transform ego_vehicle)))
     then option_map Z.succ (_target_alignment_counter s)
     else Some 0%Z)
  /\ forall tl, _target_lane_waypoint s = Some tl ->
       scenario_finished_with_success locals
       = Z.eqb (lane_id (get_waypoint (location (get_transform ego_vehicle))))
               (lane_id tl)
         && match _target_alignment_counter s' with
            | Some c => Z.eqb c TARGET_LANE_ALIGNMENT_FRAMES
            | None => false
            end.
Proof.
  intro R.
  destruct (step_locals_inv _ _ _ _ _ _ R)
    as (sl & tl & aligned & s1 & pc & others & I). cbv zeta in I.
  destruct I as (_ & Ht & _ & _ & A & G & S & _).
  destruct (is_lane_aligned_inv _ _ _ _ _ _ A) as (c' & -> & _ & -> & C).
  destruct (get_progress_change_frame (get_transform ego_vehicle)
              (set_target_alignment_counter c' s)) as [F _].
  rewrite G in F. unfold self_of in F. cbn [fst snd] in F.
  apply (f_equal _target_alignment_counter) in F.
  cbn [_target_alignment_counter progress_erased] in F.
  split.
  - rewrite F. exact C.
  - intros tl' Ht'. rewrite Ht in Ht'. injection Ht' as <-.
    rewrite S, F. reflexivity.
Qed.

(** [step_locals] leaves everything but the counter and the scorer's
    attributes as it was. *)
Lemma step_locals_frame ego_vehicle inp s locals s' t :
step_locals ego_vehicle inp s = (Ret locals, s', t) ->
exists c', progress_erased s' = progress_erased (set_target_alignment_counter c' s).
Proof.
intro R.
destruct (step_locals_inv _ _ _ _ _ _ R)
  as (sl & tl & aligned & s1 & pc & others & I). cbv zeta in I.
destruct I as (_ & _ & _ & _ & A & G & _).
destruct (is_lane_aligned_inv _ _ _ _ _ _ A) as (c' & -> & _).
destruct (get_progress_change_frame (get_transform ego_vehicle)
            (set_target_alignment_counter c' s)) as [F _].
rewrite G in F. exists c'. exact F.
Qed.

(** Attributes that let [step_locals] return. *)
Lemma step_locals_run ego_vehicle inp s0 rec v sl tl lc c m :
_ngsim_recording s0 = Some rec ->
_ngsim_vehicles_in_carla s0 = Some v ->
_start_lane_waypoint s0 = Some sl ->
_target_lane_waypoint s0 = Some tl ->
_lane_change s0 = Some lc ->
_target_alignment_counter s0 = Some c ->
_early_stop_monitor s0 = Some m ->
(forall c2, exists pc s3,
   _get_progress_change (get_transform ego_vehicle)
     (set_target_alignment_counter c2 s0) = (Ret pc, s3, [])) ->
exists locals s3 t, step_locals ego_vehicle inp s0 = (Ret locals, s3, t).
Proof.
intros Hr Hv Hs Ht Hl Hc Hm Hg.
assert (A : exists b c2,
          _is_lane_aligned (get_transform ego_vehicle)
            (get_waypoint (location (get_transform ego_vehicle))) s0
          = (Ret b, set_target_alignment_counter c2 s0, [])).
{ destruct (aligned_with_target_lane (get_transform ego_vehicle)
              (get_waypoint (location (get_transform ego_vehicle)))) eqn:Al.
  - eexists. eexists. apply (is_lane_aligned_hit _ _ _ _ Al Hc).
  - eexists. eexists. apply (is_lane_aligned_miss _ _ _ Al). }
destruct A as (b & c2 & A). destruct (Hg c2) as (pc & sg & G).
unfold step_locals. run. rewrite Hr. run.
assert (V : forall (k : list NGSimVehicle -> M StepLocals),
          (forall l, exists locals s4 t4, k l s0 = (Ret locals, s4, t4)) ->
          exists locals s4 t4,
            bind match step_vehicles inp with
                 | [] => ret []
                 | _ :: _ =>
                     lane_change <- attr _lane_change ;;
                     ret (filter (fun v0 => negb (Z.eqb (id v0) (vehicle_id lane_change)))
                                 (step_vehicles inp))
                 end k s0 = (Ret locals, s4, t4)).
{ intros k K. destruct (step_vehicles inp); run; [|rewrite Hl; run]; apply K. }
match goal with
| |- exists locals s4 t4, after_calls ?c (bind _ ?k s0) = _ =>
    destruct (V k) as (locals & s4 & t4 & E);
    [|exists locals, s4, (c ++ t4); rewrite E; reflexivity]
end.
intro others. run. rewrite Hv. run. rewrite Hs. run. rewrite Ht. run.
assert (C : forall (k : ChauffeurCommand -> M StepLocals),
          (forall cmd, exists locals s4 t4, k cmd s0 = (Ret locals, s4, t4)) ->
          exists locals s4 t4,
            bind (if Z.eqb (lane_id (get_waypoint (location (get_transform ego_vehicle))))
                           (lane_id sl)
                  then lane_change <- attr _lane_change ;;
                       ret (chauffeur_command lane_change)
                  else ret LANE_FOLLOW) k s0 = (Ret locals, s4, t4)).
{ intros k K.
  destruct (Z.eqb (lane_id (get_waypoint (location (get_transform ego_vehicle))))
                  (lane_id sl)); run; [rewrite Hl; run|]; apply K. }
match goal with
| |- exists locals s4 t4, after_calls ?c (bind _ ?k s0) = _ =>
    destruct (C k) as (locals & s4 & t4 & E);
    [|exists locals, s4, (c ++ t4); rewrite E; reflexivity]
end.
intro cmd. rewrite bind_eq, A. cbn [result_of self_of calls_of fst snd].
rewrite after_calls_nil.
destruct (Z.eqb (lane_id (get_waypoint (location (get_transform ego_vehicle))))
                (lane_id tl) && b); cbn [negb]; run;
  cbn [_early_stop_monitor _reward_type set_target_alignment_counter];
  rewrite ?Hm; run; rewrite bind_eq, G; cbn [result_of self_of calls_of fst snd];
  run; unfold ret, after_calls, result_of, self_of, calls_of; cbn [fst snd];
  do 3 eexists; reflexivity.
Qed.

(** [step] on an object whose background traffic was never created (no
    [reset] yet, or [close] since). *)
Lemma step_without_reset ego_vehicle inp s :
_ngsim_vehicles_in_carla s = None ->
result_of (step ego_vehicle inp s) = Raise AttributeError
/\ self_of (step ego_vehicle inp s) = s.
Proof.
intro Hv.
assert (L : exists t, step_locals ego_vehicle inp s = (Raise AttributeError, s, t)).
{ unfold step_locals. run.
  destruct (_ngsim_recording s); [|eexists; reflexivity]. run.
  destruct (step_vehicles inp); run.
  - rewrite Hv. eexists. reflexivity.
  - destruct (_lane_change s); run; [rewrite Hv|]; eexists; reflexivity. }
destruct L as [t L]. unfold step. rewrite (bind_raise _ _ _ _ _ _ L).
split; reflexivity.
Qed.

(** A step that returned can be repeated on the object it left behind. *)
Lemma step_repeats ego_vehicle inp s r s2 t m :
step ego_vehicle inp s = (Ret r, s2, t) ->
_early_stop_monitor s = Some m ->
exists r' s3 t', step ego_vehicle inp s2 = (Ret r', s3, t').
Proof.
intros R Hm.
destruct (step_inv _ _ _ _ _ _ R)
  as (locals & s' & lc & c & RL & -> & Hl & Hc & _).
destruct (step_locals_inv _ _ _ _ _ _ RL)
  as (sl & tl & aligned & s1 & pc & others & I). cbv zeta in I.
destruct I as (_ & _ & Hr & Hv & _ & G & _).
destruct (step_locals_frame _ _ _ _ _ _ RL) as (c' & F).
assert (Fr : _ngsim_recording s' = _ngsim_recording s)
  by (apply (f_equal _ngsim_recording) in F; exact F).
assert (Fv : _ngsim_vehicles_in_carla s' = _ngsim_vehicles_in_carla s)
  by (apply (f_equal _ngsim_vehicles_in_carla) in F; exact F).
assert (Fm : _early_stop_monitor s' = _early_stop_monitor s)
  by (apply (f_equal _early_stop_monitor) in F; exact F).
destruct (_ngsim_recording s) as [rec|] eqn:Er; [|congruence].
destruct (_ngsim_vehicles_in_carla s) as [v|] eqn:Ev; [|congruence].
destruct (get_progress_change_inv _ _ _ _ _ G) as (sl' & tl' & T & Hs' & Ht' & HT & K).
destruct (step_locals_run ego_vehicle inp
            (set_previous_chauffeur_command (local_chauffeur_command locals) s')
            rec v sl' tl' lc c m)
  as (locals2 & s4 & t4 & RL2); auto.
- rewrite <- Hm. exact Fm.
- intro c2. destruct K as [O|(lc' & cp & p & sw & tw & Hl' & Hcp & Nz & Hp & Rw)].
  + do 2 eexists.
    apply (get_progress_change_off_lanes_run _ sl' tl' T); auto.
  + do 2 eexists.
    apply (get_progress_change_on_lanes _ sl' tl' lc' T cp p _ sw tw); auto.
    repeat split; auto.
- destruct (step_locals_frame _ _ _ _ _ _ RL2) as (c2 & F2).
  assert (Fl : _lane_change s4 = Some lc).
  { apply (f_equal _lane_change) in F2. rewrite <- Hl. exact F2. }
  assert (Fc : _target_alignment_counter s4 = Some c2)
    by (apply (f_equal _target_alignment_counter) in F2; exact F2).
  destruct (step_run _ _ _ _ _ _ _ _ RL2 Fl Fc) as (r' & R' & _).
  eauto.
Qed.

(** C1 -- arbiter precedence.  On a step that runs with the agent on the
    target lane, the alignment check reporting completion and the
    monitor answering true, success is decided first: the step succeeded,
    it is no early stop, [done] is true, the reward is the dense progress
    term plus the +1 bonus with no -1 penalty, and the monitor is not
    even asked. *)
Theorem success_precedes_early_stop (ego_vehicle : Vehicle) (inp : StepInput)
    (s s2 : Self) (r : ScenarioStepResult) (t : list Call) (tl : Waypoint) :
  step ego_vehicle inp s = (Ret r, s2, t) ->
  _target_lane_waypoint s = Some tl ->
  lane_id (get_waypoint (location (get_transform ego_vehicle))) = lane_id tl ->
  result_of (_is_lane_aligned (get_transform ego_vehicle)
               (get_waypoint (location (get_transform ego_vehicle))) s) = Ret true ->
  early_stop_monitor_says inp = true ->
  exists locals s' pc,
    step_locals ego_vehicle inp s = (Ret locals, s', t)
    /\ scenario_finished_with_success locals = true
    /\ early_stop locals = false
    /\ done r = true
    /\ result_of (_get_progress_change (get_transform ego_vehicle)
                    (self_of (_is_lane_aligned (get_transform ego_vehicle)
                                (get_waypoint (location (get_transform ego_vehicle)))
                                s))) = Ret pc
    /\ reward r == Py.of_bool (RewardType_eqb (_reward_type s) DENSE) * pc + 1
    /\ ~ In (EarlyStopMonitor_call (get_transform ego_vehicle)) t.
Proof.
  intros R Ht On Al Says.
  destruct (step_inv _ _ _ _ _ _ R)
    as (locals & s' & lc & c & RL & _ & _ & _ & _ & Rw & Dn & _).
  destruct (step_locals_inv _ _ _ _ _ _ RL)
    as (sl & tl' & aligned & s1 & pc & others & I). cbv zeta in I.
  destruct I as (_ & Ht' & _ & _ & A & G & S & E & D & Lw & _ & _ & _ & T).
  rewrite Ht in Ht'. injection Ht' as <-.
  rewrite A in Al. unfold result_of in Al. cbn [fst] in Al. injection Al as ->.
  assert (O : Z.eqb (lane_id (get_waypoint (location (get_transform ego_vehicle))))
                    (lane_id tl) = true) by (apply Z.eqb_eq; exact On).
  rewrite O in *. cbn [andb negb orb] in *.
  exists locals, s', pc. rewrite A. unfold self_of, result_of. cbn [fst snd].
  rewrite G. cbn [fst snd].
  repeat split; auto.
  - congruence.
  - rewrite Rw, Lw. cbn [Py.of_bool]. ring.
  - rewrite T. unfold step_calls. cbn. intuition discriminate.
Qed.

(** C3 -- when the alignment check runs (as the code has it).  The check
    runs on every step that returns, on or off the target lane, against
    the waypoint of the lane the agent is in: the counter is incremented
    when the pose is aligned with that waypoint and reset to 0 when it is
    not.  Being on the target lane only gates the verdict: the step
    succeeds exactly when the agent is on the target lane and the
    updated counter equals 10. *)
Theorem alignment_checked_on_every_step (ego_vehicle : Vehicle) (inp : StepInput)
    (s s2 : Self) (r : ScenarioStepResult) (t : list Call) :
  step ego_vehicle inp s = (Ret r, s2, t) ->
  exists locals s' tl,
    step_locals ego_vehicle inp s = (Ret locals, s', t)
    /\ _target_lane_waypoint s = Some tl
    /\ _target_alignment_counter s2
       = (if aligned_with_target_lane (get_transform ego_vehicle)
               (get_waypoint (location (get_transform ego_vehicle)))
          then option_map Z.succ (_target_alignment_counter s)
          else Some 0%Z)
    /\ Some (info_target_alignment_counter (info r)) = _target_alignment_counter s2
    /\ scenario_finished_with_success locals
       = Z.eqb (lane_id (get_waypoint (location (get_transform ego_vehicle))))
               (lane_id tl)
         && Z.eqb (info_target_alignment_counter (info r)) TARGET_LANE_ALIGNMENT_FRAMES.
Proof.
  intro R.
  destruct (step_inv _ _ _ _ _ _ R)
    as (locals & s' & lc & c & RL & -> & _ & C & _ & _ & _ & Ic).
  destruct (counter_after_step_locals _ _ _ _ _ _ RL) as [K1 K2].
  destruct (step_locals_inv _ _ _ _ _ _ RL)
    as (sl & tl & aligned & s1 & pc & others & I). cbv zeta in I.
  destruct I as (_ & Ht & _).
  exists locals, s', tl.
  cbn [_target_alignment_counter set_previous_chauffeur_command].
  repeat split; auto.
  - rewrite Ic, C. reflexivity.
  - rewrite (K2 tl Ht), C, Ic. reflexivity.
Qed.

(** C9 -- calling [step] out of turn (as the code has it).  The object
    keeps no record of [done].  On an object fresh from [__init__], never
    reset, every [step] raises [AttributeError] -- the background traffic
    does not exist yet -- and leaves the object as it was.  After a step
    that reported [done] nothing rejects a further step: on the object it
    left behind (its monitor in place), the same call returns a step
    result again. *)
Theorem step_guarded_by_attributes_only :
(forall ngsim_dataset mode reward_type recording ego_vehicle inp,
   result_of (step ego_vehicle inp
                (fst (__init__ ngsim_dataset mode reward_type recording)))
   = Raise AttributeError
   /\ self_of (step ego_vehicle inp
                 (fst (__init__ ngsim_dataset mode reward_type recording)))
      = fst (__init__ ngsim_dataset mode reward_type recording))
/\ (forall ego_vehicle inp s r s2 t m,
      step ego_vehicle inp s = (Ret r, s2, t) ->
      done r = true ->
      _early_stop_monitor s = Some m ->
      exists r' s3 t', step ego_vehicle inp s2 = (Ret r', s3, t')).
Proof.
split.
- intros. apply step_without_reset. reflexivity.
- intros ego_vehicle inp s r s2 t m R _ Hm.
  exact (step_repeats ego_vehicle inp s r s2 t m R Hm).
Qed.

End Arbiter.

(** Nine aligned frames on the target lane are behind; on the tenth the
    monitor answers true as well: the step succeeds with reward 1. *)
Lemma success_precedes_early_stop_witness :
  exists r s2 t,
    step (W := Demo.world) (Demo.ego (35 # 10) 0) (Demo.frame true) (Demo.nearly_done DENSE)
    = (Ret r, s2, t)
    /\ done r = true /\ reward r == 1.
Proof.
  destruct (step (W := Demo.world) (Demo.ego (35 # 10) 0) (Demo.frame true)
              (Demo.nearly_done DENSE)) as [[[r|e] s2] t] eqn:E;
    [|vm_compute in E; discriminate].
  exists r, s2, t. split; [reflexivity|].
  destruct (success_precedes_early_stop (W := Demo.world) (Demo.ego (35 # 10) 0)
              (Demo.frame true) (Demo.nearly_done DENSE) s2 r t
              (Demo.waypoint_at 2 0) E)
    as (locals & s' & pc & _ & _ & _ & D & P & Rw & _).
  - reflexivity.
  - reflexivity.
  - vm_compute. reflexivity.
  - reflexivity.
  - split; [exact D|]. rewrite Rw.
    vm_compute in P. injection P as <-. reflexivity.
Defined.

(** The first step of an episode, the agent on the centre line of the
    start lane (lane 1, not the target lane 2): the success evaluation
    has moved the counter from 0 to 1. *)
Lemma counter_moves_off_target_lane :
  exists tl r s2 t,
    _target_lane_waypoint (Demo.after_reset DENSE 0 0) = Some tl
    /\ lane_id (@get_waypoint Demo.world
                  (location (get_transform (Demo.ego 0 0)))) <> lane_id tl
    /\ step (W := Demo.world) (Demo.ego 0 0) (Demo.frame false) (Demo.after_reset DENSE 0 0)
       = (Ret r, s2, t)
    /\ _target_alignment_counter (Demo.after_reset DENSE 0 0) = Some 0%Z
    /\ _target_alignment_counter s2 = Some 1%Z
    /\ _target_alignment_counter s2
       <> _target_alignment_counter (Demo.after_reset DENSE 0 0).
Proof.
  eexists. eexists. eexists. eexists.
  split; [reflexivity|]. split; [discriminate|].
  split; [vm_compute; reflexivity|].
  split; [reflexivity|]. split; [reflexivity|discriminate].
Qed.

Lemma alignment_checked_on_every_step_witness :
  exists r s2 t,
    step (W := Demo.world) (Demo.ego 0 0) (Demo.frame false) (Demo.after_reset DENSE 0 0)
    = (Ret r, s2, t)
    /\ info_target_alignment_counter (info r) = 1%Z.
Proof.
  destruct (step (W := Demo.world) (Demo.ego 0 0) (Demo.frame false)
              (Demo.after_reset DENSE 0 0)) as [[[r|e] s2] t] eqn:E;
    [|vm_compute in E; discriminate].
  exists r, s2, t. split; [reflexivity|].
  destruct (alignment_checked_on_every_step (W := Demo.world) (Demo.ego 0 0)
              (Demo.frame false) (Demo.after_reset DENSE 0 0) s2 r t E)
    as (locals & s' & tl & _ & _ & C & I & _).
  rewrite C in I. vm_compute in I. injection I as I. exact I.
Defined.

(** The tenth aligned frame on the target lane reports [done]; the same
    call on the object it leaves behind, with no [reset] in between,
    returns a step result again, the counter now at 11. *)
Lemma step_after_done_returns :
exists r s2 t r' s3 t',
  step (W := Demo.world) (Demo.ego (35 # 10) 0) (Demo.frame true) (Demo.nearly_done DENSE)
  = (Ret r, s2, t)
  /\ done r = true
  /\ step (W := Demo.world) (Demo.ego (35 # 10) 0) (Demo.frame true) s2 = (Ret r', s3, t')
  /\ done r' = true
  /\ info_target_alignment_counter (info r') = 11%Z.
Proof.
do 6 eexists.
split; [vm_compute; reflexivity|].
split; [reflexivity|].
split; [vm_compute; reflexivity|].
split; reflexivity.
Qed.

Lemma step_guarded_by_attributes_only_witness :
exists r' s3 t',
  step (W := Demo.world) (Demo.ego (35 # 10) 0) (Demo.frame true)
       (self_of (step (W := Demo.world) (Demo.ego (35 # 10) 0) (Demo.frame true)
                      (Demo.nearly_done DENSE)))
  = (Ret r', s3, t').
Proof.
destruct (step (W := Demo.world) (Demo.ego (35 # 10) 0) (Demo.frame true)
            (Demo.nearly_done DENSE)) as [[[r|e] s2] t] eqn:E;
  [|vm_compute in E; discriminate].
eapply (proj2 (step_guarded_by_attributes_only (W := Demo.world))
              (Demo.ego (35 # 10) 0) (Demo.frame true) (Demo.nearly_done DENSE)
              r s2 t _ E).
- vm_compute in E. injection E as <- _ _. reflexivity.
- vm_compute. reflexivity.
Defined.

(** * Further properties *)

(** ** What a method keeps *)

Lemma preserves_bind {A B} (P : Self -> Prop) (m : M A) (f : A -> M B) :
  preserves P m -> (forall a, preserves P (f a)) -> preserves P (bind m f).
Proof.
  intros Hm Hf s Ps. specialize (Hm s Ps). unfold bind.
  destruct (m s) as [[[a|e] s1] t1]; unfold self_of in *; cbn [fst snd] in *.
  - specialize (Hf a s1 Hm). unfold self_of in Hf.
    destruct (f a s1) as [[o s2] t2]. exact Hf.
  - exact Hm.
Qed.

Lemma preserves_still {A} (P : Self -> Prop) (m : M A) :
  (forall s, self_of (m s) = s) -> preserves P m.
Proof. intros E s Ps. rewrite E. exact Ps. Qed.

Lemma preserves_assign (P : Self -> Prop) (upd : Self -> Self) :
  (forall s, P s -> P (upd s)) -> preserves P (assign upd).
Proof. intros U s Ps. exact (U s Ps). Qed.

Lemma attr_still {A} (f : Self -> option A) s : self_of (attr f s) = s.
Proof. unfold attr. destruct (f s); reflexivity. Qed.

Lemma operand_still {A} (f : Self -> option A) s : self_of (operand f s) = s.
Proof. unfold operand. destruct (f s); reflexivity. Qed.

Lemma deref_still {A} (x : option A) s : self_of (deref x s) = s.
Proof. destruct x; reflexivity. Qed.

Lemma truediv_still a b s : self_of (truediv a b s) = s.
Proof. unfold truediv. destruct (Qeq_bool b 0); reflexivity. Qed.

Lemma random_choice_still {A} (i : nat) (l : list A) s :
  self_of (random_choice i l s) = s.
Proof. unfold random_choice. destruct (nth_error l _); reflexivity. Qed.

(** One step of a preservation proof: split a bind, close an operation
    that leaves the object alone, or open a branch. *)
Ltac keeps_step :=
  lazymatch goal with
  | |- preserves _ (bind _ _) => apply preserves_bind; [|intro]
  | |- preserves _ (assign _) => apply preserves_assign; intros ? ?
  | |- preserves _ (attr _) => apply preserves_still; intro; apply attr_still
  | |- preserves _ (operand _) => apply preserves_still; intro; apply operand_still
  | |- preserves _ (deref _) => apply preserves_still; intro; apply deref_still
  | |- preserves _ (truediv _ _) => apply preserves_still; intro; apply truediv_still
  | |- preserves _ (random_choice _ _) =>
      apply preserves_still; intro; apply random_choice_still
  | |- preserves _ (read _) => apply preserves_still; reflexivity
  | |- preserves _ (ret _) => apply preserves_still; reflexivity
  | |- preserves _ (raise _) => apply preserves_still; reflexivity
  | |- preserves _ (call _) => apply preserves_still; reflexivity
  | |- preserves _ (lift _) => apply preserves_still; reflexivity
  | |- preserves _ (if ?b then _ else _) => destruct b
  | |- preserves _ (match ?x with _ => _ end) => destruct x
  end.

Section Keeping.

Context {W : Collaborators}.

Lemma by_command_still on_left on_right w command s :
  self_of (by_command on_left on_right w command s) = s.
Proof. destruct command; reflexivity. Qed.

Lemma step_keeps_configuration ego_vehicle inp v :
  preserves (fun s => episode_configuration s = v) (step ego_vehicle inp).
Proof.
  unfold step, step_locals, _is_lane_aligned, _get_progress_change,
    _calc_progress_change.
  cbv zeta.
  repeat first [ keeps_step
               | apply preserves_still; intro; apply by_command_still
               | assumption ].
Qed.

Lemma emits_bind {A B} (Q : Call -> Prop) (m : M A) (f : A -> M B) :
  emits Q m -> (forall a, emits Q (f a)) -> emits Q (bind m f).
Proof.
  intros Hm Hf s. specialize (Hm s). unfold bind.
  destruct (m s) as [[[a|e] s1] t1]; unfold calls_of in *; cbn [fst snd] in *.
  - specialize (Hf a s1). unfold calls_of in Hf.
    destruct (f a s1) as [[o s2] t2]. cbn [snd] in *.
    apply Forall_app. split; assumption.
  - exact Hm.
Qed.

Lemma emits_silent {A} (Q : Call -> Prop) (m : M A) :
  (forall s, calls_of (m s) = []) -> emits Q m.
Proof. intros E s. rewrite E. constructor. Qed.

Lemma attr_silent {A} (f : Self -> option A) s : calls_of (attr f s) = [].
Proof. unfold attr. destruct (f s); reflexivity. Qed.

Lemma operand_silent {A} (f : Self -> option A) s : calls_of (operand f s) = [].
Proof. unfold operand. destruct (f s); reflexivity. Qed.

Ltac emits_step :=
  lazymatch goal with
  | |- emits _ (bind _ _) => apply emits_bind; [|intro]
  | |- emits _ (attr _) => apply emits_silent; intro; apply attr_silent
  | |- emits _ (operand _) => apply emits_silent; intro; apply operand_silent
  | |- emits _ (assign _) => apply emits_silent; reflexivity
  | |- emits _ (read _) => apply emits_silent; reflexivity
  | |- emits _ (ret _) => apply emits_silent; reflexivity
  | |- emits _ (call _) => intro; repeat constructor
  | |- emits _ (if ?b then _ else _) => destruct b
  | |- emits _ (match ?x with _ => _ end) => destruct x
  end.

Lemma is_lane_aligned_keeps_counter_nonneg ego_transform waypoint :
  preserves counter_nonneg (_is_lane_aligned ego_transform waypoint).
Proof.
  intros s (c & C & P).
  destruct (aligned_with_target_lane ego_transform waypoint) eqn:A.
  - rewrite (is_lane_aligned_hit _ _ _ _ A C). exists (c + 1)%Z. split; [reflexivity|lia].
  - rewrite (is_lane_aligned_miss _ _ _ A). exists 0%Z. split; [reflexivity|lia].
Qed.

Lemma calc_progress_change_keeps_total T c sw tw loc :
  preserves (total_fixed T c) (_calc_progress_change sw tw loc).
Proof.
  unfold _calc_progress_change. cbv zeta.
  repeat first [ keeps_step | assumption ].
Qed.

Lemma get_progress_change_keeps_total T c ego :
  preserves (total_fixed T c) (_get_progress_change ego).
Proof.
  intros s P. pose proof P as [HT Hc]. unfold _get_progress_change. run.
  destruct (_start_lane_waypoint s) as [sl|]; [|exact P]. run.
  destruct (_target_lane_waypoint s) as [tl|]; [|exact P]. run.
  rewrite HT. run.
  match goal with
  | |- total_fixed T c (self_of (?k s)) =>
      assert (K : preserves (total_fixed T c) k);
      [|exact (K s P)]
  end.
  repeat first [ keeps_step
               | apply calc_progress_change_keeps_total
               | apply preserves_still; intro; apply by_command_still ].
Qed.

Lemma get_progress_change_keeps_counter_nonneg ego :
  preserves counter_nonneg (_get_progress_change ego).
Proof.
  unfold _get_progress_change, _calc_progress_change. cbv zeta.
  repeat first [ keeps_step
               | apply preserves_still; intro; apply by_command_still
               | assumption ].
Qed.

(** X1 -- the total distance is fixed for the episode.  Once the total
    distance and the checkpoint distance are set, no progress query and no
    step changes them, whether the call returns or raises. *)
Theorem total_distance_fixed (T c : Q) (ego_vehicle : Vehicle) (inp : StepInput)
    (s : Self) :
  total_fixed T c s ->
  total_fixed T c (self_of (_get_progress_change (get_transform ego_vehicle) s))
  /\ total_fixed T c (self_of (step ego_vehicle inp s)).
Proof.
  intro P. split.
  - apply get_progress_change_keeps_total. exact P.
  - revert s P. change (preserves (total_fixed T c) (step ego_vehicle inp)).
    unfold step, step_locals, _is_lane_aligned. cbv zeta.
    repeat first [ apply get_progress_change_keeps_total
                 | keeps_step
                 | assumption ].
Qed.

(** X2 -- what a step leaves alone.  Whether it returns or raises, [step]
    changes nothing of the episode's configuration (recording, handles,
    monitor, list of instants, selected maneuver, start and target lane,
    dataset, mode, reward type), and the only calls it makes are stepping
    the recording, stepping the background traffic and asking the
    monitor. *)
Theorem step_leaves_configuration (ego_vehicle : Vehicle) (inp : StepInput) (s : Self) :
  episode_configuration (self_of (step ego_vehicle inp s)) = episode_configuration s
  /\ Forall frame_call (calls_of (step ego_vehicle inp s)).
Proof.
  split.
  - apply (step_keeps_configuration ego_vehicle inp (episode_configuration s) s).
    reflexivity.
  - revert s. change (emits frame_call (step ego_vehicle inp)).
    unfold step, step_locals, _is_lane_aligned. cbv zeta.
    repeat first [ emits_step
                 | apply emits_silent; intro;
                   apply (proj2 (get_progress_change_frame _ _)) ].
Qed.

(** X3 -- the counter is a count.  A counter that is set and not negative
    stays so across every step, returned or raised; and after a step that
    returns it is positive exactly when the frame was aligned with the
    waypoint of the lane the agent is in. *)
Theorem counter_counts (ego_vehicle : Vehicle) (inp : StepInput) (s : Self) :
  counter_nonneg s ->
  counter_nonneg (self_of (step ego_vehicle inp s))
  /\ forall r s2 t,
       step ego_vehicle inp s = (Ret r, s2, t) ->
       ((0 < info_target_alignment_counter (info r))%Z
        <-> aligned_with_target_lane (get_transform ego_vehicle)
              (get_waypoint (location (get_transform ego_vehicle))) = true).
Proof.
  intro P. split.
  - revert s P. change (preserves counter_nonneg (step ego_vehicle inp)).
    unfold step, step_locals. cbv zeta.
    repeat first [ apply get_progress_change_keeps_counter_nonneg
                 | apply is_lane_aligned_keeps_counter_nonneg
                 | keeps_step
                 | assumption ].
  - intros r s2 t R. destruct P as (c & C & P).
    destruct (step_inv _ _ _ _ _ _ R)
      as (locals & s' & lc & c' & RL & -> & _ & C' & _ & _ & _ & Ic).
    destruct (counter_after_step_locals _ _ _ _ _ _ RL) as [K _].
    rewrite C', C in K. rewrite Ic.
    destruct (aligned_with_target_lane (get_transform ego_vehicle)
                (get_waypoint (location (get_transform ego_vehicle))));
      cbn [option_map] in K; injection K as ->; split; intro; try lia; try reflexivity;
      discriminate.
Qed.

End Keeping.

(** ** [close] *)

Section Closing.

Context {W : Collaborators}.

Lemma close_run (s : Self) :
  close s
  = (Ret tt,
     set_ngsim_recording None
       (set_lane_change None
          (set_lane_change_instants []
             (set_ngsim_vehicles_in_carla None (set_early_stop_monitor None s)))),
     release_monitor s ++ release_vehicles s).
Proof.
  unfold close, release_monitor, release_vehicles. run.
  destruct (_early_stop_monitor s) as [m|] eqn:Em; run;
    cbn [_ngsim_vehicles_in_carla set_early_stop_monitor];
    destruct (_ngsim_vehicles_in_carla s) as [v|] eqn:Ev; run;
    unfold assign, after_calls, result_of, self_of, calls_of; cbn [fst snd app];
    f_equal; f_equal; destruct s; cbn in *; subst; reflexivity.
Qed.

(** X4 -- [close] releases each handle once and is idempotent.  [close]
    always returns; it closes the monitor and the background traffic if
    and only if the object holds them, monitor first, and leaves the
    object without monitor, traffic, recording, selected maneuver or
    instants.  A second [close] makes no call and changes nothing. *)
Theorem close_releases_once (s : Self) :
  result_of (close s) = Ret tt
  /\ calls_of (close s) = release_monitor s ++ release_vehicles s
  /\ _early_stop_monitor (self_of (close s)) = None
  /\ _ngsim_vehicles_in_carla (self_of (close s)) = None
  /\ _ngsim_recording (self_of (close s)) = None
  /\ _lane_change (self_of (close s)) = None
  /\ _lane_change_instants (self_of (close s)) = []
  /\ close (self_of (close s)) = (Ret tt, self_of (close s), []).
Proof.
  rewrite (close_run s). unfold result_of, self_of, calls_of. cbn [fst snd].
  repeat split.
Qed.

Lemma step_without_recording ego_vehicle inp s :
  _ngsim_recording s = None ->
  step ego_vehicle inp s = (Raise AttributeError, s, []).
Proof.
  intro E. unfold step, step_locals. run. rewrite E. reflexivity.
Qed.

Lemma reset_without_instants vehicle inp s :
  _ngsim_vehicles_in_carla s = None ->
  _early_stop_monitor s = None ->
  _lane_change_instants s = [] ->
  reset vehicle inp s
  = (Raise IndexError,
     set_early_stop_monitor
       (Some {| timeout_s :=
                  inject_Z (FRAMES_BEFORE_MANUVEUR + FRAMES_AFTER_MANUVEUR) * DT |})
       (set_ngsim_vehicles_in_carla (Some VehiclesInCarla) s),
     [VehiclesInCarla_new;
      EarlyStopMonitor_new
        (inject_Z (FRAMES_BEFORE_MANUVEUR + FRAMES_AFTER_MANUVEUR) * DT)]).
Proof.
  intros Ev Em Ei. unfold reset. run. rewrite Ev. run.
  cbn [_early_stop_monitor set_ngsim_vehicles_in_carla]. rewrite Em. run.
  cbn [_lane_change_instants set_early_stop_monitor set_ngsim_vehicles_in_carla].
  rewrite Ei, bind_eq, random_choice_nil. reflexivity.
Qed.

(** X5 -- a closed object cannot be used again.  After [close], every
    [step] raises [AttributeError] at once, with no call and no change.
    Every [reset] raises [IndexError], the instants being gone -- but only
    after it has created a new background-traffic handle and a new
    monitor, which stay on the object. *)
Theorem closed_object_unusable (s : Self) (vehicle ego_vehicle : Vehicle)
    (rinp : ResetInput) (sinp : StepInput) :
  step ego_vehicle sinp (self_of (close s))
  = (Raise AttributeError, self_of (close s), [])
  /\ result_of (reset vehicle rinp (self_of (close s))) = Raise IndexError
  /\ calls_of (reset vehicle rinp (self_of (close s)))
     = [VehiclesInCarla_new;
        EarlyStopMonitor_new
          (inject_Z (FRAMES_BEFORE_MANUVEUR + FRAMES_AFTER_MANUVEUR) * DT)]
  /\ _ngsim_vehicles_in_carla (self_of (reset vehicle rinp (self_of (close s))))
     = Some VehiclesInCarla
  /\ _early_stop_monitor (self_of (reset vehicle rinp (self_of (close s))))
     = Some {| timeout_s :=
                 inject_Z (FRAMES_BEFORE_MANUVEUR + FRAMES_AFTER_MANUVEUR) * DT |}.
Proof.
  rewrite (close_run s). unfold self_of. cbn [fst snd].
  split.
  - apply step_without_recording. reflexivity.
  - rewrite reset_without_instants by reflexivity. repeat split.
Qed.

End Closing.

(** ** [reset] *)

Section Resetting.

Context {W : Collaborators}.

Lemma reset_inv vehicle inp s s' t :
  reset vehicle inp s = (Ret tt, s', t) ->
  exists lc agent,
    let start :=
      get_waypoint (location (as_carla_transform (ngsim_transform agent))) in
    let timeout := inject_Z (FRAMES_BEFORE_MANUVEUR + FRAMES_AFTER_MANUVEUR) * DT in
    let velocity :=
      scale (scale (orientation (ngsim_transform agent)) (speed agent))
            PIXELS_TO_METERS in
    nth_error (_lane_change_instants s)
              (choice_index inp mod List.length (_lane_change_instants s)) = Some lc
    /\ _ngsim_recording s <> None
    /\ find_first_matching (reset_vehicles inp)
                           (fun v => Z.eqb (id v) (vehicle_id lc)) = Ret agent
    /\ chauffeur_command lc <> LANE_FOLLOW
    /\ s' = set_target_lane_waypoint
              (match chauffeur_command lc with
               | CHANGE_LANE_RIGHT => get_right_lane start
               | _ => get_left_lane start
               end)
              (set_start_lane_waypoint start
                 (set_checkpoints_distance_m None
                    (set_total_distance_m None
                       (set_previous_progress 0
                          (set_previous_chauffeur_command (chauffeur_command lc)
                             (set_target_alignment_counter 0
                                (set_lane_change (Some lc)
                                   (set_early_stop_monitor
                                      (Some {| timeout_s := timeout |})
                                      (set_ngsim_vehicles_in_carla
                                         (Some VehiclesInCarla) s)))))))))
    /\ t = release_vehicles s ++ [VehiclesInCarla_new] ++ release_monitor s
           ++ [EarlyStopMonitor_new timeout;
               NGSimRecording_reset (timeslot lc) (frame_manuveur_start lc - 1);
               NGSimRecording_step;
               Vehicle_set_transform (as_carla_transform (ngsim_transform agent));
               Vehicle_set_velocity
                 {| vx := v2_x velocity; vy := v2_y velocity; vz := 0 |};
               VehiclesInCarla_step (others_than lc (reset_vehicles inp))].
Proof.
  unfold reset, release_vehicles, release_monitor. run.
  destruct (_ngsim_vehicles_in_carla s) as [v0|]; run;
    cbn [_early_stop_monitor set_ngsim_vehicles_in_carla];
    destruct (_early_stop_monitor s) as [m0|]; run;
    cbn [_lane_change_instants set_early_stop_monitor set_ngsim_vehicles_in_carla];
    rewrite bind_eq;
    match goal with
    | |- context [random_choice ?i ?l ?s0] =>
        destruct (random_choice i l s0) as [[[lc|e] s1] t1] eqn:C;
        [ destruct (random_choice_In _ _ _ _ _ _ C) as (Nth & _ & -> & ->)
        | cbn [result_of self_of calls_of fst snd]; unfold after_calls;
          cbn [result_of self_of calls_of fst snd]; intro X; discriminate X ]
    end;
    cbn [result_of self_of calls_of fst snd]; rewrite after_calls_nil; run;
    cbn [_ngsim_recording set_checkpoints_distance_m set_total_distance_m
         set_previous_progress set_previous_chauffeur_command
         set_target_alignment_counter set_lane_change set_early_stop_monitor
         set_ngsim_vehicles_in_carla];
    (destruct (_ngsim_recording s) as [rec|] eqn:Er;
     [|unfold after_calls; cbn [result_of self_of calls_of fst snd];
       intro X; discriminate X]);
    run;
    (destruct (find_first_matching (reset_vehicles inp)
                 (fun v => Z.eqb (id v) (vehicle_id lc))) as [agent|e] eqn:Ef;
     [|unfold after_calls; cbn [result_of self_of calls_of fst snd];
       intro X; discriminate X]);
    run; unfold by_command;
    (destruct (chauffeur_command lc) eqn:Ec; run;
     unfold after_calls, call, raise; cbn [result_of self_of calls_of fst snd app];
     intro X; [discriminate X| |];
     injection X as <- <-; exists lc, agent; cbv zeta;
     repeat split; rewrite ?Ec; congruence || reflexivity).
Qed.

(** X6 -- [reset] reseeds the episode.  A [reset] that returns has selected
    one of the object's instants and discarded whatever the previous
    episode left: the counter and the previous progress are 0, the total
    and checkpoint distances are unset and the previous command is the
    maneuver's.  The start lane is the waypoint of the map at the place of
    the recorded agent -- the first vehicle of the recording's frame that
    matches the maneuver's vehicle id, not the vehicle handed to [reset]
    -- and the target lane is that waypoint's neighbour on the commanded
    side; the list of instants and the recording are as before. *)
Theorem reset_reseeds (vehicle : Vehicle) (inp : ResetInput) (s s' : Self)
    (t : list Call) :
  reset vehicle inp s = (Ret tt, s', t) ->
  exists lc agent,
    _lane_change s' = Some lc
    /\ In lc (_lane_change_instants s)
    /\ _target_alignment_counter s' = Some 0%Z
    /\ _previous_progress s' = Some 0
    /\ _total_distance_m s' = None
    /\ _checkpoints_distance_m s' = None
    /\ _previous_chauffeur_command s' = Some (chauffeur_command lc)
    /\ find_first_matching (reset_vehicles inp)
                           (fun v => Z.eqb (id v) (vehicle_id lc)) = Ret agent
    /\ _start_lane_waypoint s'
       = Some (get_waypoint (location (as_carla_transform (ngsim_transform agent))))
    /\ (chauffeur_command lc = CHANGE_LANE_LEFT
           /\ _target_lane_waypoint s'
              = get_left_lane
                  (get_waypoint (location (as_carla_transform (ngsim_transform agent))))
        \/ chauffeur_command lc = CHANGE_LANE_RIGHT
           /\ _target_lane_waypoint s'
              = get_right_lane
                  (get_waypoint (location (as_carla_transform (ngsim_transform agent)))))
    /\ _lane_change_instants s' = _lane_change_instants s
    /\ _ngsim_recording s' = _ngsim_recording s.
Proof.
  intro R. destruct (reset_inv _ _ _ _ _ R) as (lc & agent & I). cbv zeta in I.
  destruct I as (Nth & _ & Fm & Nf & -> & _).
  exists lc, agent.
  repeat split; try reflexivity.
  - eapply nth_error_In; eauto.
  - exact Fm.
  - cbn. destruct (chauffeur_command lc); [congruence|left|right]; split; reflexivity.
Qed.

(** X7 -- the order of [reset]'s calls.  A [reset] that returns closes the
    background traffic it held before creating the new one, then closes
    the monitor it held before creating the new one with timeout
    (FRAMES_BEFORE_MANUVEUR + FRAMES_AFTER_MANUVEUR) * DT; it then resets
    and steps the recording, places the vehicle and sets its velocity,
    and last hands the background traffic the recorded vehicles, none of
    which has the id of the selected maneuver's vehicle. *)
Theorem reset_call_order (vehicle : Vehicle) (inp : ResetInput) (s s' : Self)
    (t : list Call) :
  reset vehicle inp s = (Ret tt, s', t) ->
  exists lc placed velocity others,
    _lane_change s' = Some lc
    /\ t = release_vehicles s ++ [VehiclesInCarla_new] ++ release_monitor s
           ++ [EarlyStopMonitor_new
                 (inject_Z (FRAMES_BEFORE_MANUVEUR + FRAMES_AFTER_MANUVEUR) * DT);
               NGSimRecording_reset (timeslot lc) (frame_manuveur_start lc - 1);
               NGSimRecording_step;
               Vehicle_set_transform placed;
               Vehicle_set_velocity velocity;
               VehiclesInCarla_step others]
    /\ others = others_than lc (reset_vehicles inp)
    /\ Forall (fun v => id v <> vehicle_id lc) others.
Proof.
  intro R. destruct (reset_inv _ _ _ _ _ R) as (lc & agent & I). cbv zeta in I.
  destruct I as (_ & _ & _ & _ & -> & ->).
  do 4 eexists. split; [reflexivity|]. split; [reflexivity|]. split; [reflexivity|].
  apply Forall_forall. intros v Hv. apply filter_In in Hv. destruct Hv as [_ Hv].
  apply negb_true_iff, Z.eqb_neq in Hv. exact Hv.
Qed.

(** X8 -- the selected maneuver belongs to the requested mode.  On an
    object whose instants are those of a recording that fall in its
    dataset mode, as [__init__] leaves them, a [reset] that returns has
    selected an instant of that recording whose partition is the object's
    mode, and kept the list, so that the same holds of every later
    [reset]. *)
Theorem selected_maneuver_in_mode (vehicle : Vehicle) (inp : ResetInput)
    (s s' : Self) (t : list Call) (recording : NGSimRecording) :
  _lane_change_instants s
  = filter (fun lci => DatasetMode_eqb (determine_split lci) (_dataset_mode s))
           (lane_change_instants recording) ->
  reset vehicle inp s = (Ret tt, s', t) ->
  exists lc,
    _lane_change s' = Some lc
    /\ In lc (lane_change_instants recording)
    /\ determine_split lc = _dataset_mode s'
    /\ _lane_change_instants s'
       = filter (fun lci => DatasetMode_eqb (determine_split lci) (_dataset_mode s'))
                (lane_change_instants recording).
Proof.
  intros F R. destruct (reset_inv _ _ _ _ _ R) as (lc & agent & I). cbv zeta in I.
  destruct I as (Nth & _ & _ & _ & -> & _).
  apply nth_error_In in Nth. rewrite F in Nth. apply filter_In in Nth.
  destruct Nth as [In1 D]. apply DatasetMode_eqb_eq in D.
  exists lc. repeat split; assumption.
Qed.

Lemma step_without_target ego_vehicle inp s :
  _target_lane_waypoint s = None ->
  result_of (step ego_vehicle inp s) = Raise AttributeError
  /\ self_of (step ego_vehicle inp s) = s.
Proof.
  intro Ht.
  assert (L : exists t, step_locals ego_vehicle inp s = (Raise AttributeError, s, t)).
  { unfold step_locals. run.
    destruct (_ngsim_recording s); [|eexists; reflexivity]. run.
    destruct (step_vehicles inp); run.
    - destruct (_ngsim_vehicles_in_carla s); [|eexists; reflexivity]. run.
      destruct (_start_lane_waypoint s); [|eexists; reflexivity]. run.
      rewrite Ht. eexists. reflexivity.
    - destruct (_lane_change s); [|eexists; reflexivity]. run.
      destruct (_ngsim_vehicles_in_carla s); [|eexists; reflexivity]. run.
      destruct (_start_lane_waypoint s); [|eexists; reflexivity]. run.
      rewrite Ht. eexists. reflexivity. }
  destruct L as [t L]. unfold step. rewrite (bind_raise _ _ _ _ _ _ L).
  split; reflexivity.
Qed.

(** X9 -- a start lane with no neighbour on the commanded side.  [reset]
    does not check the target lane: where the start lane has no lane on
    the commanded side it still returns, with the target lane [None], and
    every [step] of that episode raises [AttributeError], leaving the
    object as it was. *)
Theorem missing_neighbour_lane (vehicle ego_vehicle : Vehicle) (rinp : ResetInput)
    (sinp : StepInput) (s s' : Self) (t : list Call) :
  reset vehicle rinp s = (Ret tt, s', t) ->
  (forall lc start,
     _lane_change s' = Some lc -> _start_lane_waypoint s' = Some start ->
     (chauffeur_command lc = CHANGE_LANE_LEFT -> get_left_lane start = None)
     /\ (chauffeur_command lc = CHANGE_LANE_RIGHT -> get_right_lane start = None)) ->
  _target_lane_waypoint s' = None
  /\ result_of (step ego_vehicle sinp s') = Raise AttributeError
  /\ self_of (step ego_vehicle sinp s') = s'.
Proof.
  intros R N.
  assert (Ht : _target_lane_waypoint s' = None).
  { destruct (reset_inv _ _ _ _ _ R) as (lc & agent & I). cbv zeta in I.
    destruct I as (_ & _ & _ & Nf & -> & _).
    destruct (N _ _ eq_refl eq_refl) as [Nl Nr]. cbn.
    destruct (chauffeur_command lc); [congruence|apply Nl|apply Nr]; reflexivity. }
  split; [exact Ht|]. apply step_without_target. exact Ht.
Qed.

(** X10 -- an instant that is not a lane change.  When the drawn instant's
    command is neither change-left nor change-right, [reset] raises
    [KeyError] at the lookup of the target lane -- after the maneuver was
    selected, the recording reset and stepped and the vehicle placed, and
    before the background traffic is stepped. *)
Theorem reset_unknown_command (vehicle : Vehicle) (inp : ResetInput) (s : Self)
    (lc : LaneChangeInstant) (recording : NGSimRecording) (agent : NGSimVehicle) :
  nth_error (_lane_change_instants s)
            (choice_index inp mod List.length (_lane_change_instants s)) = Some lc ->
  chauffeur_command lc = LANE_FOLLOW ->
  _ngsim_recording s = Some recording ->
  find_first_matching (reset_vehicles inp) (fun v => Z.eqb (id v) (vehicle_id lc))
  = Ret agent ->
  result_of (reset vehicle inp s) = Raise KeyError
  /\ _lane_change (self_of (reset vehicle inp s)) = Some lc
  /\ _target_lane_waypoint (self_of (reset vehicle inp s)) = _target_lane_waypoint s
  /\ In (Vehicle_set_transform (as_carla_transform (ngsim_transform agent)))
        (calls_of (reset vehicle inp s))
  /\ forall vs, ~ In (VehiclesInCarla_step vs) (calls_of (reset vehicle inp s)).
Proof.
  intros Nth Ec Er Ef.
  assert (C : forall s0, random_choice (choice_index inp) (_lane_change_instants s) s0
                         = (Ret lc, s0, [])).
  { intro s0. unfold random_choice. rewrite Nth. reflexivity. }
  unfold reset. run.
  destruct (_ngsim_vehicles_in_carla s); run;
    cbn [_early_stop_monitor set_ngsim_vehicles_in_carla];
    destruct (_early_stop_monitor s); run;
    cbn [_lane_change_instants set_early_stop_monitor set_ngsim_vehicles_in_carla];
    rewrite bind_eq, C; cbn [result_of self_of calls_of fst snd];
    rewrite after_calls_nil; run;
    cbn [_ngsim_recording set_checkpoints_distance_m set_total_distance_m
         set_previous_progress set_previous_chauffeur_command
         set_target_alignment_counter set_lane_change set_early_stop_monitor
         set_ngsim_vehicles_in_carla];
    rewrite Er; run; rewrite Ef; run; unfold by_command; rewrite Ec; run;
    unfold calls_of, self_of, result_of; cbn;
    (repeat split; auto 10; intros vs X; intuition discriminate).
Qed.

End Resetting.

(** ** More of [step] *)

Section Stepping.

Context {W : Collaborators}.

Lemma step_locals_traffic ego_vehicle inp s locals s' t lc :
  step_locals ego_vehicle inp s = (Ret locals, s', t) ->
  _lane_change s = Some lc ->
  exists rest,
    t = NGSimRecording_step
        :: VehiclesInCarla_step (others_than lc (step_vehicles inp)) :: rest.
Proof.
  intros R Hl. unfold step_locals in R. inv_ret R. subst.
  assert (V : a1 = others_than lc (step_vehicles inp) /\ t4 = []).
  { destruct (step_vehicles inp) as [|v vs]; inv_ret R6; subst.
    - split; reflexivity.
    - match goal with
      | X : _lane_change s = Some ?x |- context [vehicle_id ?x] =>
          assert (x = lc) by congruence; subst x
      end.
      split; reflexivity. }
  destruct V as [-> ->]. cbn [app]. eexists. reflexivity.
Qed.

Lemma total_after_settling s tl ego :
  exists T, _total_distance_m (with_total_distance s tl ego) = Some T.
Proof.
  unfold with_total_distance.
  destruct (_total_distance_m s) eqn:E; eexists; [exact E|reflexivity].
Qed.

Lemma get_progress_change_off s sl tl ego :
  _start_lane_waypoint s = Some sl ->
  _target_lane_waypoint s = Some tl ->
  off_lanes sl tl ego ->
  _get_progress_change ego s = (Ret 0, with_total_distance s tl ego, []).
Proof.
  intros Hs Ht O. rewrite (get_progress_change_settled s sl tl ego Hs Ht).
  destruct (total_after_settling s tl ego) as [T HT].
  apply (get_progress_change_off_lanes_run _ sl tl T); auto;
    unfold with_total_distance; destruct (_total_distance_m s); assumption.
Qed.

(** X11 -- what a step hands on.  A step that returns steps the recording
    once, then hands the background traffic exactly the recorded vehicles
    other than the maneuver's own, in their order, then asks the monitor
    once unless the step succeeded; it makes no other call. *)
Theorem step_forwards_others (ego_vehicle : Vehicle) (inp : StepInput)
    (s s2 : Self) (r : ScenarioStepResult) (t : list Call) :
  step ego_vehicle inp s = (Ret r, s2, t) ->
  exists lc locals s',
    _lane_change s = Some lc
    /\ step_locals ego_vehicle inp s = (Ret locals, s', t)
    /\ t = step_calls (others_than lc (step_vehicles inp)) (get_transform ego_vehicle)
                      (scenario_finished_with_success locals)
    /\ Forall (fun v => id v <> vehicle_id lc) (others_than lc (step_vehicles inp)).
Proof.
  intro R.
  destruct (step_inv _ _ _ _ _ _ R) as (locals & s' & lc & c & RL & _ & Hl & _).
  destruct (step_locals_frame _ _ _ _ _ _ RL) as (c' & F).
  apply (f_equal _lane_change) in F. cbn in F. rewrite Hl in F. symmetry in F.
  destruct (step_locals_traffic _ _ _ _ _ _ _ RL F) as (rest & Et).
  destruct (step_locals_inv _ _ _ _ _ _ RL)
    as (sl & tl & aligned & s1 & pc & others & I). cbv zeta in I.
  destruct I as (_ & _ & _ & _ & _ & _ & S & _ & _ & _ & _ & _ & _ & T).
  exists lc, locals, s'. split; [exact F|]. split; [exact RL|]. split.
  - rewrite T in Et. unfold step_calls in Et. injection Et as E1 _.
    rewrite T, S, E1. reflexivity.
  - apply Forall_forall. intros v Hv. apply filter_In in Hv. destruct Hv as [_ Hv].
    apply negb_true_iff, Z.eqb_neq in Hv. exact Hv.
Qed.

(** X12 -- leaving both expected lanes.  A step that returns with the
    agent on neither the start nor the target lane is an early stop
    whatever the monitor answers and whatever the reward type: [done] is
    true, the reward is exactly -1, the advisory command is LANE_FOLLOW,
    the monitor is still asked, and the previous progress is untouched. *)
Theorem off_lanes_step_stops (ego_vehicle : Vehicle) (inp : StepInput)
    (s s2 : Self) (r : ScenarioStepResult) (t : list Call) (sl tl : Waypoint) :
  step ego_vehicle inp s = (Ret r, s2, t) ->
  _start_lane_waypoint s = Some sl ->
  _target_lane_waypoint s = Some tl ->
  off_lanes sl tl (get_transform ego_vehicle) ->
  done r = true
  /\ reward r == -1
  /\ result_chauffeur_command r = LANE_FOLLOW
  /\ In (EarlyStopMonitor_call (get_transform ego_vehicle)) t
  /\ _previous_progress s2 = _previous_progress s.
Proof.
  intros R Hs Ht O. pose proof O as [O1 O2]. cbv zeta in O1, O2.
  destruct (step_inv _ _ _ _ _ _ R)
    as (locals & s' & lc & c & RL & -> & _ & _ & Cm & Rw & Dn & _).
  destruct (step_locals_inv _ _ _ _ _ _ RL)
    as (sl' & tl' & aligned & s1 & pc & others & I). cbv zeta in I.
  destruct I as (Hs' & Ht' & _ & _ & A & G & S & E & D & Lw & C & _ & _ & T).
  rewrite Hs in Hs'. injection Hs' as <-. rewrite Ht in Ht'. injection Ht' as <-.
  rewrite O1, O2 in *. cbn [andb orb negb] in *.
  destruct (is_lane_aligned_inv _ _ _ _ _ _ A) as (c' & -> & _).
  rewrite (get_progress_change_off (set_target_alignment_counter c' s) sl tl _
             Hs Ht O) in G.
  injection G as <- <-.
  rewrite orb_true_r in *.
  repeat split.
  - congruence.
  - rewrite Rw, Lw. cbn [Py.of_bool]. ring.
  - congruence.
  - rewrite T. unfold step_calls. cbn. auto.
  - cbn [_previous_progress set_previous_chauffeur_command].
    unfold with_total_distance.
    destruct (_total_distance_m (set_target_alignment_counter c' s)); reflexivity.
Qed.

(** X13 -- the sparse reward.  With a reward type other than DENSE a step
    that returns is exactly one of: a success, not an early stop, [done],
    reward 1; an early stop, not a success, [done], reward -1; neither,
    not [done], reward 0.  The progress is tracked all the same. *)
Theorem sparse_reward_values (ego_vehicle : Vehicle) (inp : StepInput)
    (s s2 : Self) (r : ScenarioStepResult) (t : list Call) :
  step ego_vehicle inp s = (Ret r, s2, t) ->
  _reward_type s = SPARSE ->
  exists locals s' pc,
    step_locals ego_vehicle inp s = (Ret locals, s', t)
    /\ result_of (_get_progress_change (get_transform ego_vehicle)
                    (self_of (_is_lane_aligned (get_transform ego_vehicle)
                                (get_waypoint (location (get_transform ego_vehicle)))
                                s))) = Ret pc
    /\ (scenario_finished_with_success locals = true /\ early_stop locals = false
          /\ done r = true /\ reward r == 1
        \/ scenario_finished_with_success locals = false /\ early_stop locals = true
          /\ done r = true /\ reward r == -1
        \/ scenario_finished_with_success locals = false /\ early_stop locals = false
          /\ done r = false /\ reward r == 0).
Proof.
  intros R Sp.
  destruct (step_inv _ _ _ _ _ _ R)
    as (locals & s' & lc & c & RL & -> & _ & _ & _ & Rw & Dn & _).
  destruct (step_locals_inv _ _ _ _ _ _ RL)
    as (sl & tl & aligned & s1 & pc & others & I). cbv zeta in I.
  destruct I as (_ & _ & _ & _ & A & G & S & E & D & Lw & _).
  exists locals, s', pc. split; [exact RL|]. split.
  - rewrite A. unfold self_of. cbn [fst snd]. rewrite G. reflexivity.
  - rewrite Sp in Lw. cbn [RewardType_eqb Py.of_bool] in Lw.
    rewrite Dn, D, Rw, Lw, S, E.
    remember (early_stop_monitor_says inp
              || negb (Z.eqb (lane_id (get_waypoint (location (get_transform ego_vehicle))))
                             (lane_id sl)
                       || Z.eqb (lane_id (get_waypoint (location (get_transform ego_vehicle))))
                                (lane_id tl))) as st.
    destruct (Z.eqb (lane_id (get_waypoint (location (get_transform ego_vehicle))))
                    (lane_id tl) && aligned); cbn [negb andb orb Py.of_bool].
    + left. repeat split; try ring.
    + destruct st; cbn [Py.of_bool].
      * right. left. repeat split; try ring.
      * right. right. repeat split; try ring.
Qed.

End Stepping.

(** ** More of the progress scorer *)

Section Scoring.

Context {W : Collaborators}.

Lemma off_lanes_unresolved command sl tl e :
  off_lanes sl tl e -> resolved_waypoints command sl tl e = None.
Proof.
  intros [O1 O2]. cbv zeta in O1, O2. unfold resolved_waypoints.
  cbv zeta. rewrite O1, O2. reflexivity.
Qed.

(** X14 -- the scorer keeps no memory of the frames it has seen.  In an
    episode whose total distance is fixed, a run of progress queries over
    frames that are each on an expected lane with its neighbour present,
    or off both lanes, returns one change per frame and makes no call;
    the progress stored at its end is the progress of the last frame on
    an expected lane alone (the stored progress of before if there is
    none), whatever the earlier frames were: an earlier overshoot or
    retreat leaves no trace. *)
Theorem progress_follows_last_frame (s : Self) (sl tl : Waypoint)
    (lc : LaneChangeInstant) (T c p : Q) (frames : list Transform) :
  scoring s sl tl lc T c ->
  _previous_progress s = Some p ->
  Forall (fun e => (exists sw tw,
                      resolved_waypoints (chauffeur_command lc) sl tl e = Some (sw, tw))
                   \/ off_lanes sl tl e) frames ->
  exists ds s',
    progress_run frames s = (Ret ds, s', [])
    /\ List.length ds = List.length frames
    /\ _previous_progress s'
       = Some (last_progress T c (chauffeur_command lc) sl tl frames p)
    /\ scoring s' sl tl lc T c.
Proof.
  intros S Hp F. revert s p S Hp.
  induction F as [|e rest [(sw & tw & R)|O] _ IH]; intros s p S Hp.
  - exists [], s. repeat split; assumption || apply S.
  - pose proof (get_progress_change_on_lanes s sl tl lc T c p e sw tw S Hp R) as G.
    destruct (IH (set_previous_progress (progress_at T c sw tw (location e)) s)
                 (progress_at T c sw tw (location e))
                 (scoring_set_previous_progress _ _ _ _ _ _ _ S) eq_refl)
      as (ds & s' & Rn & L & P & S').
    exists ((progress_at T c sw tw (location e) - p) :: ds), s'.
    cbn [progress_run]. rewrite (bind_run _ _ _ _ _ _ G), (bind_run _ _ _ _ _ _ Rn).
    split; [reflexivity|]. split; [cbn [List.length]; rewrite L; reflexivity|].
    split; [|exact S'].
    unfold last_progress. cbn [fold_left]. rewrite R. exact P.
  - pose proof (get_progress_change_off_lanes s sl tl lc T c e S O) as G.
    destruct (IH s p S Hp) as (ds & s' & Rn & L & P & S').
    exists (0 :: ds), s'.
    cbn [progress_run]. rewrite (bind_run _ _ _ _ _ _ G), (bind_run _ _ _ _ _ _ Rn).
    split; [reflexivity|]. split; [cbn [List.length]; rewrite L; reflexivity|].
    split; [|exact S'].
    unfold last_progress. cbn [fold_left].
    rewrite (off_lanes_unresolved _ _ _ _ O). exact P.
Qed.

Lemma Qeq_bool_true (c : Q) : c == 0 -> Qeq_bool c 0 = true.
Proof. intro E. apply Qeq_bool_iff. exact E. Qed.

Lemma calc_progress_change_zero sw tw loc s T c :
  _total_distance_m s = Some T ->
  _checkpoints_distance_m s = Some c ->
  c == 0 ->
  _calc_progress_change (Some sw) (Some tw) loc s = (Raise ZeroDivisionError, s, []).
Proof.
  intros HT Hc Z. unfold _calc_progress_change. run.
  rewrite HT. run. rewrite Hc. run. rewrite (Qeq_bool_true _ Z). reflexivity.
Qed.

Lemma get_progress_change_zero s sl tl lc T c ego sw tw :
  _start_lane_waypoint s = Some sl ->
  _target_lane_waypoint s = Some tl ->
  _lane_change s = Some lc ->
  _total_distance_m s = Some T ->
  _checkpoints_distance_m s = Some c ->
  c == 0 ->
  resolved_waypoints (chauffeur_command lc) sl tl ego = Some (sw, tw) ->
  _get_progress_change ego s = (Raise ZeroDivisionError, s, []).
Proof.
  intros Hs Ht Hl HT Hc Z R.
  unfold _get_progress_change. run. rewrite Hs. run. rewrite Ht. run.
  rewrite HT. run. unfold resolved_waypoints in R. cbv zeta in R.
  destruct (Z.eqb (lane_id (get_waypoint (location ego))) (lane_id sl)).
  - run. rewrite Hl. run. unfold by_command.
    destruct (chauffeur_command lc); try discriminate; run;
      match type of R with option_map _ ?x = _ => destruct x; [|discriminate] end;
      cbn [option_map] in R; injection R as <- <-;
      apply (calc_progress_change_zero _ _ _ _ T c); assumption.
  - destruct (Z.eqb (lane_id (get_waypoint (location ego))) (lane_id tl));
      [|discriminate].
    run. rewrite Hl. run. unfold by_command.
    destruct (chauffeur_command lc); try discriminate; run;
      match type of R with option_map _ ?x = _ => destruct x; [|discriminate] end;
      cbn [option_map] in R; injection R as <- <-;
      apply (calc_progress_change_zero _ _ _ _ T c); assumption.
Qed.

(** X15 -- a total distance of zero.  If the first progress query of an
    episode finds the agent, on the start or target lane, at distance 0
    from the target lane's waypoint, the query raises
    [ZeroDivisionError]; the zero total distance stays stored, so every
    later query from a start-lane or target-lane frame raises it too. *)
Theorem zero_total_distance_raises (s : Self) (sl tl : Waypoint)
    (lc : LaneChangeInstant) (ego later : Transform) (sw tw sw' tw' : Waypoint) :
  _start_lane_waypoint s = Some sl ->
  _target_lane_waypoint s = Some tl ->
  _lane_change s = Some lc ->
  _total_distance_m s = None ->
  distance (location ego) (location (transform tl)) == 0 ->
  resolved_waypoints (chauffeur_command lc) sl tl ego = Some (sw, tw) ->
  resolved_waypoints (chauffeur_command lc) sl tl later = Some (sw', tw') ->
  result_of (_get_progress_change ego s) = Raise ZeroDivisionError
  /\ _total_distance_m (self_of (_get_progress_change ego s))
     = Some (distance (location ego) (location (transform tl)))
  /\ result_of (_get_progress_change later (self_of (_get_progress_change ego s)))
     = Raise ZeroDivisionError.
Proof.
  intros Hs Ht Hl HT D R R'.
  assert (Z : distance (location ego) (location (transform tl)) / checkpoints_number == 0).
  { rewrite D. reflexivity. }
  rewrite (get_progress_change_settled s sl tl ego Hs Ht).
  unfold with_total_distance. rewrite HT. cbv zeta.
  set (s0 := set_checkpoints_distance_m _ _).
  assert (G : _get_progress_change ego s0 = (Raise ZeroDivisionError, s0, [])).
  { apply (get_progress_change_zero s0 sl tl lc _ _ ego sw tw Hs Ht Hl eq_refl eq_refl Z R). }
  rewrite G. unfold result_of, self_of. cbn [fst snd].
  split; [reflexivity|]. split; [reflexivity|].
  rewrite (get_progress_change_zero s0 sl tl lc _ _ later sw' tw' Hs Ht Hl
             eq_refl eq_refl Z R').
  reflexivity.
Qed.

Lemma int_small (x : Q) : -1 < x -> x < 1 -> Py.int x = 0%Z.
Proof.
  destruct x as [n d]. unfold Qlt, Py.int. cbn [Qnum Qden]. intros L U.
  destruct (Z_le_gt_dec 0 n) as [P|N].
  - apply Z.quot_small. lia.
  - replace n with (- (- n))%Z by lia.
    rewrite Z.quot_opp_l by lia. rewrite Z.quot_small by lia. reflexivity.
Qed.

Lemma int_at_most (x : Q) (n : Z) : (0 <= n)%Z -> x <= inject_Z n -> (Py.int x <= n)%Z.
Proof.
  intros Pn U. destruct (Qlt_le_dec x 0) as [N|P].
  - destruct x as [a d]. unfold Qlt, Py.int in *. cbn [Qnum Qden] in *.
    replace a with (- (- a))%Z by lia.
    rewrite Z.quot_opp_l by lia.
    assert (0 <= (- a) ÷ Z.pos d)%Z by (apply Z.quot_pos; lia). lia.
  - apply (int_range x n P U).
Qed.

(** X16 -- checkpoints are truncated toward zero.  While the agent's
    distance to the target waypoint differs from the total distance by
    less than one checkpoint distance, in either direction, the progress
    computed is 0: moving away from the target by less than a checkpoint
    costs nothing. *)
Theorem progress_dead_zone (s : Self) (sl tl : Waypoint) (lc : LaneChangeInstant)
    (T c p : Q) (ego : Transform) (sw tw : Waypoint) :
  scoring (with_total_distance s tl ego) sl tl lc T c ->
  _previous_progress s = Some p ->
  resolved_waypoints (chauffeur_command lc) sl tl ego = Some (sw, tw) ->
  0 < c ->
  - c < T - distance (location ego) (location (transform tw)) ->
  T - distance (location ego) (location (transform tw)) < c ->
  exists d s' q,
    _get_progress_change ego s = (Ret d, s', [])
    /\ _previous_progress s' = Some q /\ q == 0 /\ d == - p.
Proof.
  intros S Hp R Pc L U.
  destruct (scoring_settled _ _ _ _ _ _ _ S) as (Hs & Ht & Hq).
  rewrite <- Hq in Hp.
  rewrite (get_progress_change_settled s sl tl ego Hs Ht).
  rewrite (get_progress_change_on_lanes _ sl tl lc T c p ego sw tw S Hp R).
  assert (Z : progress_at T c sw tw (location ego) == 0).
  { unfold progress_at. rewrite int_small.
    - unfold checkpoints_number.
      destruct (passed_target_centerline T sw tw (location ego)); reflexivity.
    - apply Qlt_shift_div_l; [exact Pc|]. lra.
    - apply Qlt_shift_div_r; [exact Pc|]. lra. }
  do 3 eexists. split; [reflexivity|]. split; [reflexivity|].
  split; [exact Z|]. rewrite Z. ring.
Qed.

(** X17 -- progress never exceeds 1.  With a positive total distance and
    a non-negative distance to the target waypoint, the progress computed
    by a query from a start-lane or target-lane frame is at most 1,
    however far the agent is; no such bound holds from below. *)
Theorem progress_at_most_one (s : Self) (sl tl : Waypoint) (lc : LaneChangeInstant)
    (T c p : Q) (ego : Transform) (sw tw : Waypoint) :
  scoring (with_total_distance s tl ego) sl tl lc T c ->
  0 < T -> c == T / 10 ->
  _previous_progress s = Some p ->
  resolved_waypoints (chauffeur_command lc) sl tl ego = Some (sw, tw) ->
  0 <= distance (location ego) (location (transform tw)) ->
  exists d s' q,
    _get_progress_change ego s = (Ret d, s', [])
    /\ _previous_progress s' = Some q /\ q <= 1 /\ d <= 1 - p.
Proof.
  intros S PT Ec Hp R D0.
  destruct (scoring_settled _ _ _ _ _ _ _ S) as (Hs & Ht & Hq).
  rewrite <- Hq in Hp.
  rewrite (get_progress_change_settled s sl tl ego Hs Ht).
  rewrite (get_progress_change_on_lanes _ sl tl lc T c p ego sw tw S Hp R).
  assert (B : progress_at T c sw tw (location ego) <= 1).
  { unfold progress_at.
    assert (Pc : 0 < c).
    { rewrite Ec. apply Qlt_shift_div_l; [reflexivity|]. lra. }
    assert (X1 : (T - distance (location ego) (location (transform tw))) / c
                 <= inject_Z 10).
    { apply Qle_shift_div_r; [exact Pc|]. rewrite Ec.
      setoid_replace (inject_Z 10 * (T / 10)) with T
        by (change (inject_Z 10) with 10; field).
      lra. }
    pose proof (int_at_most _ 10 ltac:(lia) X1) as I.
    assert (F : inject_Z (Py.int ((T - distance (location ego) (location (transform tw))) / c))
                / checkpoints_number <= 1).
    { unfold checkpoints_number. apply Qle_shift_div_r; [reflexivity|].
      rewrite Qmult_1_l. change 10 with (inject_Z 10). rewrite <- Zle_Qle. exact I. }
    destruct (passed_target_centerline T sw tw (location ego)); cbn [negb Py.of_bool].
    - rewrite Qmult_0_l. discriminate.
    - rewrite Qmult_1_l. exact F. }
  do 3 eexists. split; [reflexivity|]. split; [reflexivity|].
  split; [exact B|]. lra.
Qed.

Lemma total_fixed_consistent T s :
  total_fixed T (T / checkpoints_number) s -> checkpoints_consistent s.
Proof.
  intros [HT Hc]. unfold checkpoints_consistent. rewrite HT, Hc. reflexivity.
Qed.

Lemma get_progress_change_keeps_consistent ego :
  preserves checkpoints_consistent (_get_progress_change ego).
Proof.
  intros s P. unfold checkpoints_consistent in P.
  destruct (_total_distance_m s) as [T|] eqn:HT;
    destruct (_checkpoints_distance_m s) as [c|] eqn:Hc; try contradiction.
  - subst c. apply (total_fixed_consistent T).
    apply get_progress_change_keeps_total. split; assumption.
  - unfold _get_progress_change. run.
    destruct (_start_lane_waypoint s) as [sl|];
      [|unfold checkpoints_consistent; cbn [self_of fst snd]; rewrite HT, Hc; exact I].
    run.
    destruct (_target_lane_waypoint s) as [tl|];
      [|unfold checkpoints_consistent; cbn [self_of fst snd]; rewrite HT, Hc; exact I].
    run. rewrite HT. run.
    apply (total_fixed_consistent (distance (location ego) (location (transform tl)))).
    match goal with
    | |- total_fixed ?T ?c (self_of (?k ?s0)) =>
        assert (K : preserves (total_fixed T c) k);
        [|apply (K s0); split; reflexivity]
    end.
    repeat first [ keeps_step
                 | apply calc_progress_change_keeps_total
                 | apply preserves_still; intro; apply by_command_still ].
Qed.

(** X18 -- the checkpoint distance follows the total distance.  A [reset]
    that returns leaves both unset; every step, returned or raised, keeps
    them both unset or both set with the checkpoint distance a tenth of
    the total distance. *)
Theorem checkpoints_follow_total (vehicle ego_vehicle : Vehicle) (rinp : ResetInput)
    (sinp : StepInput) (s : Self) :
  (forall s' t, reset vehicle rinp s = (Ret tt, s', t) -> checkpoints_consistent s')
  /\ (checkpoints_consistent s ->
      checkpoints_consistent (self_of (step ego_vehicle sinp s))).
Proof.
  split.
  - intros s' t R. destruct (reset_inv _ _ _ _ _ R) as (lc & agent & I).
    cbv zeta in I. destruct I as (_ & _ & _ & _ & -> & _). exact I.
  - revert s. change (preserves checkpoints_consistent (step ego_vehicle sinp)).
    unfold step, step_locals, _is_lane_aligned. cbv zeta.
    repeat first [ apply get_progress_change_keeps_consistent
                 | keeps_step
                 | assumption ].
Qed.

End Scoring.

(** ** More of the alignment detector and the partitioner *)

Section Counting.

Context {W : Collaborators}.

(** X19 -- a missed completion is not reported later.  Completion is
    reported only when the counter is exactly 10: entered with a counter
    of 10 or more, a streak of aligned frames reports completion on none
    of its frames, however long; the counter must first be reset by a
    frame that is not aligned. *)
Theorem late_streak_never_completes (s : Self) (c : Z)
    (streak : list (Transform * Waypoint)) :
  _target_alignment_counter s = Some c ->
  (TARGET_LANE_ALIGNMENT_FRAMES <= c)%Z ->
  Forall aligned_frame streak ->
  result_of (detector_run streak s) = Ret (repeat false (List.length streak))
  /\ _target_alignment_counter (self_of (detector_run streak s))
     = Some (c + Z.of_nat (List.length streak))%Z.
Proof.
  intros C L A.
  destruct (detector_run_streak streak A s c C) as (R1 & R2 & _).
  split; [|exact R2]. rewrite R1. f_equal.
  unfold TARGET_LANE_ALIGNMENT_FRAMES in *.
  assert (G : forall n k,
            map (fun k0 => Z.eqb (c + Z.of_nat k0 + 1) 10) (seq k n) = repeat false n).
  { induction n as [|n IH]; intro k; [reflexivity|].
    cbn [seq map repeat]. f_equal; [|apply IH].
    apply Z.eqb_neq. lia. }
  apply G.
Qed.

(** X20 -- the two modes partition the recording.  Every instant of a
    recording is kept by [__init__] for exactly one of TRAIN and
    VALIDATION, and the two lists together have as many entries as the
    recording. *)
Theorem partition_covers (ngsim_dataset : NGSimDataset) (reward_type : RewardType)
    (recording : NGSimRecording) :
  (forall x, In x (lane_change_instants recording)
             <-> In x (_lane_change_instants
                         (fst (__init__ ngsim_dataset TRAIN reward_type recording)))
                 \/ In x (_lane_change_instants
                            (fst (__init__ ngsim_dataset VALIDATION reward_type recording))))
  /\ (forall x, In x (_lane_change_instants
                        (fst (__init__ ngsim_dataset TRAIN reward_type recording))) ->
                ~ In x (_lane_change_instants
                          (fst (__init__ ngsim_dataset VALIDATION reward_type recording))))
  /\ (List.length (_lane_change_instants
                     (fst (__init__ ngsim_dataset TRAIN reward_type recording)))
      + List.length (_lane_change_instants
                       (fst (__init__ ngsim_dataset VALIDATION reward_type recording)))
      = List.length (lane_change_instants recording))%nat.
Proof.
  cbn [__init__ fst _lane_change_instants].
  split; [|split].
  - intro x. rewrite !filter_In, !DatasetMode_eqb_eq.
    destruct (determine_split x); intuition congruence.
  - intros x I1 I2. rewrite filter_In, DatasetMode_eqb_eq in I1, I2.
    destruct I1 as [_ I1], I2 as [_ I2]. congruence.
  - induction (lane_change_instants recording) as [|x l IH]; [reflexivity|].
    cbn [filter]. destruct (determine_split x); cbn [DatasetMode_eqb List.length]; lia.
Qed.

End Counting.

(** ** Runs in the concrete world *)

(** A step far from the target lane leaves the total distance of the
    episode as the first step fixed it. *)
Lemma total_distance_fixed_witness :
  _total_distance_m
    (self_of (step (W := Demo.world) (Demo.ego (-1) 0) (Demo.frame false)
                   (Demo.scored DENSE (3 # 2))))
  = _total_distance_m (Demo.scored DENSE (3 # 2)).
Proof.
  eassert (P : total_fixed _ _
                 (self_of (step (W := Demo.world) (Demo.ego (-1) 0) (Demo.frame false)
                                (Demo.scored DENSE (3 # 2))))).
  { eapply (fun T c H =>
              proj2 (total_distance_fixed (W := Demo.world) T c (Demo.ego (-1) 0)
                       (Demo.frame false) (Demo.scored DENSE (3 # 2)) H)).
    split; reflexivity. }
  destruct P as [P _]. exact P.
Defined.

Lemma counter_counts_witness :
  counter_nonneg
    (self_of (step (W := Demo.world) (Demo.ego 0 0) (Demo.frame false)
                   (Demo.after_reset DENSE 0 0))).
Proof.
  refine (proj1 (counter_counts (W := Demo.world) (Demo.ego 0 0) (Demo.frame false)
                   (Demo.after_reset DENSE 0 0) _)).
  exists 0%Z. split; [reflexivity|lia].
Defined.

(** A [reset] in the middle of a scored episode.  The recorded agent is on
    the centre line of lane 1 while the vehicle handed to [reset] stands
    at y = 5 m, in lane 2: the start lane is lane 1 and the target lane
    lane 2. *)
Lemma reset_reseeds_witness :
  _total_distance_m
    (self_of (reset (W := Demo.world) (Demo.ego 5 0) (Demo.reset_input 0)
                    (Demo.scored DENSE (3 # 2)))) = None
  /\ _target_alignment_counter
       (self_of (reset (W := Demo.world) (Demo.ego 5 0) (Demo.reset_input 0)
                       (Demo.scored DENSE (3 # 2)))) = Some 0%Z
  /\ option_map lane_id
       (_start_lane_waypoint
          (self_of (reset (W := Demo.world) (Demo.ego 5 0) (Demo.reset_input 0)
                          (Demo.scored DENSE (3 # 2))))) = Some 1%Z
  /\ option_map lane_id
       (_target_lane_waypoint
          (self_of (reset (W := Demo.world) (Demo.ego 5 0) (Demo.reset_input 0)
                          (Demo.scored DENSE (3 # 2))))) = Some 2%Z.
Proof.
  destruct (reset (W := Demo.world) (Demo.ego 5 0) (Demo.reset_input 0)
              (Demo.scored DENSE (3 # 2))) as [[[u|e] s'] t] eqn:E;
    [destruct u|vm_compute in E; discriminate].
  destruct (reset_reseeds (W := Demo.world) _ _ _ _ _ E)
    as (lc & agent & L & _ & C & _ & T & _ & _ & Fm & St & Tg & _).
  assert (Lc : lc = Demo.instant "F" 100).
  { apply (f_equal (fun x => _lane_change (snd (fst x)))) in E.
    cbn [fst snd] in E. rewrite L in E. vm_compute in E.
    injection E as E. symmetry. exact E. }
  subst lc.
  assert (A : agent = Demo.agent 0).
  { vm_compute in Fm. injection Fm as Fm. symmetry. exact Fm. }
  subst agent. cbn [self_of fst snd].
  split; [exact T|]. split; [exact C|].
  split; [rewrite St; reflexivity|].
  destruct Tg as [[_ Tg]|[Ec _]]; [rewrite Tg; reflexivity|discriminate Ec].
Defined.

(** The same [reset]: the handles of the running episode are closed
    before their replacements are created. *)
Lemma reset_call_order_witness :
  exists rest,
    calls_of (reset (W := Demo.world) (Demo.ego 0 0) (Demo.reset_input 0)
                    (Demo.scored DENSE (3 # 2)))
    = VehiclesInCarla_close :: VehiclesInCarla_new :: EarlyStopMonitor_close :: rest.
Proof.
  destruct (reset (W := Demo.world) (Demo.ego 0 0) (Demo.reset_input 0)
              (Demo.scored DENSE (3 # 2))) as [[[u|e] s'] t] eqn:E;
    [destruct u|vm_compute in E; discriminate].
  destruct (reset_call_order (W := Demo.world) _ _ _ _ _ E)
    as (lc & placed & velocity & others & _ & T & _).
  unfold calls_of. cbn [snd]. rewrite T. eexists. reflexivity.
Defined.

Lemma selected_maneuver_in_mode_witness :
  exists lc,
    _lane_change
      (self_of (reset (W := Demo.world) (Demo.ego 0 0) (Demo.reset_input 0)
                      (Demo.fresh TRAIN DENSE))) = Some lc
    /\ determine_split (W := Demo.world) lc = TRAIN.
Proof.
  destruct (reset (W := Demo.world) (Demo.ego 0 0) (Demo.reset_input 0)
              (Demo.fresh TRAIN DENSE)) as [[[u|e] s'] t] eqn:E;
    [destruct u|vm_compute in E; discriminate].
  destruct (selected_maneuver_in_mode (W := Demo.world) (Demo.ego 0 0)
              (Demo.reset_input 0) (Demo.fresh TRAIN DENSE) s' t Demo.recording
              eq_refl E) as (lc & L & _ & D & _).
  exists lc. unfold self_of. cbn [fst snd]. split; [exact L|]. rewrite D.
  vm_compute in E. injection E as <- _. reflexivity.
Defined.

(** The agent recorded in the leftmost lane with a change-left maneuver:
    [reset] returns, and the first step raises. *)
Lemma missing_neighbour_lane_witness :
  result_of (step (W := Demo.world) (Demo.ego 7 0) (Demo.frame false)
                  (Demo.after_reset DENSE 0 7)) = Raise AttributeError.
Proof.
  destruct (reset (W := Demo.world) (Demo.ego 7 0) (Demo.reset_input 7)
              (Demo.fresh TRAIN DENSE)) as [[[u|e] s'] t] eqn:E;
    [destruct u|vm_compute in E; discriminate].
  assert (S : Demo.after_reset DENSE 0 7 = s').
  { unfold Demo.after_reset.
    change {| choice_index := 0; reset_vehicles := [Demo.other; Demo.agent 7] |}
      with (Demo.reset_input 7).
    rewrite E. reflexivity. }
  rewrite S.
  refine (proj1 (proj2 (missing_neighbour_lane (W := Demo.world) (Demo.ego 7 0)
                          (Demo.ego 7 0) (Demo.reset_input 7) (Demo.frame false)
                          (Demo.fresh TRAIN DENSE) s' t E _))).
  intros lc start L St. vm_compute in E. injection E as <- _.
  injection L as <-. injection St as <-. split; [reflexivity|discriminate].
Defined.

Lemma reset_unknown_command_witness :
  result_of (reset (W := Demo.world) (Demo.ego 0 0) (Demo.reset_input 0)
               (fst (__init__ (W := Demo.world) {| dataset_name := "I80" |} TRAIN DENSE
                              Demo.follow_recording)))
  = Raise KeyError.
Proof.
  refine (proj1 (reset_unknown_command (W := Demo.world) (Demo.ego 0 0)
                   (Demo.reset_input 0) _ _ Demo.follow_recording (Demo.agent 0)
                   _ _ _ _)); reflexivity.
Defined.

Lemma step_forwards_others_witness :
  exists rest,
    calls_of (step (W := Demo.world) (Demo.ego 0 0) (Demo.frame false)
                   (Demo.after_reset DENSE 0 0))
    = NGSimRecording_step :: VehiclesInCarla_step [Demo.other] :: rest.
Proof.
  destruct (step (W := Demo.world) (Demo.ego 0 0) (Demo.frame false)
              (Demo.after_reset DENSE 0 0)) as [[[r|e] s2] t] eqn:E;
    [|vm_compute in E; discriminate].
  destruct (step_forwards_others (W := Demo.world) _ _ _ _ _ _ E)
    as (lc & locals & s' & L & _ & T & _).
  unfold calls_of. cbn [snd]. rewrite T.
  vm_compute in L. injection L as <-. eexists. reflexivity.
Defined.

(** The agent in lane 3, the monitor silent, the reward dense: an early
    stop with reward -1. *)
Lemma off_lanes_step_stops_witness :
  exists r s2 t,
    step (W := Demo.world) (Demo.ego 8 0) (Demo.frame false) (Demo.after_reset DENSE 0 0)
    = (Ret r, s2, t)
    /\ done r = true /\ reward r == -1.
Proof.
  destruct (step (W := Demo.world) (Demo.ego 8 0) (Demo.frame false)
              (Demo.after_reset DENSE 0 0)) as [[[r|e] s2] t] eqn:E;
    [|vm_compute in E; discriminate].
  exists r, s2, t. split; [reflexivity|].
  destruct (off_lanes_step_stops (W := Demo.world) _ _ _ _ _ _
              (Demo.waypoint_at 1 0) (Demo.waypoint_at 2 0) E)
    as (D & Rw & _); try reflexivity.
  - split; reflexivity.
  - split; assumption.
Defined.

Lemma sparse_reward_values_witness :
  exists r s2 t,
    step (W := Demo.world) (Demo.ego (35 # 10) 0) (Demo.frame true)
         (Demo.nearly_done SPARSE)
    = (Ret r, s2, t)
    /\ (reward r == 1 \/ reward r == -1 \/ reward r == 0).
Proof.
  destruct (step (W := Demo.world) (Demo.ego (35 # 10) 0) (Demo.frame true)
              (Demo.nearly_done SPARSE)) as [[[r|e] s2] t] eqn:E;
    [|vm_compute in E; discriminate].
  exists r, s2, t. split; [reflexivity|].
  destruct (sparse_reward_values (W := Demo.world) _ _ _ _ _ _ E eq_refl)
    as (locals & s' & pc & _ & _ & [X|[X|X]]); tauto.
Defined.

(** The episode with total distance 2 m: the run retreats to y = -1 m
    (progress -1.2), leaves both lanes at y = 6 m, comes back to y = 2 m
    and leaves again; the progress stored at the end is that of y = 2 m,
    1/5. *)
Lemma progress_follows_last_frame_witness :
  exists ds s' q,
    progress_run (W := Demo.world)
      [Demo.pose (-1) 0; Demo.pose 6 0; Demo.pose 2 0; Demo.pose 6 0]
      (Demo.scored DENSE (3 # 2))
    = (Ret ds, s', [])
    /\ _previous_progress s' = Some q /\ q == 1 # 5.
Proof.
  edestruct (progress_follows_last_frame (W := Demo.world) (Demo.scored DENSE (3 # 2)))
    with (frames := [Demo.pose (-1) 0; Demo.pose 6 0; Demo.pose 2 0; Demo.pose 6 0])
    as (ds & s' & R & _ & P & _).
  - repeat split; try reflexivity. intro E. vm_compute in E. discriminate.
  - reflexivity.
  - apply Forall_cons; [left; eexists; eexists; reflexivity|].
    apply Forall_cons; [right; split; reflexivity|].
    apply Forall_cons; [left; eexists; eexists; reflexivity|].
    apply Forall_cons; [right; split; reflexivity|]. apply Forall_nil.
  - eexists ds, s', _. split; [exact R|]. split; [exact P|]. reflexivity.
Defined.

(** The first step of an episode finds the ego exactly on the target
    lane's waypoint. *)
Lemma zero_total_distance_raises_witness :
  result_of (_get_progress_change (W := Demo.world) (Demo.pose (35 # 10) 0)
               (Demo.after_reset DENSE 0 0)) = Raise ZeroDivisionError.
Proof.
  refine (proj1 (zero_total_distance_raises (W := Demo.world)
                   (Demo.after_reset DENSE 0 0) _ _ _ (Demo.pose (35 # 10) 0)
                   (Demo.pose 0 0) _ _ _ _ _ _ _ _ _ _ _)); reflexivity.
Defined.

(** Total distance 2 m, checkpoints of 0.2 m; at y = 1.4 m the agent is
    0.1 m farther from the target than at the start: progress 0. *)
Lemma progress_dead_zone_witness :
  exists d s' q,
    _get_progress_change (W := Demo.world) (Demo.pose (14 # 10) 0)
      (Demo.scored DENSE (3 # 2)) = (Ret d, s', [])
    /\ _previous_progress s' = Some q /\ q == 0.
Proof.
  edestruct (progress_dead_zone (W := Demo.world) (Demo.scored DENSE (3 # 2)))
    with (ego := Demo.pose (14 # 10) 0)
    as (d & s' & q & R & P & Z & _).
  - repeat split; try reflexivity. intro E. vm_compute in E. discriminate.
  - reflexivity.
  - reflexivity.
  - reflexivity.
  - reflexivity.
  - reflexivity.
  - exists d, s', q. repeat split; assumption.
Defined.

Lemma progress_at_most_one_witness :
  exists d s' q,
    _get_progress_change (W := Demo.world) (Demo.pose (-1) 0)
      (Demo.scored DENSE (3 # 2)) = (Ret d, s', [])
    /\ _previous_progress s' = Some q /\ q <= 1.
Proof.
  edestruct (progress_at_most_one (W := Demo.world) (Demo.scored DENSE (3 # 2)))
    with (ego := Demo.pose (-1) 0)
    as (d & s' & q & R & P & B & _).
  - repeat split; try reflexivity. intro E. vm_compute in E. discriminate.
  - reflexivity.
  - reflexivity.
  - reflexivity.
  - reflexivity.
  - discriminate.
  - exists d, s', q. repeat split; assumption.
Defined.

(** After the tenth aligned frame the counter is 10: three more aligned
    frames report nothing. *)
Lemma late_streak_never_completes_witness :
  result_of
    (detector_run (W := Demo.world) (repeat (Demo.detector_frame (35 # 10) 0) 3)
       (self_of (step (W := Demo.world) (Demo.ego (35 # 10) 0) (Demo.frame false)
                      (Demo.nearly_done DENSE))))
  = Ret [false; false; false].
Proof.
  refine (proj1 (late_streak_never_completes (W := Demo.world) _ 10
                   (repeat (Demo.detector_frame (35 # 10) 0) 3) _ _ _)).
  - reflexivity.
  - discriminate.
  - repeat constructor.
Defined.

Lemma checkpoints_follow_total_witness :
  checkpoints_consistent
    (self_of (step (W := Demo.world) (Demo.ego 0 0) (Demo.frame false)
                   (Demo.after_reset DENSE 0 0))).
Proof.
  refine (proj2 (checkpoints_follow_total (W := Demo.world) (Demo.ego 0 0)
                   (Demo.ego 0 0) (Demo.reset_input 0) (Demo.frame false)
                   (Demo.after_reset DENSE 0 0)) _).
  exact I.
Defined.
